(** * ai-reasoning-hub: the paper pipeline, embedded and verified

    A shallow embedding of the Python sources

      - [tools/summarize_papers.py]   (selection, triage, summarisation, digest)
      - [tools/llm_summary.py]        (provider adapter, relevance triage)
      - [tools/collect_weekly_papers.py] (ingestion and de-duplication)
      - [app.py]                      (score breakdown shown on a card)

    Python [str] values are modelled as sequences of code points below
    U+0100 (Rocq's [string]); on that range the built-in methods used by
    the sources ([splitlines], [strip], [lower], [upper], [split],
    [replace], [startswith], slicing) are written out exactly.  Exceptions
    are values of [exn]; code that can raise returns a [result]. *)

From Stdlib Require Import Strings.String Strings.Ascii.
From Stdlib Require Import Numbers.DecimalString Numbers.DecimalPos.
From Stdlib Require Import Lists.List.
From Stdlib Require Import Arith.Arith Arith.PeanoNat.
From Stdlib Require Import ZArith.ZArith.
From Stdlib Require Import micromega.Lia.
From Stdlib Require Import Bool.Bool.
Import ListNotations.

Open Scope list_scope.
Open Scope string_scope.
Open Scope nat_scope.

(* ================================================================= *)
(** ** Exceptions and results *)

(** The exception classes that the sources raise, catch or name.  All of
    them derive from Python's [Exception]. *)
Inductive exn : Type :=
  | IndexError
  | AttributeError
  | OverflowError
  | ValueError (msg : string)
  | RuntimeError (msg : string)
  | ImportError (module_name : string)
  (* openai SDK *)
  | OpenAIError
  | APIConnectionError
  | APITimeoutError
  | RateLimitError
  | InternalServerError
  | AuthenticationError
  | BadRequestError
  (* anthropic SDK, requests, google-generativeai *)
  | AnthropicStatusError (status : nat)
  | HTTPError (status : nat)
  | RequestsConnectionError
  | GoogleAPIError (msg : string)
  (* sqlite3 *)
  | IntegrityError
  | OperationalError
  (* tenacity *)
  | RetryError (last : exn).

Inductive result (A : Type) : Type :=
  | Ok (a : A)
  | Raise (e : exn).
Arguments Ok {A} a.
Arguments Raise {A} e.

Definition is_ok {A} (r : result A) : bool :=
  match r with Ok _ => true | Raise _ => false end.

(* ================================================================= *)
(** ** Python [str] on code points below U+0100 *)

Module PyStr.

Definition code (c : ascii) : nat := nat_of_ascii c.

Definition in_range (lo hi n : nat) : bool := (lo <=? n) && (n <=? hi).

(** Line boundaries of [str.splitlines]: LF, VT, FF, CR, FS, GS, RS, NEL. *)
Definition is_linebreak (c : ascii) : bool :=
  let n := code c in
  in_range 10 13 n || in_range 28 30 n || (n =? 133).

(** [str.isspace] per character: TAB..CR, FS..US, SPACE, NEL, NBSP. *)
Definition is_space (c : ascii) : bool :=
  let n := code c in
  in_range 9 13 n || in_range 28 32 n || (n =? 133) || (n =? 160).

Definition is_empty (s : string) : bool :=
  match s with EmptyString => true | String _ _ => false end.

(** Truthiness of a [str]: non-empty. *)
Definition truthy (s : string) : bool := negb (is_empty s).

(** [s.splitlines()]: the line is cut at each boundary, CR LF counts as
    one boundary, and no empty line is produced after a final boundary. *)
Fixpoint splitlines_from (cur : string) (s : string) : list string :=
  match s with
  | EmptyString => if is_empty cur then [] else [cur]
  | String c s' =>
      if is_linebreak c then
        cur ::
        (if (code c =? 13) then
           match s' with
           | String d s'' =>
               if (code d =? 10) then splitlines_from EmptyString s''
               else splitlines_from EmptyString s'
           | EmptyString => splitlines_from EmptyString s'
           end
         else splitlines_from EmptyString s')
      else splitlines_from (cur ++ String c EmptyString) s'
  end.

Definition splitlines (s : string) : list string :=
  splitlines_from EmptyString s.

Fixpoint lstrip (s : string) : string :=
  match s with
  | EmptyString => EmptyString
  | String c s' => if is_space c then lstrip s' else s
  end.

Fixpoint rstrip (s : string) : string :=
  match s with
  | EmptyString => EmptyString
  | String c s' =>
      let r := rstrip s' in
      if is_space c && is_empty r then EmptyString else String c r
  end.

(** [s.strip()] *)
Definition strip (s : string) : string := rstrip (lstrip s).

(** The text is not empty and does not begin with white space. *)
Definition heads_nonspace (s : string) : bool :=
  match s with
  | EmptyString => false
  | String c _ => negb (is_space c)
  end.

(** [str.lower] per character: A-Z and the Latin-1 capitals U+00C0..U+00DE
    (except the multiplication sign) move up by 32. *)
Definition lower_char (c : ascii) : ascii :=
  let n := code c in
  if in_range 65 90 n || (in_range 192 222 n && negb (n =? 215))
  then ascii_of_nat (n + 32) else c.

Fixpoint lower (s : string) : string :=
  match s with
  | EmptyString => EmptyString
  | String c s' => String (lower_char c) (lower s')
  end.

(** [s.replace(ch, "")] for a one-character [ch]. *)
Fixpoint remove_char (ch : ascii) (s : string) : string :=
  match s with
  | EmptyString => EmptyString
  | String c s' =>
      if Ascii.eqb c ch then remove_char ch s' else String c (remove_char ch s')
  end.

Fixpoint startswith (s p : string) : bool :=
  match p, s with
  | EmptyString, _ => true
  | String _ _, EmptyString => false
  | String a p', String c s' => Ascii.eqb a c && startswith s' p'
  end.

(** [needle in s] *)
Fixpoint contains (s needle : string) : bool :=
  startswith s needle ||
  match s with
  | EmptyString => false
  | String _ s' => contains s' needle
  end.

(** [s[:n]] *)
Fixpoint take (n : nat) (s : string) : string :=
  match n, s with
  | O, _ => EmptyString
  | _, EmptyString => EmptyString
  | S n', String c s' => String c (take n' s')
  end.

(** [s.split(sep)] for a one-character [sep]: always at least one field. *)
Fixpoint split_from (sep : ascii) (cur : string) (s : string) : list string :=
  match s with
  | EmptyString => [cur]
  | String c s' =>
      if Ascii.eqb c sep then cur :: split_from sep EmptyString s'
      else split_from sep (cur ++ String c EmptyString) s'
  end.

Definition split (sep : ascii) (s : string) : list string :=
  split_from sep EmptyString s.

(** [s.split(sep, 1)] when [sep] occurs in [s]: the text before the first
    separator and the text after it; [None] when [sep] does not occur. *)
Fixpoint split_once_from (sep : ascii) (cur : string) (s : string)
  : option (string * string) :=
  match s with
  | EmptyString => None
  | String c s' =>
      if Ascii.eqb c sep then Some (cur, s')
      else split_once_from sep (cur ++ String c EmptyString) s'
  end.

Definition split_once (sep : ascii) (s : string) : option (string * string) :=
  split_once_from sep EmptyString s.

(** [sep.join(parts)] *)
Fixpoint join (sep : string) (parts : list string) : string :=
  match parts with
  | [] => EmptyString
  | [p] => p
  | p :: rest => p ++ sep ++ join sep rest
  end.

End PyStr.

(* ================================================================= *)
(** ** tools/summarize_papers.py: [extract_tldr] *)

Module Digest.
Import PyStr.

(** [low.startswith("# tldr") or low.startswith("## tldr")] with
    [low = l.lower().replace(";", "")] *)
Definition is_tldr_heading (l : string) : bool :=
  let low := remove_char ";" (lower l) in
  startswith low "# tldr" || startswith low "## tldr".

(** [range(a, b)] *)
Definition range (a b : nat) : list nat := seq a (b - a).

(** The inner loop: [for j in range(...): if lines[j]: return lines[j]].
    [None] means the loop ran to its end without returning. *)
Fixpoint first_nonblank_at (lines : list string) (js : list nat)
  : result (option string) :=
  match js with
  | [] => Ok None
  | j :: js' =>
      match nth_error lines j with
      | None => Raise IndexError
      | Some lj => if truthy lj then Ok (Some lj) else first_nonblank_at lines js'
      end
  end.

(** The outer loop over [enumerate(lines)]. *)
Fixpoint scan_headings (lines : list string) (i : nat) (rest : list string)
  : result (option string) :=
  match rest with
  | [] => Ok None
  | l :: rest' =>
      if is_tldr_heading l then
        match first_nonblank_at lines
                (range (i + 1) (Nat.min (i + 6) (List.length lines))) with
        | Raise e => Raise e
        | Ok (Some d) => Ok (Some d)
        | Ok None => scan_headings lines (S i) rest'
        end
      else scan_headings lines (S i) rest'
  end.

(** The fallback loop: [for l in lines: if l: return l[:280]]. *)
Fixpoint first_nonblank (lines : list string) : option string :=
  match lines with
  | [] => None
  | l :: rest => if truthy l then Some l else first_nonblank rest
  end.

Definition fallback (lines : list string) : string :=
  match first_nonblank lines with
  | Some l => take 280 l
  | None => EmptyString
  end.

Definition stripped_lines (markdown : string) : list string :=
  map strip (splitlines markdown).

Definition extract_tldr (markdown : string) : result string :=
  let lines := stripped_lines markdown in
  match scan_headings lines 0 lines with
  | Raise e => Raise e
  | Ok (Some d) => Ok d
  | Ok None => Ok (fallback lines)
  end.

(** A digest found under a heading: line [j] of the stripped lines, not
    empty, at most five lines below a heading at line [i], with only empty
    lines between the two. *)
Definition under_heading (lines : list string) (d : string) : Prop :=
  exists i j h,
    nth_error lines i = Some h /\ is_tldr_heading h = true /\
    i < j <= i + 5 /\ nth_error lines j = Some d /\ d <> EmptyString /\
    forall k, i < k < j -> nth_error lines k = Some EmptyString.

(** No heading has a non-empty line among the five lines after it. *)
Definition no_heading_hit (lines : list string) : Prop :=
  forall i h, nth_error lines i = Some h -> is_tldr_heading h = true ->
              forall k, i < k <= i + 5 -> k < List.length lines ->
                        nth_error lines k = Some EmptyString.

End Digest.

(* ================================================================= *)
(** ** Python [float(str)] and [int(float)] *)

Module PyFloat.
Import PyStr.
Open Scope Z_scope.

(** A binary64 value: not-a-number, an infinity, or [(-1)^neg * m * 2^e]. *)
Inductive pyfloat : Type :=
  | FNan
  | FInf (neg : bool)
  | FFin (neg : bool) (m e : Z).

(** Round the positive rational [n / d] to the nearest binary64 value, ties
    to even: 53 significant bits, least exponent -1074, and infinity from
    2^1024 on. *)
Definition round_binary64 (neg : bool) (n d : Z) : pyfloat :=
  if n =? 0 then FFin neg 0 0 else
  let k0 := Z.log2 n - Z.log2 d in
  let below := if 0 <=? k0 then n <? d * 2 ^ k0 else n * 2 ^ (- k0) <? d in
  let k := if below then k0 - 1 else k0 in
  let e := Z.max (k - 52) (-1074) in
  let num := if 0 <=? e then n else n * 2 ^ (- e) in
  let den := if 0 <=? e then d * 2 ^ e else d in
  let q := num / den in
  let r := num mod den in
  let m := if 2 * r <? den then q
           else if den <? 2 * r then q + 1
           else if Z.even q then q else q + 1 in
  if (0 <=? e) && (2 ^ 1024 <=? m * 2 ^ e) then FInf neg else FFin neg m e.

Definition is_digit (c : ascii) : bool := in_range 48 57 (code c).

Definition digit_val (c : ascii) : Z := Z.of_nat (code c) - 48.

(** Every character is a decimal digit. *)
Fixpoint all_digits (s : string) : bool :=
  match s with
  | EmptyString => true
  | String c s' => is_digit c && all_digits s'
  end.

(** Leading decimal digits of [s]: their value, their number, the rest. *)
Fixpoint read_digits (acc : Z) (cnt : nat) (s : string) : Z * nat * string :=
  match s with
  | String c s' =>
      if is_digit c then read_digits (10 * acc + digit_val c) (S cnt) s'
      else (acc, cnt, s)
  | EmptyString => (acc, cnt, s)
  end.

(** An underscore is accepted only between two digits; accepted ones are
    dropped.  [prev_digit] and [prev_us] describe the previous character. *)
Fixpoint drop_underscores (prev_digit prev_us : bool) (s : string)
  : option string :=
  match s with
  | EmptyString => if prev_us then None else Some EmptyString
  | String c s' =>
      if Ascii.eqb c "_" then
        if prev_digit then drop_underscores false true s' else None
      else if prev_us && negb (is_digit c) then None
      else
        match drop_underscores (is_digit c) false s' with
        | Some r => Some (String c r)
        | None => None
        end
  end.

(** The exponent part: [e] or [E], an optional sign and at least one digit,
    up to the end of the text. *)
Definition read_exponent (s : string) : option Z :=
  match s with
  | EmptyString => Some 0
  | String c s' =>
      if Ascii.eqb c "e" || Ascii.eqb c "E" then
        let '(sg, s'') :=
          match s' with
          | String d t =>
              if Ascii.eqb d "+" then (1, t)
              else if Ascii.eqb d "-" then (-1, t)
              else (1, s')
          | EmptyString => (1, s')
          end in
        match read_digits 0 0 s'' with
        | (v, S _, EmptyString) => Some (sg * v)
        | _ => None
        end
      else None
  end.

(** The unsigned decimal literal: digits, an optional point and digits (one
    digit at least in all), an optional exponent. *)
Definition read_decimal (neg : bool) (s : string) : option pyfloat :=
  let '(ip, ic, s1) := read_digits 0 0 s in
  let '(mant, fc, s2) :=
    match s1 with
    | String c t =>
        if Ascii.eqb c "." then read_digits ip 0 t else (ip, O, s1)
    | EmptyString => (ip, O, s1)
    end in
  match (ic + fc)%nat with
  | O => None
  | S _ =>
      match read_exponent s2 with
      | None => None
      | Some ex =>
          let p := ex - Z.of_nat fc in
          Some (if 0 <=? p then round_binary64 neg (mant * 10 ^ p) 1
                else round_binary64 neg mant (10 ^ (- p)))
      end
  end.

Definition float_space_to_ascii (c : ascii) : ascii :=
  if (code c =? 133)%nat || (code c =? 160)%nat then " "%char else c.

Fixpoint map_chars (f : ascii -> ascii) (s : string) : string :=
  match s with
  | EmptyString => EmptyString
  | String c s' => String (f c) (map_chars f s')
  end.

Definition is_c_space (c : ascii) : bool :=
  in_range 9 13 (code c) || (code c =? 32)%nat.

Fixpoint lstrip_c (s : string) : string :=
  match s with
  | EmptyString => EmptyString
  | String c s' => if is_c_space c then lstrip_c s' else s
  end.

Fixpoint rstrip_c (s : string) : string :=
  match s with
  | EmptyString => EmptyString
  | String c s' =>
      let r := rstrip_c s' in
      if is_c_space c && is_empty r then EmptyString else String c r
  end.

(** [float(s)] for a [str]: surrounding white space is ignored, then a
    signed [inf], [infinity], [nan] or decimal literal is read. *)
Definition float_of_str (s : string) : result pyfloat :=
  let bad := Raise (ValueError "could not convert string to float") in
  let t := rstrip_c (lstrip_c (map_chars float_space_to_ascii s)) in
  match drop_underscores false false t with
  | None => bad
  | Some u =>
      let '(neg, body) :=
        match u with
        | String c b =>
            if Ascii.eqb c "-" then (true, b)
            else if Ascii.eqb c "+" then (false, b)
            else (false, u)
        | EmptyString => (false, u)
        end in
      let low := lower body in
      if String.eqb low "inf" || String.eqb low "infinity" then Ok (FInf neg)
      else if String.eqb low "nan" then Ok FNan
      else match read_decimal neg body with
           | Some f => Ok f
           | None => bad
           end
  end.

(** [int(x)] for a float: truncation toward zero. *)
Definition int_of_float (x : pyfloat) : result Z :=
  match x with
  | FNan => Raise (ValueError "cannot convert float NaN to integer")
  | FInf _ => Raise OverflowError
  | FFin neg m e =>
      let a := if 0 <=? e then m * 2 ^ e else m / 2 ^ (- e) in
      Ok (if neg then - a else a)
  end.

End PyFloat.

(* ================================================================= *)
(** ** app.py: the score breakdown of a card *)

Module App.
Import PyStr PyFloat.

(** [BREAKDOWN_MAX = {"Novelty": 3, "Impact": 4, "Results": 2, "Access": 1}] *)
Definition BREAKDOWN_MAX : list (string * Z) :=
  [("Novelty", 3%Z); ("Impact", 4%Z); ("Results", 2%Z); ("Access", 1%Z)].

(** A [dict] with [str] keys, in insertion order. *)
Fixpoint dict_get {V} (d : list (string * V)) (k : string) : option V :=
  match d with
  | [] => None
  | (k', v) :: d' => if String.eqb k' k then Some v else dict_get d' k
  end.

Fixpoint dict_set {V} (d : list (string * V)) (k : string) (v : V)
  : list (string * V) :=
  match d with
  | [] => [(k, v)]
  | (k', v') :: d' =>
      if String.eqb k' k then (k', v) :: d' else (k', v') :: dict_set d' k v
  end.

(** The loop of [parse_breakdown] over the comma-separated fields. *)
Fixpoint parse_fields (parts : list (string * string)) (kvs : list string)
  : list (string * string) :=
  match kvs with
  | [] => parts
  | kv :: rest =>
      match split_once ":" kv with
      | Some (k, v) => parse_fields (dict_set parts (strip k) (strip v)) rest
      | None => parse_fields parts rest
      end
  end.

(** [parse_breakdown(breakdown)]; [None] is Python's [None]. *)
Definition parse_breakdown (breakdown : option string) : list (string * string) :=
  let text := match breakdown with
              | Some b => if truthy b then b else EmptyString
              | None => EmptyString
              end in
  parse_fields [] (split "," text).

(** What [_safe_int] is applied to: a [str] taken from the dictionary or
    the [int] default. *)
Inductive pyval : Type :=
  | VStr (s : string)
  | VInt (z : Z).

(** [float(v)] *)
Definition float_of (v : pyval) : result pyfloat :=
  match v with
  | VStr s => float_of_str s
  | VInt z => Ok (round_binary64 (z <? 0)%Z (Z.abs z) 1)
  end.

(** [_safe_int(v)]: [TypeError] and [ValueError] give 0, anything else
    that [int(float(v))] raises is passed on. *)
Definition _safe_int (v : pyval) : result Z :=
  let r := match float_of v with
           | Ok x => int_of_float x
           | Raise e => Raise e
           end in
  match r with
  | Raise (ValueError _) => Ok 0%Z
  | other => other
  end.

(** [bd.get(label, 0) or 0] *)
Definition get_or_zero (bd : list (string * string)) (label : string) : pyval :=
  match dict_get bd label with
  | Some v => if truthy v then VStr v else VInt 0
  | None => VInt 0
  end.

Definition labels : list string := ["Novelty"; "Impact"; "Results"; "Access"].

(** [str(z)] for an [int]. *)
Definition str_of_int (z : Z) : string :=
  DecimalString.NilZero.string_of_int (Z.to_int z).

(** One round of the loop over [labels]: the value shown and the maximum
    shown beside it ([0] when the label has none). *)
Definition segment_value (bd : list (string * string)) (label : string)
  : result (Z * Z) :=
  match _safe_int (get_or_zero bd label) with
  | Raise e => Raise e
  | Ok val =>
      let max_val := match dict_get BREAKDOWN_MAX label with
                     | Some m => m
                     | None => 0%Z
                     end in
      Ok (val, max_val)
  end.

Definition format_segment (label : string) (vm : Z * Z) : string :=
  let '(val, max_val) := vm in
  if (max_val =? 0)%Z then label ++ " " ++ str_of_int val
  else label ++ " " ++ str_of_int val ++ "/" ++ str_of_int max_val.

Fixpoint segment_values (bd : list (string * string)) (ls : list string)
  : result (list (string * (Z * Z))) :=
  match ls with
  | [] => Ok []
  | label :: rest =>
      match segment_value bd label with
      | Raise e => Raise e
      | Ok vm =>
          match segment_values bd rest with
          | Raise e => Raise e
          | Ok tl => Ok ((label, vm) :: tl)
          end
      end
  end.

(** The breakdown line of a card: nothing when the score is 0, else the
    text after "Breakdown: ". *)
Definition breakdown_values (score : Z) (score_breakdown : option string)
  : result (list (string * (Z * Z))) :=
  if (score =? 0)%Z then Ok []
  else segment_values (parse_breakdown score_breakdown) labels.

Definition breakdown_line (score : Z) (score_breakdown : option string)
  : result (option string) :=
  if (score =? 0)%Z then Ok None
  else match segment_values (parse_breakdown score_breakdown) labels with
       | Raise e => Raise e
       | Ok segs =>
           Ok (Some (join " | " (map (fun lv => format_segment (fst lv) (snd lv)) segs)))
       end.

End App.

(* ================================================================= *)
(** ** tools/llm_summary.py: the provider adapter *)

Module Provider.
Import PyStr.

(** Module-level configuration, read once from the environment. *)
Record provider_env : Type := {
  SUMMARY_PROVIDER : option string;   (* os.getenv("SUMMARY_PROVIDER") *)
  OPENAI_MODEL : string;
  ANTHROPIC_MODEL : string;
  OLLAMA_MODEL : string;
  GEMINI_MODEL : string;
  GOOGLE_API_KEY : option string;
  openai_sdk : bool;                  (* [from openai import ...] succeeds *)
  anthropic_sdk : bool;               (* [from anthropic import Anthropic] succeeds *)
  genai_sdk : bool                    (* [import google.generativeai] succeeds *)
}.

(** [PROVIDER = os.getenv("SUMMARY_PROVIDER", "openai").lower()] *)
Definition PROVIDER (env : provider_env) : string :=
  lower (match SUMMARY_PROVIDER env with Some v => v | None => "openai" end).

(** A chat completion of the openai SDK: [choices[0].message.content] and
    [usage.total_tokens] ([None] when [usage] is absent). *)
Record chat_completion : Type := {
  content : option string;
  usage : option Z
}.

(** The reply of the local Ollama server: the HTTP status and
    [message.content] of the JSON body when it is there. *)
Record ollama_reply : Type := {
  status : nat;
  message_content : option string
}.

(** The remote services.  Every request carries the number of the attempt
    that issues it, so that a service may fail first and succeed later. *)
Record backend : Type := {
  openai_client : result unit;                               (* OpenAI() *)
  openai_create : nat -> string -> string -> string -> result chat_completion;
                                   (* attempt, model, system text, user text *)
  anthropic_client : result unit;                            (* Anthropic() *)
  anthropic_create : nat -> string -> string -> result (list string);
  ollama_post : nat -> string -> string -> result ollama_reply;
  gemini_generate : string -> string -> string -> result string;
          (* model and the triage prompt's title and abstract: [response.text] *)
  openai_triage : string -> string -> result chat_completion
          (* gpt-4o-mini on the fallback prompt's title and abstract *)
}.

(** What [call_llm] returns: [{"text": ..., "tokens": ..., "model": ...}]. *)
Record llm_response : Type := {
  text : option string;
  tokens : option Z;
  model : string
}.

Definition concat_parts (parts : list string) : string :=
  fold_right String.append EmptyString parts.

(** The body of [call_llm], run once per attempt. *)
Definition call_llm_body (env : provider_env) (be : backend)
    (attempt : nat) (prompt : string) : result llm_response :=
  if String.eqb (PROVIDER env) "openai" then
    if negb (openai_sdk env) then
      Raise (RuntimeError "openai SDK not available - install openai package")
    else
      match openai_client be with
      | Raise e => Raise e
      | Ok _ =>
          match openai_create be attempt (OPENAI_MODEL env)
                  "You are a precise research summarizer." prompt with
          | Raise e => Raise e
          | Ok resp =>
              Ok {| text := content resp; tokens := usage resp;
                    model := OPENAI_MODEL env |}
          end
      end
  else if String.eqb (PROVIDER env) "anthropic" then
    if negb (anthropic_sdk env) then Raise (ImportError "anthropic")
    else
      match anthropic_client be with
      | Raise e => Raise e
      | Ok _ =>
          match anthropic_create be attempt (ANTHROPIC_MODEL env) prompt with
          | Raise e => Raise e
          | Ok parts =>
              Ok {| text := Some (concat_parts parts); tokens := None;
                    model := ANTHROPIC_MODEL env |}
          end
      end
  else if String.eqb (PROVIDER env) "ollama" then
    match ollama_post be attempt (OLLAMA_MODEL env) prompt with
    | Raise e => Raise e
    | Ok r =>
        (* r.raise_for_status() *)
        if (400 <=? status r) && (status r <? 600) then Raise (HTTPError (status r))
        else
          Ok {| text := Some (match message_content r with
                              | Some c => c
                              | None => EmptyString
                              end);
                tokens := None; model := OLLAMA_MODEL env |}
    end
  else Raise (RuntimeError ("Unknown SUMMARY_PROVIDER: " ++ PROVIDER env)).

(** [isinstance(e, openai.APIError)]: the SDK derives its connection,
    timeout and HTTP-status errors from [APIError]; [OpenAIError] is the
    base class above it. *)
Definition is_openai_APIError (e : exn) : bool :=
  match e with
  | APIConnectionError | APITimeoutError | RateLimitError
  | InternalServerError | AuthenticationError | BadRequestError => true
  | _ => false
  end.

(** [retry_if_exception_type((RateLimitError, APIError, InternalServerError))]:
    when the SDK could not be imported the three names are bound to
    [Exception], which every exception is an instance of. *)
Definition retry_predicate (env : provider_env) (e : exn) : bool :=
  if openai_sdk env then
    match e with RateLimitError => true | _ => false end
    || is_openai_APIError e
    || match e with InternalServerError => true | _ => false end
  else true.

(** [wait_exponential(multiplier=2, min=5, max=90)]: seconds slept after
    the attempt with the given number (from 1). *)
Definition wait_exponential (attempt : nat) : Z :=
  Z.max (Z.max 0 5) (Z.min (2 * 2 ^ Z.of_nat (attempt - 1)) 90).

(** [stop_after_attempt(8)] *)
Definition STOP_AFTER : nat := 8.

(** One call of the decorated function, as a record of what happened. *)
Record call_trace (A : Type) : Type := {
  outcome : result A;
  attempts : nat;          (* times the body ran *)
  sleeps : list Z          (* seconds slept between attempts, in order *)
}.
Arguments outcome {A} _.
Arguments attempts {A} _.
Arguments sleeps {A} _.

(** The loop of [tenacity.retry]: run the body; an exception outside the
    retry predicate is re-raised as it is; after attempt [STOP_AFTER] a
    [RetryError] is raised; otherwise sleep and go again.  [left] is
    [STOP_AFTER - attempt]. *)
Fixpoint retrying {A} (should_retry : exn -> bool) (body : nat -> result A)
    (left attempt : nat) (slept : list Z) : call_trace A :=
  match body attempt with
  | Ok a => {| outcome := Ok a; attempts := attempt; sleeps := slept |}
  | Raise e =>
      if negb (should_retry e) then
        {| outcome := Raise e; attempts := attempt; sleeps := slept |}
      else
        match left with
        | O => {| outcome := Raise (RetryError e); attempts := attempt;
                  sleeps := slept |}
        | S left' =>
            retrying should_retry body left' (S attempt)
                     (slept ++ [wait_exponential attempt])%list
        end
  end.

(** The spec's words for a transient provider failure: rate limiting, a
    server error (5xx) or a timeout, of whichever backend is configured.
    To be compared with [retry_predicate], which is what the code retries. *)
Definition spec_transient (e : exn) : bool :=
  match e with
  | RateLimitError | InternalServerError | APITimeoutError => true
  | AnthropicStatusError st => (st =? 429) || ((500 <=? st) && (st <? 600))
  | HTTPError st => (st =? 429) || ((500 <=? st) && (st <? 600))
  | _ => false
  end.

(** The seconds slept after attempts 1 to 7. *)
Definition BACKOFF_SCHEDULE : list Z := [5; 5; 8; 16; 32; 64; 90]%Z.

(** [call_llm(prompt)] with its [@retry] decorator. *)
Definition call_llm_traced (env : provider_env) (be : backend) (prompt : string)
  : call_trace llm_response :=
  retrying (retry_predicate env) (fun k => call_llm_body env be k prompt)
           (STOP_AFTER - 1) 1 [].

Definition call_llm (env : provider_env) (be : backend) (prompt : string)
  : result llm_response :=
  outcome (call_llm_traced env be prompt).

End Provider.

(* ================================================================= *)
(** ** tools/llm_summary.py: relevance triage *)

Module Triage.
Import PyStr Provider.

(** [str.upper] per character, as code points: a-z and the Latin-1 small
    letters move down by 32, sharp s becomes SS, and y-diaeresis and the
    micro sign leave the range. *)
Definition upper_char (c : ascii) : list nat :=
  let n := code c in
  if in_range 97 122 n || (in_range 224 254 n && negb (n =? 247)) then [n - 32]
  else if n =? 223 then [83; 83]
  else if n =? 255 then [376]
  else if n =? 181 then [924]
  else [n].

Fixpoint upper (s : string) : list nat :=
  match s with
  | EmptyString => []
  | String c s' => (upper_char c ++ upper s')%list
  end.

Fixpoint codes (s : string) : list nat :=
  match s with
  | EmptyString => []
  | String c s' => code c :: codes s'
  end.

Fixpoint starts_with_codes (hay needle : list nat) : bool :=
  match needle, hay with
  | [], _ => true
  | _ :: _, [] => false
  | a :: needle', b :: hay' => (a =? b) && starts_with_codes hay' needle'
  end.

Fixpoint contains_codes (hay needle : list nat) : bool :=
  starts_with_codes hay needle ||
  match hay with
  | [] => false
  | _ :: hay' => contains_codes hay' needle
  end.

(** [needle in s.upper()] *)
Definition upper_contains (s needle : string) : bool :=
  contains_codes (upper s) (codes needle).

(** What triage returns:
    [{"relevant": ..., "reason": ..., "model": ..., "tokens": ...}]. *)
Record triage_result : Type := {
  relevant : bool;
  reason : string;
  triage_model : string;
  triage_tokens : Z
}.

Definition line_feed : ascii := ascii_of_nat 10.

(** [[line for line in text.split("\n") if "REASON:" in line.upper()]] *)
Definition reason_lines (text : string) : list string :=
  filter (fun line => upper_contains line "REASON:") (split line_feed text).

(** [reason_line[0].split(":", 1)[1].strip() if reason_line else default] *)
Definition parse_reason (text default : string) : result string :=
  match reason_lines text with
  | [] => Ok default
  | line :: _ =>
      match split_once ":" line with
      | Some (_, after) => Ok (strip after)
      | None => Raise IndexError
      end
  end.

(** What [triage_paper] entered while one paper is triaged: its own [try]
    block, and [triage_with_openai]. *)
Inductive classifier_call : Type :=
  | PrimaryTried
  | FallbackCalled.

(** [triage_with_openai(title, abstract)] *)
Definition triage_with_openai (env : provider_env) (be : backend)
    (title abstract : string) : result triage_result :=
  if negb (openai_sdk env) then Raise (ImportError "openai")
  else
    match openai_client be with
    | Raise e => Raise e
    | Ok _ =>
        match openai_triage be title abstract with
        | Raise e => Raise e
        | Ok resp =>
            match content resp with
            | None => Raise AttributeError          (* text.upper() on None *)
            | Some txt =>
                match parse_reason txt txt with
                | Raise e => Raise e
                | Ok why =>
                    Ok {| relevant := upper_contains txt "RELEVANT: YES";
                          reason := why;
                          triage_model := "gpt-4o-mini (fallback)";
                          triage_tokens := match usage resp with
                                           | Some t => t
                                           | None => 0%Z
                                           end |}
                end
            end
        end
    end.

(** The [try] block of [triage_paper]: the Gemini path. *)
Definition triage_with_gemini (env : provider_env) (be : backend)
    (title abstract : string) : result triage_result :=
  if negb (genai_sdk env) then Raise (ImportError "google.generativeai")
  else
    match GOOGLE_API_KEY env with
    | None => Raise (ValueError "GOOGLE_API_KEY not set")
    | Some key =>
        if is_empty key then Raise (ValueError "GOOGLE_API_KEY not set")
        else
          match gemini_generate be (GEMINI_MODEL env) title abstract with
          | Raise e => Raise e
          | Ok raw =>
              let txt := strip raw in
              match parse_reason txt "No reason provided" with
              | Raise e => Raise e
              | Ok why =>
                  Ok {| relevant := upper_contains txt "RELEVANT: YES";
                        reason := why;
                        triage_model := GEMINI_MODEL env;
                        triage_tokens := 0%Z |}
              end
          end
    end.

(** [triage_paper(title, abstract)], with the classifiers it invoked.
    Both handlers ([except ImportError], [except Exception]) return what
    [triage_with_openai] returns. *)
Definition triage_paper_traced (env : provider_env) (be : backend)
    (title abstract : string) : result triage_result * list classifier_call :=
  match triage_with_gemini env be title abstract with
  | Ok r => (Ok r, [PrimaryTried])
  | Raise (ImportError _) =>
      (triage_with_openai env be title abstract, [PrimaryTried; FallbackCalled])
  | Raise _ =>
      (triage_with_openai env be title abstract, [PrimaryTried; FallbackCalled])
  end.

Definition triage_paper (env : provider_env) (be : backend)
    (title abstract : string) : result triage_result :=
  fst (triage_paper_traced env be title abstract).

Definition count_fallback (trace : list classifier_call) : nat :=
  List.length (filter (fun c => match c with
                                | FallbackCalled => true
                                | PrimaryTried => false
                                end) trace).

End Triage.

(* ================================================================= *)
(** ** The papers table *)

Module Store.
Import PyStr.

(** One row of [papers].  [None] is SQL NULL. *)
Record paper : Type := {
  id : Z;
  arxiv_id : option string;
  title : string;
  authors : string;
  date : string;
  abstract : string;
  arxiv_link : string;
  reasoning_category : option string;
  keywords : option string;
  notes : option string;
  date_added : option string;
  summary_md : option string;
  tldr : option string;
  model_used : option string;
  summary_tokens : option Z;
  last_summarized_at : option string;
  excitement_score : option Z;
  excitement_reasoning : option string;
  score_breakdown : option string;
  last_scored_at : option string
}.

Definition table : Type := list paper.

(** [COALESCE(x, '')] *)
Definition coalesce (x : option string) : string :=
  match x with Some v => v | None => EmptyString end.

(** SQL [TRIM(x)]: spaces (U+0020) are removed at both ends. *)
Definition is_blank_char (c : ascii) : bool := Ascii.eqb c " ".

Fixpoint sql_ltrim (s : string) : string :=
  match s with
  | EmptyString => EmptyString
  | String c s' => if is_blank_char c then sql_ltrim s' else s
  end.

Fixpoint sql_rtrim (s : string) : string :=
  match s with
  | EmptyString => EmptyString
  | String c s' =>
      let r := sql_rtrim s' in
      if is_blank_char c && is_empty r then EmptyString else String c r
  end.

Definition sql_trim (s : string) : string := sql_rtrim (sql_ltrim s).

(** [x IS NULL OR TRIM(x) = ''] *)
Definition null_or_blank (x : option string) : bool :=
  match x with
  | None => true
  | Some v => is_empty (sql_trim v)
  end.

(** SQL [LIKE] as SQLite evaluates it: [%] stands for any run of
    characters, [_] for any one character, and ASCII letters match without
    regard to case. *)
Definition fold_case (c : ascii) : nat :=
  let n := code c in if in_range 65 90 n then n + 32 else n.

Fixpoint like (pattern text : string) : bool :=
  match pattern with
  | EmptyString => is_empty text
  | String p pattern' =>
      if Ascii.eqb p "%" then
        (fix any_suffix (t : string) : bool :=
           like pattern' t ||
           match t with
           | EmptyString => false
           | String _ t' => any_suffix t'
           end) text
      else
        match text with
        | EmptyString => false
        | String c text' =>
            (Ascii.eqb p "_" || (fold_case p =? fold_case c))
            && like pattern' text'
        end
  end.

(** [UPDATE papers SET ... WHERE id = ?] *)
Definition update_where_id (pid : Z) (f : paper -> paper) (t : table) : table :=
  map (fun p => if (id p =? pid)%Z then f p else p) t.

(** Two versions of a row that agree on every column except [summary_md]
    and [tldr]. *)
Definition same_but_summary_and_digest (p p' : paper) : Prop :=
  id p' = id p /\ arxiv_id p' = arxiv_id p /\ title p' = title p /\
  authors p' = authors p /\ date p' = date p /\ abstract p' = abstract p /\
  arxiv_link p' = arxiv_link p /\
  reasoning_category p' = reasoning_category p /\
  keywords p' = keywords p /\ notes p' = notes p /\
  date_added p' = date_added p /\ model_used p' = model_used p /\
  summary_tokens p' = summary_tokens p /\
  last_summarized_at p' = last_summarized_at p /\
  excitement_score p' = excitement_score p /\
  excitement_reasoning p' = excitement_reasoning p /\
  score_breakdown p' = score_breakdown p /\
  last_scored_at p' = last_scored_at p.

(** The next rowid of an [INTEGER PRIMARY KEY]: one above the largest. *)
Definition next_id (t : table) : Z :=
  fold_right (fun p m => Z.max (id p + 1) m) 1%Z t.

(** Modelled from the spec: the schema of [papers] is not in the sources;
    the spec gives the table "a unique external identifier", so an
    [INSERT] whose [arxiv_id] is already stored violates the constraint. *)
Definition violates_unique (t : table) (aid : string) : bool :=
  existsb (fun p => match arxiv_id p with
                    | Some a => String.eqb a aid
                    | None => false
                    end) t.

End Store.

(* ================================================================= *)
(** ** tools/collect_weekly_papers.py: ingestion *)

Module Collect.
Import PyStr Store.

(** An item of the HuggingFace feed: the fields the code reads from
    [item["paper"]]; [None] is a missing key. *)
Record hf_paper : Type := {
  hf_id : option string;
  hf_title : option string;
  hf_authors : list (option string);       (* [a.get("name", "")] per author *)
  hf_summary : option string;
  hf_publishedAt : option string
}.

(** A candidate as [get_huggingface_papers] builds it. *)
Record candidate : Type := {
  c_arxiv_id : string;
  c_title : string;
  c_authors : string;
  c_abstract : string;
  c_url : string;
  c_published : string
}.

Definition author_names (authors : list (option string)) : string :=
  let shown := join ", " (map coalesce (firstn 5 authors)) in
  if 5 <? List.length authors then shown ++ ", et al." else shown.

(** The loop body of [get_huggingface_papers]; [item] is [item.get("paper")]. *)
Definition candidate_of_item (item : option hf_paper) : option candidate :=
  match item with
  | None => None                                   (* {} has no "id" *)
  | Some paper =>
      let arxiv_id := coalesce (hf_id paper) in
      if is_empty arxiv_id then None
      else Some {| c_arxiv_id := arxiv_id;
                   c_title := coalesce (hf_title paper);
                   c_authors := author_names (hf_authors paper);
                   c_abstract := coalesce (hf_summary paper);
                   c_url := "https://arxiv.org/abs/" ++ arxiv_id;
                   c_published := coalesce (hf_publishedAt paper) |}
  end.

(** Candidates built from the feed carry a link that embeds their
    identifier. *)
Definition well_formed (c : candidate) : Prop :=
  c_url c = "https://arxiv.org/abs/" ++ c_arxiv_id c.

Fixpoint collect_candidates (items : list (option hf_paper)) : list candidate :=
  match items with
  | [] => []
  | item :: rest =>
      match candidate_of_item item with
      | Some c => c :: collect_candidates rest
      | None => collect_candidates rest
      end
  end.

(** [get_huggingface_papers()]: a failed fetch gives no candidates. *)
Definition get_huggingface_papers (feed : result (list (option hf_paper)))
  : list candidate :=
  match feed with
  | Raise _ => []
  | Ok items => collect_candidates items
  end.

(** [paper_exists(conn, arxiv_id)] *)
Definition paper_exists (t : table) (aid : string) : bool :=
  0 <? List.length (filter (fun p => like ("%" ++ aid ++ "%") (arxiv_link p)) t).

(** The [INSERT] of [add_paper_to_db]. *)
Definition insert_paper (today now : string) (t : table) (c : candidate)
  : result table :=
  if violates_unique t (c_arxiv_id c) then Raise IntegrityError
  else
    Ok (app t [ {| id := next_id t;
                  arxiv_id := Some (c_arxiv_id c);
                  title := c_title c;
                  authors := c_authors c;
                  date := c_published c;
                  abstract := c_abstract c;
                  arxiv_link := c_url c;
                  reasoning_category := Some "huggingface";
                  keywords := Some EmptyString;
                  notes := Some ("Auto-collected from HF on " ++ today);
                  date_added := Some now;
                  summary_md := None;
                  tldr := None;
                  model_used := None;
                  summary_tokens := None;
                  last_summarized_at := None;
                  excitement_score := None;
                  excitement_reasoning := None;
                  score_breakdown := None;
                  last_scored_at := None |} ]).

(** [add_paper_to_db(conn, paper)]: [True] when the row went in, [False]
    when the statement raised. *)
Definition add_paper_to_db (today now : string) (t : table) (c : candidate)
  : table * bool :=
  match insert_paper today now t c with
  | Ok t' => (t', true)
  | Raise _ => (t, false)
  end.

(** The local counters of [main]. *)
Record counters : Type := {
  new_count : nat;
  skipped_count : nat
}.

(** [new_count = 0] and [skipped_count = 0] *)
Definition zero_counters : counters := {| new_count := 0; skipped_count := 0 |}.

(** The loop of [main] over the candidates. *)
Fixpoint ingest (today now : string) (papers : list candidate)
    (t : table) (k : counters) : table * counters :=
  match papers with
  | [] => (t, k)
  | paper :: rest =>
      if paper_exists t (c_arxiv_id paper) then
        ingest today now rest t
          {| new_count := new_count k; skipped_count := S (skipped_count k) |}
      else
        let '(t', added) := add_paper_to_db today now t paper in
        ingest today now rest t'
          (if added
           then {| new_count := S (new_count k); skipped_count := skipped_count k |}
           else k)
  end.

(** The numbers [main] prints when the loop is over, with their labels. *)
Definition report (k : counters) : list (string * nat) :=
  [("New papers added", new_count k); ("Duplicates skipped", skipped_count k)].

(** [main()]: nothing is reported when the feed gave no candidate.  The
    statements that add the [date_added] column to an older table belong
    to schema maintenance and are left out. *)
Definition main (today now : string) (feed : result (list (option hf_paper)))
    (t : table) : table * option (list (string * nat)) :=
  let papers := get_huggingface_papers feed in
  match papers with
  | [] => (t, None)
  | _ :: _ =>
      let '(t', k) := ingest today now papers t zero_counters in
      (t', Some (report k))
  end.

(** Insertions that raised during the loop: what a third counter would
    have counted. *)
Fixpoint failed_inserts (today now : string) (papers : list candidate)
    (t : table) : nat :=
  match papers with
  | [] => 0
  | paper :: rest =>
      if paper_exists t (c_arxiv_id paper) then failed_inserts today now rest t
      else
        let '(t', added) := add_paper_to_db today now t paper in
        (if added then 0 else 1) + failed_inserts today now rest t'
  end.

End Collect.

(* ================================================================= *)
(** ** tools/summarize_papers.py: the orchestrator *)

Module Summarize.
Import PyStr Digest Provider Triage Store.

(** A row as [fetch_papers] returns it (a [dict] of the selected columns). *)
Record row : Type := {
  r_id : Z;
  r_title : string;
  r_authors : string;
  r_abstract : string;
  r_url : string;
  r_notes : string;
  r_summary_md : string;
  r_tldr : string
}.

Definition row_of_paper (p : paper) : row :=
  {| r_id := id p;
     r_title := title p;
     r_authors := authors p;
     r_abstract := abstract p;
     r_url := arxiv_link p;
     r_notes := coalesce (notes p);
     r_summary_md := coalesce (summary_md p);
     r_tldr := coalesce (tldr p) |}.

(** [ORDER BY id DESC] *)
Fixpoint insert_desc (p : paper) (sorted : list paper) : list paper :=
  match sorted with
  | [] => [p]
  | q :: rest =>
      if (id q <? id p)%Z then p :: sorted else q :: insert_desc p rest
  end.

Definition order_by_id_desc (t : list paper) : list paper :=
  fold_right insert_desc [] t.

(** [LIMIT n]: a negative bound is no bound. *)
Definition limit {A} (n : Z) (l : list A) : list A :=
  if (n <? 0)%Z then l else firstn (Z.to_nat n) l.

(** The [WHERE] clause of the unforced selection. *)
Definition needs_summary (p : paper) : bool :=
  null_or_blank (summary_md p) || null_or_blank (tldr p).

(** [{row["id"]: row for row in rows}.get(i)]: the last row with that id. *)
Fixpoint lookup_last (rows : list row) (i : Z) : option row :=
  match rows with
  | [] => None
  | r :: rest =>
      match lookup_last rest i with
      | Some r' => Some r'
      | None => if (r_id r =? i)%Z then Some r else None
      end
  end.

Fixpoint rows_for_ids (rows : list row) (ids : list Z) : list row :=
  match ids with
  | [] => []
  | i :: rest =>
      match lookup_last rows i with
      | Some r => r :: rows_for_ids rows rest
      | None => rows_for_ids rows rest
      end
  end.

Definition mem_id (ids : list Z) (i : Z) : bool :=
  existsb (fun j => (j =? i)%Z) ids.

(** [fetch_papers(conn, ids, force)] *)
Definition fetch_papers (BATCH_LIMIT : Z) (t : table) (ids : list Z)
    (force : bool) : list row :=
  match ids with
  | _ :: _ =>
      rows_for_ids (map row_of_paper (filter (fun p => mem_id ids (id p)) t)) ids
  | [] =>
      if force then
        map row_of_paper (limit BATCH_LIMIT (order_by_id_desc t))
      else
        map row_of_paper
            (limit BATCH_LIMIT (order_by_id_desc (filter needs_summary t)))
  end.

(** [save_summary(conn, pid, summary_md, tldr, model, tokens)] *)
Definition save_summary (now : string) (t : table) (pid : Z)
    (md digest : string) (mdl : string) (toks : option Z) : table :=
  update_where_id pid
    (fun p =>
       {| id := id p; arxiv_id := arxiv_id p; title := title p;
          authors := authors p; date := date p; abstract := abstract p;
          arxiv_link := arxiv_link p;
          reasoning_category := reasoning_category p;
          keywords := keywords p; notes := notes p;
          date_added := date_added p;
          summary_md := Some md;
          tldr := Some digest;
          model_used := Some mdl;
          summary_tokens := toks;
          last_summarized_at := Some now;
          excitement_score := excitement_score p;
          excitement_reasoning := excitement_reasoning p;
          score_breakdown := score_breakdown p;
          last_scored_at := last_scored_at p |}) t.

Definition SKIP_SENTINEL : string := "[Skipped - Not relevant to reasoning]".

(** [UPDATE papers SET summary_md = ?, tldr = ? WHERE id = ?] *)
Definition save_skip (t : table) (pid : Z) (why : string) : table :=
  update_where_id pid
    (fun p =>
       {| id := id p; arxiv_id := arxiv_id p; title := title p;
          authors := authors p; date := date p; abstract := abstract p;
          arxiv_link := arxiv_link p;
          reasoning_category := reasoning_category p;
          keywords := keywords p; notes := notes p;
          date_added := date_added p;
          summary_md := Some SKIP_SENTINEL;
          tldr := Some why;
          model_used := model_used p;
          summary_tokens := summary_tokens p;
          last_summarized_at := last_summarized_at p;
          excitement_score := excitement_score p;
          excitement_reasoning := excitement_reasoning p;
          score_breakdown := score_breakdown p;
          last_scored_at := last_scored_at p |}) t.

(** [PROMPT_TEMPLATE], up to its first placeholder, and its [format] on
    the keys of a row. *)
Definition PROMPT_HEAD : string :=
"You are a research summarizer for ML practitioners, engineers, and students who understand AI/ML fundamentals.

Output only valid Markdown in this exact structure:

# TLDR
<2-4 clear sentences capturing the main contribution and key finding. Be specific and concrete. ~50-80 words>

## Problem
<One bullet: what gap or question does this address?>

## Method
<2-3 bullets: the key ideas and approach, including scope/scale where relevant>

## Key Results
<3-5 bullets: the most important findings - be specific with numbers and comparisons where available>

## Limitations
<1-3 bullets: scope constraints, caveats, or open questions - focus on what the paper explicitly acknowledges>

## Why It Matters
<2-3 bullets: practical implications or why researchers should care - be specific, not generic>

## Notable Quotes
<3 quotes from the abstract that capture key insights>

Guidelines:
- Be precise and concrete - include specific numbers, scales, and comparisons
- Use technical terms naturally but explain complex concepts clearly
- Focus on insights, not just descriptions
- Don't oversell or add hype not present in the source

---

Title: ".

Definition format_prompt (r : row) : string :=
  PROMPT_HEAD ++ r_title r ++ "
Authors: " ++ r_authors r ++ "
ArXiv ID/URL: " ++ r_url r ++ "

Abstract:
" ++ r_abstract r ++ "

Optional context:
" ++ r_notes r.

(** Calls that leave the orchestrator for a language model. *)
Inductive llm_call : Type :=
  | TriageCall (title abstract : string)
  | SummaryCall (prompt : string).

(** What the loop body prints for a paper, without the glyphs of the
    printed lines: the arguments of its f-strings. *)
Inductive message : Type :=
  | AlreadySummarized (pid : Z)
  | Triaging (pid : Z) (title60 : string)
  | NotRelevant (why : string)
  | Relevant (why80 : string)
  | TriageFailed (e : exn)
  | Summarized (chars : nat)
  | SummaryFailed (e : exn).

(** The store, the calls made so far, the lines printed by the loop and
    the counters of [main]. *)
Record run_state : Type := {
  db : table;
  calls : list llm_call;
  printed : list message;
  triaged_count : nat;
  skipped_count : nat;
  summarized_count : nat;
  total_triage_tokens : Z
}.

(** Code that reads and writes the state and may raise.  What was written
    before an exception stays written. *)
Definition M (A : Type) : Type := run_state -> result A * run_state.

Definition ret {A} (a : A) : M A := fun s => (Ok a, s).

Definition bind {A B} (m : M A) (k : A -> M B) : M B :=
  fun s => match m s with
           | (Ok a, s') => k a s'
           | (Raise e, s') => (Raise e, s')
           end.

(** [try: body  except Exception as e: handler(e)] *)
Definition try_except {A} (body : M A) (handler : exn -> M A) : M A :=
  fun s => match body s with
           | (Ok a, s') => (Ok a, s')
           | (Raise e, s') => handler e s'
           end.

Definition lift {A} (r : result A) : M A := fun s => (r, s).

Definition modify (f : run_state -> run_state) : M unit :=
  fun s => (Ok tt, f s).

Notation "x <- m ;; k" := (bind m (fun x => k))
  (at level 61, m at next level, right associativity).
Notation "m ;;; k" := (bind m (fun _ => k))
  (at level 61, right associativity).

Definition with_db (f : table -> table) (s : run_state) : run_state :=
  {| db := f (db s); calls := calls s; printed := printed s;
     triaged_count := triaged_count s; skipped_count := skipped_count s;
     summarized_count := summarized_count s;
     total_triage_tokens := total_triage_tokens s |}.

Definition log_call (c : llm_call) (s : run_state) : run_state :=
  {| db := db s; calls := app (calls s) [c]; printed := printed s;
     triaged_count := triaged_count s; skipped_count := skipped_count s;
     summarized_count := summarized_count s;
     total_triage_tokens := total_triage_tokens s |}.

(** [print(...)] *)
Definition say (m : message) (s : run_state) : run_state :=
  {| db := db s; calls := calls s; printed := app (printed s) [m];
     triaged_count := triaged_count s; skipped_count := skipped_count s;
     summarized_count := summarized_count s;
     total_triage_tokens := total_triage_tokens s |}.

Definition count_triaged (toks : Z) (s : run_state) : run_state :=
  {| db := db s; calls := calls s; printed := printed s;
     triaged_count := S (triaged_count s); skipped_count := skipped_count s;
     summarized_count := summarized_count s;
     total_triage_tokens := (total_triage_tokens s + toks)%Z |}.

Definition count_skipped (s : run_state) : run_state :=
  {| db := db s; calls := calls s; printed := printed s;
     triaged_count := triaged_count s; skipped_count := S (skipped_count s);
     summarized_count := summarized_count s;
     total_triage_tokens := total_triage_tokens s |}.

Definition count_summarized (s : run_state) : run_state :=
  {| db := db s; calls := calls s; printed := printed s;
     triaged_count := triaged_count s; skipped_count := skipped_count s;
     summarized_count := S (summarized_count s);
     total_triage_tokens := total_triage_tokens s |}.

(** [(resp["text"] or "").strip()] *)
Definition summary_text (resp : llm_response) : string :=
  strip (match text resp with
         | Some t => if truthy t then t else EmptyString
         | None => EmptyString
         end).

Section Orchestrator.

(** The two functions imported from [llm_summary], and the clock. *)
Variable triage_paper : string -> string -> result triage_result.
Variable call_llm : string -> result llm_response.
Variable now : string.
Variable BATCH_LIMIT : Z.

Definition do_triage (title abstract : string) : M triage_result :=
  modify (log_call (TriageCall title abstract)) ;;;
  lift (triage_paper title abstract).

Definition do_call_llm (prompt : string) : M llm_response :=
  modify (log_call (SummaryCall prompt)) ;;;
  lift (call_llm prompt).

(** [existing_summary and "[Skipped" not in existing_summary] *)
Definition has_real_summary (r : row) : bool :=
  truthy (r_summary_md r) && negb (contains (r_summary_md r) "[Skipped").

(** The first [try] block of the loop body.  [true] stands for its
    [continue]: the paper was judged not relevant and the marker stored. *)
Definition triage_step (r : row) : M bool :=
  try_except
    (triage_result <- do_triage (r_title r) (r_abstract r) ;;
     modify (count_triaged (triage_tokens triage_result)) ;;;
     if negb (relevant triage_result) then
       modify (say (NotRelevant (reason triage_result))) ;;;
       modify count_skipped ;;;
       modify (with_db (fun t => save_skip t (r_id r) (reason triage_result))) ;;;
       ret true
     else
       modify (say (Relevant (take 80 (reason triage_result)))) ;;;
       ret false)
    (fun e => modify (say (TriageFailed e)) ;;; ret false).

(** The second [try] block of the loop body. *)
Definition summary_step (r : row) : M unit :=
  try_except
    (resp <- do_call_llm (format_prompt r) ;;
     let md := summary_text resp in
     digest <- lift (extract_tldr md) ;;
     modify (with_db (fun t => save_summary now t (r_id r) md digest
                                 (model resp) (tokens resp))) ;;;
     modify count_summarized ;;;
     modify (say (Summarized (String.length md))))
    (fun e => modify (say (SummaryFailed e))).

(** The body of [for row in rows]. *)
Definition process_row (force : bool) (r : row) : M unit :=
  if has_real_summary r && negb force then
    modify (say (AlreadySummarized (r_id r)))
  else
    modify (say (Triaging (r_id r) (take 60 (r_title r)))) ;;;
    skipped <- triage_step r ;;
    if skipped then ret tt else summary_step r.

Fixpoint process_rows (force : bool) (rows : list row) : M unit :=
  match rows with
  | [] => ret tt
  | r :: rest => process_row force r ;;; process_rows force rest
  end.

Definition initial_state (t : table) : run_state :=
  {| db := t; calls := []; printed := []; triaged_count := 0;
     skipped_count := 0; summarized_count := 0; total_triage_tokens := 0%Z |}.

(** [main(argv)] for the parsed arguments [ids] and [force], on the store
    [t]: the final state holds the store, the calls made and the counters
    of the printed summary. *)
Definition main (ids : list Z) (force : bool) (t : table)
  : result unit * run_state :=
  let rows := fetch_papers BATCH_LIMIT t ids force in
  match rows with
  | [] => (Ok tt, initial_state t)
  | _ :: _ => process_rows force rows (initial_state t)
  end.

(** The summariser answers the row's prompt with text that is not blank. *)
Definition summary_ok (r : row) : Prop :=
  exists resp, call_llm (format_prompt r) = Ok resp /\
               summary_text resp <> EmptyString.

(** A first run can settle the row: triage gives a not-relevant verdict
    with a reason that is not blank, or triage raises or says relevant and
    the summariser answers with text that is not blank. *)
Definition settles (r : row) : Prop :=
  match triage_paper (r_title r) (r_abstract r) with
  | Ok verdict =>
      if relevant verdict then summary_ok r
      else is_empty (sql_trim (reason verdict)) = false
  | Raise _ => summary_ok r
  end.

End Orchestrator.

(** Every row that still needs a summary either carries a real one (only
    its digest is blank) or has a row in the work list that will settle it. *)
Definition pending_covered (t : table) (rows : list row) : Prop :=
  forall p, In p t -> needs_summary p = true ->
    has_real_summary (row_of_paper p) = true
    \/ exists r, In r rows /\ r_id r = id p /\ has_real_summary r = false.

End Summarize.

(* ================================================================= *)
(** ** Concrete inputs used by the examples below *)

Module Samples.
Import PyStr.

Definition LF : string := String (ascii_of_nat 10) EmptyString.

Fixpoint repeat_char (c : ascii) (n : nat) : string :=
  match n with
  | O => EmptyString
  | S n' => String c (repeat_char c n')
  end.

(** The document of the spec's digest example. *)
Definition tldr_doc : string :=
  "# TLDR" ++ LF ++ LF ++ "Foo bar." ++ LF ++ "## Problem" ++ LF ++ "...".

(** A TLDR heading followed by one line of 281 characters. *)
Definition long_tldr_doc : string :=
  "# TLDR" ++ LF ++ repeat_char "a" 281.

(** A document without a TLDR heading. *)
Definition plain_doc : string :=
  LF ++ "  Attention is all you need.  " ++ LF ++ "More text.".

(** A document without a TLDR heading whose first non-blank line has,
    stripped, 300 characters. *)
Definition long_plain_doc : string :=
  LF ++ "  " ++ repeat_char "a" 300 ++ "  " ++ LF ++ "More text.".

(** A stored breakdown whose Novelty value is above its maximum of 3. *)
Definition breakdown_over_cap : string :=
  "Novelty:7,Impact:3,Results:1,Access:1".

(** Provider configurations: the three providers with every SDK
    installed, and the default provider without the openai SDK. *)
Definition env_for (provider : string) (key : option string) (openai : bool)
  : Provider.provider_env :=
  {| Provider.SUMMARY_PROVIDER := Some provider;
     Provider.OPENAI_MODEL := "gpt-4o";
     Provider.ANTHROPIC_MODEL := "claude-3-5-sonnet-latest";
     Provider.OLLAMA_MODEL := "llama3.1:8b";
     Provider.GEMINI_MODEL := "gemini-1.5-flash";
     Provider.GOOGLE_API_KEY := key;
     Provider.openai_sdk := openai;
     Provider.anthropic_sdk := true;
     Provider.genai_sdk := true |}.

Definition env_openai : Provider.provider_env := env_for "openai" None true.
Definition env_ollama : Provider.provider_env := env_for "ollama" None true.
Definition env_no_sdk : Provider.provider_env := env_for "openai" None false.

Definition good_completion : Provider.chat_completion :=
  {| Provider.content := Some "RELEVANT: YES
REASON: It studies multi-step reasoning.";
     Provider.usage := Some 42%Z |}.

(** A backend whose openai endpoint answers [fail] on attempts up to
    [failures] and succeeds afterwards, whose Ollama server answers 503,
    and whose client constructor answers [client]. *)
Definition backend_with (client : result unit) (fail : exn) (failures : nat)
  : Provider.backend :=
  {| Provider.openai_client := client;
     Provider.openai_create := fun attempt _ _ _ =>
       if attempt <=? failures then Raise fail else Ok good_completion;
     Provider.anthropic_client := Ok tt;
     Provider.anthropic_create := fun _ _ _ => Raise (AnthropicStatusError 529);
     Provider.ollama_post := fun _ _ _ =>
       Ok {| Provider.status := 503; Provider.message_content := None |};
     Provider.gemini_generate := fun _ _ _ => Raise (GoogleAPIError "quota");
     Provider.openai_triage := fun _ _ =>
       match client with
       | Ok _ => Ok good_completion
       | Raise e => Raise e
       end |}.

(** Two rate-limit answers, then success. *)
Definition backend_flaky : Provider.backend := backend_with (Ok tt) RateLimitError 2.
(** Rate limiting that never ends. *)
Definition backend_limited : Provider.backend := backend_with (Ok tt) RateLimitError 8.
(** A rejected API key. *)
Definition backend_bad_key : Provider.backend :=
  backend_with (Ok tt) AuthenticationError 8.
(** No OPENAI_API_KEY in the environment: the client cannot be built. *)
Definition backend_no_key : Provider.backend :=
  backend_with (Raise OpenAIError) RateLimitError 0.

(** Rows of the papers table. *)
Definition mk_paper (pid : Z) (aid : option string) (ttl link : string)
    (summary digest : option string) : Store.paper :=
  {| Store.id := pid;
     Store.arxiv_id := aid;
     Store.title := ttl;
     Store.authors := "A. Author";
     Store.date := "2024-01-01";
     Store.abstract := "We study multi-step reasoning.";
     Store.arxiv_link := link;
     Store.reasoning_category := None;
     Store.keywords := None;
     Store.notes := None;
     Store.date_added := None;
     Store.summary_md := summary;
     Store.tldr := digest;
     Store.model_used := None;
     Store.summary_tokens := None;
     Store.last_summarized_at := None;
     Store.excitement_score := None;
     Store.excitement_reasoning := None;
     Store.score_breakdown := None;
     Store.last_scored_at := None |}.

(** Two rows entered by hand: their identifiers are stored, their links
    point elsewhere. *)
Definition table_by_hand : Store.table :=
  [ mk_paper 1 (Some "2401.00001") "First" "https://doi.org/10.1000/a" None None;
    mk_paper 2 (Some "2401.00002") "Second" "https://doi.org/10.1000/b" None None ].

Definition hf_item (aid ttl : string) : option Collect.hf_paper :=
  Some {| Collect.hf_id := Some aid;
          Collect.hf_title := Some ttl;
          Collect.hf_authors := [Some "A. Author"];
          Collect.hf_summary := Some "We study multi-step reasoning.";
          Collect.hf_publishedAt := Some "2024-01-01" |}.

(** A feed with the two identifiers of [table_by_hand]. *)
Definition feed_two : result (list (option Collect.hf_paper)) :=
  Ok [hf_item "2401.00001" "First"; hf_item "2401.00002" "Second"].

(** A feed with one new paper. *)
Definition feed_new : list (option Collect.hf_paper) :=
  [hf_item "2402.12345" "Chain-of-Thought Improves Planning"].

(** One paper waiting for its summary. *)
Definition paper_pending : Store.paper :=
  mk_paper 1 (Some "2402.12345") "Chain-of-Thought Improves Planning"
    "https://arxiv.org/abs/2402.12345" None None.

Definition table_pending : Store.table := [paper_pending].

Definition row_pending : Summarize.row := Summarize.row_of_paper paper_pending.

Definition verdict (rel : bool) (why : string) : Triage.triage_result :=
  {| Triage.relevant := rel; Triage.reason := why;
     Triage.triage_model := "gemini-1.5-flash"; Triage.triage_tokens := 0%Z |}.

(** Triage that finds every paper relevant, and triage that finds none. *)
Definition triage_yes (_ _ : string) : result Triage.triage_result :=
  Ok (verdict true "It studies multi-step reasoning.").
Definition triage_no (_ _ : string) : result Triage.triage_result :=
  Ok (verdict false "Low-level GPU kernel scheduling.").
Definition triage_down (_ _ : string) : result Triage.triage_result :=
  Raise OpenAIError.

(** A summariser whose provider rejects the API key, and one that answers. *)
Definition llm_down (_ : string) : result Provider.llm_response :=
  Raise (RetryError AuthenticationError).
Definition llm_up (_ : string) : result Provider.llm_response :=
  Ok {| Provider.text := Some ("# TLDR" ++ LF ++ "Planning improves." ++ LF);
        Provider.tokens := Some 900%Z;
        Provider.model := "gpt-4o" |}.

End Samples.


(* ================================================================= *)
(** ** app.py: the score slider and the pages of cards *)

Module Cards.
Import PyStr PyFloat App.
Open Scope Z_scope.

(** [_score_color(s)] *)
Definition _score_color (s : Z) : string :=
  if 9 <=? s then "#0ea5e9"
  else if 8 <=? s then "#16a34a"
  else if 7 <=? s then "#22c55e"
  else if 6 <=? s then "#84cc16"
  else if 5 <=? s then "#eab308"
  else if 4 <=? s then "#f59e0b"
  else if 3 <=? s then "#f97316"
  else "#ef4444".

(** What [render_quant_slider] computes before it writes its HTML: the
    clamped score, the width of the fill, the colour, and the number shown
    in the label ([None] stands for the dash shown for an unscored paper). *)
Record slider : Type := {
  s_score : Z;
  s_pct : string;
  s_color : string;
  s_label : option Z;
  s_ticks : nat
}.

(** [render_quant_slider(score)] for an [int] score or [None]. *)
Definition render_quant_slider (score : option Z) : slider :=
  let score := Z.max 0 (Z.min 10 (match score with Some z => z | None => 0 end)) in
  {| s_score := score;
     s_pct := str_of_int (score * 10) ++ "%";
     s_color := if score =? 0 then "#cbd5e1" else _score_color score;
     s_label := if score =? 0 then None else Some score;
     s_ticks := 10 |}.

(** [CARDS_PER_PAGE = 15] *)
Definition CARDS_PER_PAGE : Z := 15.

(** [a / b] for two non-negative [int]s, [b] positive: the quotient rounded
    to binary64; [OverflowError] when it is too large for a float. *)
Definition true_div (a b : Z) : result pyfloat :=
  match round_binary64 false a b with
  | FInf _ => Raise OverflowError
  | x => Ok x
  end.

(** [math.ceil(x)] *)
Definition ceil_of_float (x : pyfloat) : result Z :=
  match x with
  | FNan => Raise (ValueError "cannot convert float NaN to integer")
  | FInf _ => Raise OverflowError
  | FFin neg m e =>
      if 0 <=? e then Ok (if neg then - (m * 2 ^ e) else m * 2 ^ e)
      else Ok (if neg then - (m / 2 ^ (- e)) else - ((- m) / 2 ^ (- e)))
  end.

(** [max(1, ceil(len(rows) / CARDS_PER_PAGE)) if rows else 1] *)
Definition total_pages {A} (rows : list A) : result Z :=
  match rows with
  | [] => Ok 1
  | _ :: _ =>
      match true_div (Z.of_nat (List.length rows)) CARDS_PER_PAGE with
      | Raise e => Raise e
      | Ok q =>
          match ceil_of_float q with
          | Raise e => Raise e
          | Ok c => Ok (Z.max 1 c)
          end
      end
  end.

(** [max(0, min(page, total_pages - 1))] *)
Definition clamp_page (page pages : Z) : Z := Z.max 0 (Z.min page (pages - 1)).

(** [rows[start:end]] with [start = page * CARDS_PER_PAGE] and
    [end = start + CARDS_PER_PAGE], for a page that is not negative. *)
Definition page_rows {A} (rows : list A) (page : Z) : list A :=
  let start := page * CARDS_PER_PAGE in
  let stop := start + CARDS_PER_PAGE in
  firstn (Z.to_nat (stop - start)) (skipn (Z.to_nat start) rows).

(** The page shown for the stored page number, and its rows. *)
Definition shown_page {A} (rows : list A) (page : Z) : result (Z * list A) :=
  match total_pages rows with
  | Raise e => Raise e
  | Ok pages =>
      let page := clamp_page page pages in
      Ok (page, page_rows rows page)
  end.

(** The two buttons: [disabled = page <= 0] and
    [disabled = page >= total_pages - 1]; a click moves the page by one. *)
Definition prev_disabled (page : Z) : bool := page <=? 0.
Definition next_disabled (page pages : Z) : bool := pages - 1 <=? page.

(** The number of pages, by the length of the list. *)
Definition pages_of_length (n : nat) : result Z :=
  match n with
  | O => Ok 1
  | S _ =>
      match true_div (Z.of_nat n) CARDS_PER_PAGE with
      | Raise e => Raise e
      | Ok q =>
          match ceil_of_float q with
          | Raise e => Raise e
          | Ok c => Ok (Z.max 1 c)
          end
      end
  end.

(** The float computation agrees with whole-number arithmetic. *)
Definition pages_as_expected (n : nat) : bool :=
  match pages_of_length n with
  | Ok p => p =? Z.max 1 ((Z.of_nat n + 14) / 15)
  | Raise _ => false
  end.

End Cards.

(* ================================================================= *)
(** ** Further notions used to state properties *)

Module Notions.
Import PyStr Store Summarize.

(** The character occurs in the text. *)
Fixpoint has_char (c : ascii) (s : string) : bool :=
  match s with
  | EmptyString => false
  | String d s' => Ascii.eqb d c || has_char c s'
  end.

(** A "key:value" field whose key and value need no cleaning: no comma in
    either, no colon in the key, no white space around them. *)
Definition plain_field (kv : string * string) : Prop :=
  has_char ":" (fst kv) = false /\ has_char "," (fst kv) = false /\
  has_char "," (snd kv) = false /\
  strip (fst kv) = fst kv /\ strip (snd kv) = snd kv.

(** [[str(i) for i in ids if i not in lookup]] of [fetch_papers], as
    numbers: the requested ids that no row of the table has. *)
Definition missing_ids (t : table) (ids : list Z) : list Z :=
  filter (fun i => negb (existsb (fun p => (id p =? i)%Z) t)) ids.

(** Two versions of a row that agree on every column that neither
    [save_summary] nor the skip marker writes. *)
Definition same_but_summary_columns (p p' : paper) : Prop :=
  id p' = id p /\ arxiv_id p' = arxiv_id p /\ title p' = title p /\
  authors p' = authors p /\ date p' = date p /\ abstract p' = abstract p /\
  arxiv_link p' = arxiv_link p /\
  reasoning_category p' = reasoning_category p /\
  keywords p' = keywords p /\ notes p' = notes p /\
  date_added p' = date_added p /\
  excitement_score p' = excitement_score p /\
  excitement_reasoning p' = excitement_reasoning p /\
  score_breakdown p' = score_breakdown p /\
  last_scored_at p' = last_scored_at p.

(** The ids are in descending order: none is larger than one before it. *)
Fixpoint descending (ids : list Z) : Prop :=
  match ids with
  | [] => True
  | i :: rest => Forall (fun j => (j <= i)%Z) rest /\ descending rest
  end.

(** A row as ingestion writes it for a candidate. *)
Definition ingested_from (now : string) (c : Collect.candidate) (p : paper)
  : Prop :=
  arxiv_id p = Some (Collect.c_arxiv_id c) /\ title p = Collect.c_title c /\
  authors p = Collect.c_authors c /\ date p = Collect.c_published c /\
  abstract p = Collect.c_abstract c /\ arxiv_link p = Collect.c_url c /\
  reasoning_category p = Some "huggingface" /\
  date_added p = Some now /\
  summary_md p = None /\ tldr p = None /\ model_used p = None /\
  excitement_score p = None /\ score_breakdown p = None.

(** The distinct identifiers of a batch that the store does not hold yet. *)
Definition ids_to_add (t : table) (papers : list Collect.candidate)
  : list string :=
  nodup string_dec
    (filter (fun a => negb (Collect.paper_exists t a))
            (map Collect.c_arxiv_id papers)).

(** The counters of a run after [n] rows: they stay within the rows
    handled and within the calls made. *)
Definition counters_within (s : run_state) (n : nat) : Prop :=
  triaged_count s <= n /\
  skipped_count s <= triaged_count s /\
  skipped_count s + summarized_count s <= n /\
  List.length (calls s) <= 2 * n /\
  triaged_count s + summarized_count s <= List.length (calls s).

(** Every character of the text passes the test. *)
Fixpoint all_chars (f : ascii -> bool) (s : string) : bool :=
  match s with
  | EmptyString => true
  | String c s' => f c && all_chars f s'
  end.

(** The configured provider is none of the three that [call_llm] knows. *)
Definition unknown_provider (env : Provider.provider_env) : Prop :=
  Provider.PROVIDER env <> "openai" /\ Provider.PROVIDER env <> "anthropic" /\
  Provider.PROVIDER env <> "ollama".

(** Seconds slept in all. *)
Definition total_sleep (sleeps : list Z) : Z := fold_right Z.add 0%Z sleeps.

End Notions.

(* ================================================================= *)
(** * Properties *)

(* ================================================================= *)
(** ** Digest extraction *)

Section DigestFacts.
Import PyStr Digest.

Lemma take_length_le (n : nat) (s : string) : String.length (take n s) <= n.
Proof.
  revert s; induction n as [|n IH]; intros [|c s]; simpl; try lia.
  specialize (IH s); lia.
Qed.

Lemma take_length (n : nat) (s : string) :
  String.length (take n s) = Nat.min n (String.length s).
Proof.
  revert s; induction n as [|n IH]; intros [|c s]; simpl; try reflexivity.
  now rewrite IH.
Qed.

Lemma take_prefix (n : nat) (s : string) : exists rest, s = take n s ++ rest.
Proof.
  revert s; induction n as [|n IH]; intros s.
  - exists s. reflexivity.
  - destruct s as [|c s]; [exists EmptyString; reflexivity|].
    destruct (IH s) as (rest & E). exists rest. simpl. now rewrite <- E.
Qed.

Lemma take_whole (n : nat) (s : string) :
  String.length s <= n -> take n s = s.
Proof.
  revert s; induction n as [|n IH]; intros [|c s] H; simpl in *;
    try reflexivity; try lia.
  rewrite IH by lia. reflexivity.
Qed.

Lemma truthy_true_iff (s : string) : truthy s = true <-> s <> EmptyString.
Proof.
  destruct s; simpl; split; intros H; try congruence; try discriminate.
  reflexivity.
Qed.

Lemma truthy_false_iff (s : string) : truthy s = false <-> s = EmptyString.
Proof.
  destruct s; simpl; split; intros H; try reflexivity; discriminate.
Qed.

Lemma is_tldr_heading_empty : is_tldr_heading EmptyString = false.
Proof. reflexivity. Qed.

(** The inner loop looks only at the indices it is given; when all of them
    are inside the list it does not raise, and what it returns is the
    first non-empty line among them. *)
Lemma first_nonblank_at_seq (lines : list string) (n a : nat) :
  a + n <= List.length lines ->
  (first_nonblank_at lines (seq a n) = Ok None /\
   forall k, a <= k < a + n -> nth_error lines k = Some EmptyString)
  \/
  (exists j d, first_nonblank_at lines (seq a n) = Ok (Some d) /\
               a <= j < a + n /\ nth_error lines j = Some d /\
               d <> EmptyString /\
               forall k, a <= k < j -> nth_error lines k = Some EmptyString).
Proof.
  revert a; induction n as [|n IH]; intros a Hlen; simpl.
  - left; split; [reflexivity | intros k Hk; lia].
  - destruct (nth_error lines a) as [la|] eqn:Ha.
    + destruct (truthy la) eqn:Hla.
      * right; exists a, la.
        split; [reflexivity|]. split; [lia|]. split; [exact Ha|].
        split; [now apply truthy_true_iff | intros k Hk; lia].
      * apply truthy_false_iff in Hla; subst la.
        destruct (IH (S a)) as [[E Hb] | (j & d & E & Hj & Hn & Hd & Hb)];
          [lia | |].
        -- left; split; [exact E|].
           intros k Hk. destruct (Nat.eq_dec k a) as [->|Hne]; [exact Ha|].
           apply Hb; lia.
        -- right; exists j, d.
           split; [exact E|]. split; [lia|]. split; [exact Hn|].
           split; [exact Hd|].
           intros k Hk. destruct (Nat.eq_dec k a) as [->|Hne]; [exact Ha|].
           apply Hb; lia.
    + apply nth_error_None in Ha; lia.
Qed.

Lemma range_window (i len : nat) :
  range (i + 1) (Nat.min (i + 6) len) = seq (i + 1) (Nat.min (i + 6) len - (i + 1))
  /\ (i < len -> (i + 1) + (Nat.min (i + 6) len - (i + 1)) <= len).
Proof. split; [reflexivity | lia]. Qed.

Lemma scan_headings_spec (lines : list string) :
  forall rest pre,
    lines = (pre ++ rest)%list ->
    (scan_headings lines (List.length pre) rest = Ok None /\
     forall i h, List.length pre <= i -> nth_error lines i = Some h ->
                 is_tldr_heading h = true ->
                 forall k, i < k <= i + 5 -> k < List.length lines ->
                           nth_error lines k = Some EmptyString)
    \/
    (exists d, scan_headings lines (List.length pre) rest = Ok (Some d) /\
               under_heading lines d).
Proof.
  induction rest as [|l rest IH]; intros pre Hl.
  - left; split; [reflexivity|].
    intros i h Hi Hn. subst lines. rewrite app_nil_r in Hn.
    assert (nth_error pre i <> None) by congruence.
    apply nth_error_Some in H; lia.
  - assert (Hnth : nth_error lines (List.length pre) = Some l).
    { subst lines. rewrite nth_error_app2 by lia.
      now rewrite Nat.sub_diag. }
    assert (Hlt : List.length pre < List.length lines).
    { apply nth_error_Some; congruence. }
    assert (Hnext : lines = ((pre ++ [l]) ++ rest)%list).
    { subst lines. now rewrite <- app_assoc. }
    specialize (IH (pre ++ [l])%list Hnext).
    rewrite length_app in IH; simpl in IH.
    rewrite Nat.add_1_r in IH.
    simpl. destruct (is_tldr_heading l) eqn:Hh.
    + destruct (range_window (List.length pre) (List.length lines)) as [-> Hb].
      destruct (first_nonblank_at_seq lines
                  (Nat.min (List.length pre + 6) (List.length lines)
                   - (List.length pre + 1))
                  (List.length pre + 1) (Hb Hlt))
        as [[E Hblank] | (j & d & E & Hj & Hn & Hd & Hblank)]; rewrite E.
      * destruct IH as [[E2 Hrest] | (d & E2 & Hu)].
        -- left; split; [exact E2|].
           intros i h Hi Hn Hhi k Hk Hklen.
           destruct (Nat.eq_dec i (List.length pre)) as [->|Hne].
           ++ apply Hblank; lia.
           ++ apply (Hrest i h); auto; lia.
        -- right; exists d; split; auto.
      * right; exists d; split; [reflexivity|].
        exists (List.length pre), j, l.
        split; [exact Hnth|]. split; [exact Hh|]. split; [lia|].
        split; [exact Hn|]. split; [exact Hd|].
        intros k Hk; apply Hblank; lia.
    + destruct IH as [[E2 Hrest] | (d & E2 & Hu)].
      * left; split; [exact E2|].
        intros i h Hi Hn Hhi k Hk Hklen.
        destruct (Nat.eq_dec i (List.length pre)) as [->|Hne].
        -- congruence.
        -- apply (Hrest i h); auto; lia.
      * right; exists d; split; auto.
Qed.

Lemma scan_headings_total (lines : list string) :
  (scan_headings lines 0 lines = Ok None /\ no_heading_hit lines)
  \/ (exists d, scan_headings lines 0 lines = Ok (Some d) /\ under_heading lines d).
Proof.
  destruct (scan_headings_spec lines lines [] eq_refl) as [[E H] | H].
  - left; split; [exact E|].
    intros i h Hn Hh k Hk Hl. apply (H i h); auto. simpl; lia.
  - right; exact H.
Qed.

Lemma fallback_length (lines : list string) :
  String.length (fallback lines) <= 280.
Proof.
  unfold fallback. destruct (first_nonblank lines); [apply take_length_le|].
  simpl; lia.
Qed.

Lemma first_nonblank_split (pre : list string) (l : string) (post : list string) :
  Forall (fun x => x = EmptyString) pre -> l <> EmptyString ->
  first_nonblank (pre ++ l :: post) = Some l.
Proof.
  intros Hpre Hl. induction Hpre as [|x pre Hx _ IH]; simpl.
  - apply truthy_true_iff in Hl. now rewrite Hl.
  - subst x; simpl. exact IH.
Qed.

Lemma first_nonblank_all_blank (lines : list string) :
  Forall (fun x => x = EmptyString) lines -> first_nonblank lines = None.
Proof.
  induction 1 as [|x l Hx _ IH]; simpl; [reflexivity|].
  subst x; simpl; exact IH.
Qed.

(** When no line is a heading the outer loop finds nothing. *)
Lemma scan_headings_no_heading (lines rest : list string) (i : nat) :
  Forall (fun l => is_tldr_heading l = false) rest ->
  scan_headings lines i rest = Ok None.
Proof.
  intros H; revert i; induction H as [|l rest Hl _ IH]; intros i; simpl.
  - reflexivity.
  - rewrite Hl. apply IH.
Qed.

End DigestFacts.

Section DigestClaims.
Import PyStr Digest.

Lemma extract_tldr_cases (s : string) :
  exists d, extract_tldr s = Ok d /\
    ((no_heading_hit (stripped_lines s) /\ d = fallback (stripped_lines s))
     \/ under_heading (stripped_lines s) d).
Proof.
  unfold extract_tldr.
  destruct (scan_headings_total (stripped_lines s)) as [[E H] | (d & E & H)];
    rewrite E.
  - exists (fallback (stripped_lines s)); split; [reflexivity|]. left; auto.
  - exists d; split; [reflexivity|]. right; exact H.
Qed.

(** C3, as the code has it.  [extract_tldr] returns a digest for every
    input.  When no TLDR heading has a non-blank line among the five lines
    below it, the digest is the first non-blank line cut to 280 characters
    and so at most 280 long; when one has, the digest is that line,
    stripped and whole, however long it is. *)
Theorem extract_tldr_length_by_path (s : string) :
  exists d, extract_tldr s = Ok d /\
    ((no_heading_hit (stripped_lines s) /\
      d = fallback (stripped_lines s) /\ String.length d <= 280)
     \/ under_heading (stripped_lines s) d).
Proof.
  destruct (extract_tldr_cases s) as (d & E & [[Hno Hd] | Hu]).
  - exists d; split; [exact E|]. left. split; [exact Hno|]. split; [exact Hd|].
    subst d; apply fallback_length.
  - exists d; split; [exact E|]. right; exact Hu.
Qed.

(** C3 as stated fails: under a TLDR heading a line of 281 characters is
    returned whole. *)
Lemma extract_tldr_exceeds_280 :
  ~ (forall s d, extract_tldr s = Ok d -> String.length d <= 280).
Proof.
  intros H.
  specialize (H Samples.long_tldr_doc (Samples.repeat_char "a" 281)).
  assert (E : extract_tldr Samples.long_tldr_doc
              = Ok (Samples.repeat_char "a" 281)) by (vm_compute; reflexivity).
  specialize (H E).
  assert (L : String.length (Samples.repeat_char "a" 281) = 281)
    by (vm_compute; reflexivity).
  rewrite L in H. lia.
Qed.

(** C6.  [extract_tldr] returns a digest for every string (it is a
    function of its argument and never raises); on the spec's example the
    digest is "Foo bar."; when no line is a TLDR heading (a line that,
    stripped, in lower case and without semicolons, begins with "# tldr"
    or "## tldr") the digest is the first non-blank line, stripped, cut to
    280 characters: a beginning of that line, 280 characters long when the
    line has more and the whole line otherwise; when every line is blank,
    and for the empty string, the digest is empty. *)
Theorem extract_tldr_total_deterministic :
  (forall s, exists d, extract_tldr s = Ok d) /\
  extract_tldr Samples.tldr_doc = Ok "Foo bar." /\
  (forall s pre raw post,
     splitlines s = (pre ++ raw :: post)%list ->
     Forall (fun x => strip x = EmptyString) pre ->
     strip raw <> EmptyString ->
     Forall (fun x => is_tldr_heading (strip x) = false) (splitlines s) ->
     exists d,
       extract_tldr s = Ok d /\
       d = take 280 (strip raw) /\
       (exists rest, strip raw = d ++ rest) /\
       String.length d = Nat.min 280 (String.length (strip raw)) /\
       (String.length (strip raw) <= 280 -> d = strip raw)) /\
  (forall s, Forall (fun x => strip x = EmptyString) (splitlines s) ->
             extract_tldr s = Ok EmptyString) /\
  extract_tldr EmptyString = Ok EmptyString.
Proof.
  split; [|split; [|split; [|split]]].
  - intros s. destruct (extract_tldr_cases s) as (d & E & _). now exists d.
  - vm_compute; reflexivity.
  - intros s pre raw post Hs Hpre Hraw Hno.
    exists (take 280 (strip raw)).
    split; [|split; [reflexivity|split; [apply take_prefix|split]]].
    + unfold extract_tldr, stripped_lines.
      rewrite scan_headings_no_heading.
      2:{ apply Forall_map. exact Hno. }
      unfold fallback. rewrite Hs, map_app. simpl.
      rewrite first_nonblank_split; auto.
      apply Forall_map. exact Hpre.
    + apply take_length.
    + intros Hlen. now apply take_whole.
  - intros s Hblank.
    assert (Hb : Forall (fun x => x = EmptyString) (stripped_lines s)).
    { unfold stripped_lines. apply Forall_map. exact Hblank. }
    unfold extract_tldr.
    rewrite scan_headings_no_heading.
    + unfold fallback. now rewrite first_nonblank_all_blank.
    + eapply Forall_impl; [|exact Hb]. intros a ->. reflexivity.
  - reflexivity.
Qed.

Lemma extract_tldr_total_deterministic_witness :
  extract_tldr Samples.long_plain_doc = Ok (Samples.repeat_char "a" 280)
  /\ extract_tldr Samples.plain_doc = Ok "Attention is all you need."
  /\ extract_tldr (" " ++ Samples.LF ++ "  ") = Ok EmptyString.
Proof.
  destruct extract_tldr_total_deterministic as (_ & _ & Hplain & Hblank & _).
  split; [|split].
  - destruct (Hplain Samples.long_plain_doc [EmptyString]
                ("  " ++ Samples.repeat_char "a" 300 ++ "  ") ["More text."])
      as (d & E & Hd & _ & Hlen & _).
    + vm_compute; reflexivity.
    + repeat constructor.
    + vm_compute; discriminate.
    + vm_compute; repeat constructor.
    + rewrite E, Hd. vm_compute. reflexivity.
  - destruct (Hplain Samples.plain_doc [EmptyString]
                "  Attention is all you need.  " ["More text."])
      as (d & E & _ & _ & _ & Hwhole).
    + vm_compute; reflexivity.
    + repeat constructor.
    + vm_compute; discriminate.
    + vm_compute; repeat constructor.
    + rewrite E, Hwhole; [reflexivity|]. vm_compute. lia.
  - apply Hblank. vm_compute; repeat constructor.
Defined.

End DigestClaims.

(* ================================================================= *)
(** ** The score breakdown of a card *)

Section BreakdownFacts.
Import PyStr PyFloat App.
Open Scope Z_scope.

Lemma is_digit_facts (c : ascii) :
  is_digit c = true ->
  is_c_space c = false /\ float_space_to_ascii c = c /\ lower_char c = c /\
  Ascii.eqb c "_" = false /\ Ascii.eqb c "-" = false /\ Ascii.eqb c "+" = false /\
  Ascii.eqb c "i" = false /\ Ascii.eqb c "n" = false /\ Ascii.eqb c "." = false.
Proof.
  destruct c as [[] [] [] [] [] [] [] []]; vm_compute; intros H;
    try discriminate H; repeat split.
Qed.

Lemma all_digits_map_chars (s : string) :
  all_digits s = true -> map_chars float_space_to_ascii s = s.
Proof.
  induction s as [|c s IH]; simpl; [reflexivity|].
  intros H; apply andb_true_iff in H as [Hc Hs].
  destruct (is_digit_facts c Hc) as (_ & -> & _). now rewrite IH.
Qed.

Lemma all_digits_lower (s : string) : all_digits s = true -> lower s = s.
Proof.
  induction s as [|c s IH]; simpl; [reflexivity|].
  intros H; apply andb_true_iff in H as [Hc Hs].
  destruct (is_digit_facts c Hc) as (_ & _ & -> & _). now rewrite IH.
Qed.

Lemma all_digits_lstrip_c (s : string) : all_digits s = true -> lstrip_c s = s.
Proof.
  destruct s as [|c s]; simpl; [reflexivity|].
  intros H; apply andb_true_iff in H as [Hc Hs].
  destruct (is_digit_facts c Hc) as (-> & _). reflexivity.
Qed.

Lemma all_digits_rstrip_c (s : string) : all_digits s = true -> rstrip_c s = s.
Proof.
  induction s as [|c s IH]; simpl; [reflexivity|].
  intros H; apply andb_true_iff in H as [Hc Hs].
  destruct (is_digit_facts c Hc) as (-> & _). simpl. now rewrite IH.
Qed.

Lemma all_digits_drop_underscores (s : string) (pd : bool) :
  all_digits s = true -> drop_underscores pd false s = Some s.
Proof.
  revert pd; induction s as [|c s IH]; intros pd; simpl; [reflexivity|].
  intros H; apply andb_true_iff in H as [Hc Hs].
  destruct (is_digit_facts c Hc) as (_ & _ & _ & -> & _).
  now rewrite IH.
Qed.

Ltac digit_step IH :=
  cbn [read_digits NilEmpty.string_of_uint Pos.of_uint_acc Decimal.nb_digits];
  match goal with
  | |- context [is_digit ?c] => change (is_digit c) with true; cbv iota
  end;
  match goal with
  | |- read_digits ?a _ _ = (Z.pos (Pos.of_uint_acc _ ?q), _, _) =>
      replace a with (Z.pos q)
        by (vm_compute digit_val; lia)
  end;
  rewrite IH; f_equal; f_equal; lia.

Lemma read_digits_uint_acc (d : Decimal.uint) (p : positive) (cnt : nat) :
  read_digits (Z.pos p) cnt (NilEmpty.string_of_uint d)
  = (Z.pos (Pos.of_uint_acc d p), (cnt + Decimal.nb_digits d)%nat, EmptyString).
Proof.
  revert p cnt; induction d; intros p cnt.
  - simpl. rewrite Nat.add_0_r; reflexivity.
  - digit_step IHd.
  - digit_step IHd.
  - digit_step IHd.
  - digit_step IHd.
  - digit_step IHd.
  - digit_step IHd.
  - digit_step IHd.
  - digit_step IHd.
  - digit_step IHd.
  - digit_step IHd.
Qed.

Lemma read_digits_uint (d : Decimal.uint) (cnt : nat) :
  read_digits 0 cnt (NilEmpty.string_of_uint d)
  = (Z.of_N (Pos.of_uint d), (cnt + Decimal.nb_digits d)%nat, EmptyString).
Proof.
  revert cnt; induction d; intros cnt;
    cbn [read_digits NilEmpty.string_of_uint Pos.of_uint Decimal.nb_digits].
  - rewrite Nat.add_0_r; reflexivity.
  - change (is_digit "0") with true; cbv iota.
    change (10 * 0 + digit_val "0") with 0.
    rewrite IHd. f_equal; f_equal; lia.
  - change (is_digit "1") with true; cbv iota.
    change (10 * 0 + digit_val "1") with (Z.pos 1).
    rewrite read_digits_uint_acc. cbn [Z.of_N]. f_equal; f_equal; lia.
  - change (is_digit "2") with true; cbv iota.
    change (10 * 0 + digit_val "2") with (Z.pos 2).
    rewrite read_digits_uint_acc. cbn [Z.of_N]. f_equal; f_equal; lia.
  - change (is_digit "3") with true; cbv iota.
    change (10 * 0 + digit_val "3") with (Z.pos 3).
    rewrite read_digits_uint_acc. cbn [Z.of_N]. f_equal; f_equal; lia.
  - change (is_digit "4") with true; cbv iota.
    change (10 * 0 + digit_val "4") with (Z.pos 4).
    rewrite read_digits_uint_acc. cbn [Z.of_N]. f_equal; f_equal; lia.
  - change (is_digit "5") with true; cbv iota.
    change (10 * 0 + digit_val "5") with (Z.pos 5).
    rewrite read_digits_uint_acc. cbn [Z.of_N]. f_equal; f_equal; lia.
  - change (is_digit "6") with true; cbv iota.
    change (10 * 0 + digit_val "6") with (Z.pos 6).
    rewrite read_digits_uint_acc. cbn [Z.of_N]. f_equal; f_equal; lia.
  - change (is_digit "7") with true; cbv iota.
    change (10 * 0 + digit_val "7") with (Z.pos 7).
    rewrite read_digits_uint_acc. cbn [Z.of_N]. f_equal; f_equal; lia.
  - change (is_digit "8") with true; cbv iota.
    change (10 * 0 + digit_val "8") with (Z.pos 8).
    rewrite read_digits_uint_acc. cbn [Z.of_N]. f_equal; f_equal; lia.
  - change (is_digit "9") with true; cbv iota.
    change (10 * 0 + digit_val "9") with (Z.pos 9).
    rewrite read_digits_uint_acc. cbn [Z.of_N]. f_equal; f_equal; lia.
Qed.

Lemma all_digits_uint (d : Decimal.uint) :
  all_digits (NilEmpty.string_of_uint d) = true.
Proof. induction d; simpl; auto. Qed.

Lemma str_of_int_pos (p : positive) :
  str_of_int (Z.pos p) = NilEmpty.string_of_uint (Pos.to_uint p).
Proof.
  unfold str_of_int. cbn [Z.to_int NilZero.string_of_int].
  unfold NilZero.string_of_uint.
  destruct (Pos.to_uint p) eqn:E; try reflexivity.
  exfalso. eapply DecimalPos.Unsigned.to_uint_nonnil; eauto.
Qed.

(** Rounding a whole number below 2^53 changes nothing. *)
Lemma round_binary64_exact (n : Z) :
  0 <= n < 2 ^ 53 ->
  exists m e, round_binary64 false n 1 = FFin false m e /\
              int_of_float (FFin false m e) = Ok n.
Proof.
  intros [Hlo Hhi].
  unfold round_binary64.
  destruct (Z.eqb_spec n 0) as [->|Hn0].
  - exists 0, 0. split; reflexivity.
  - assert (Hpos : 0 < n) by lia.
    change (Z.log2 1) with 0. rewrite Z.sub_0_r.
    pose proof (Z.log2_spec n Hpos) as [Hl1 Hl2].
    pose proof (Z.log2_nonneg n) as Hl0.
    assert (Hl53 : Z.log2 n < 53) by (apply Z.log2_lt_pow2; lia).
    destruct (Z.leb_spec 0 (Z.log2 n)) as [_|]; [|lia].
    rewrite Z.mul_1_l.
    destruct (Z.ltb_spec n (2 ^ Z.log2 n)) as [|_]; [lia|].
    rewrite Z.max_l by lia.
    set (e := Z.log2 n - 52).
    destruct (Z.leb_spec 0 e) as [He|He].
    + assert (e = 0) by (unfold e in *; lia).
      replace (2 ^ e) with 1 by (subst; rewrite H; reflexivity).
      rewrite Z.mul_1_l, Z.div_1_r, Z.mod_1_r.
      change (2 * 0 <? 1) with true. cbv iota.
      rewrite Z.mul_1_r.
      destruct (Z.leb_spec (2 ^ 1024) n) as [Hbig|_].
      * exfalso. assert (2 ^ 53 < 2 ^ 1024) by (apply Z.pow_lt_mono_r; lia). lia.
      * exists n, e. split; [reflexivity|].
        unfold int_of_float. rewrite H. simpl. now rewrite Z.mul_1_r.
    + rewrite Z.div_1_r, Z.mod_1_r.
      change (2 * 0 <? 1) with true. cbv iota. simpl andb.
      exists (n * 2 ^ (- e)), e. split; [reflexivity|].
      unfold int_of_float.
      destruct (Z.leb_spec 0 e) as [|_]; [lia|].
      rewrite Z.div_mul; [reflexivity|].
      apply Z.pow_nonzero; lia.
Qed.


Lemma float_of_digits (s : string) (v : Z) (k : nat) :
  all_digits s = true ->
  read_digits 0 0 s = (v, S k, EmptyString) ->
  float_of_str s = Ok (round_binary64 false v 1).
Proof.
  intros Hd Hr. unfold float_of_str.
  rewrite all_digits_map_chars, all_digits_lstrip_c, all_digits_rstrip_c by assumption.
  rewrite all_digits_drop_underscores by assumption.
  destruct s as [|c s]; [simpl in Hr; discriminate|].
  pose proof Hd as Hd'.
  simpl in Hd. apply andb_true_iff in Hd as [Hc Hs].
  destruct (is_digit_facts c Hc) as (_ & _ & Hlow & _ & Hm & Hp & Hi & Hn & _).
  rewrite Hm, Hp.
  rewrite (all_digits_lower _ Hd').
  assert (Hinf : String.eqb (String c s) "inf" = false).
  { cbn [String.eqb]. now rewrite Hi. }
  assert (Hinfinity : String.eqb (String c s) "infinity" = false).
  { cbn [String.eqb]. now rewrite Hi. }
  assert (Hnan : String.eqb (String c s) "nan" = false).
  { cbn [String.eqb]. now rewrite Hn. }
  rewrite Hinf, Hinfinity, Hnan. cbn [orb].
  unfold read_decimal. rewrite Hr.
  cbn [Nat.add read_exponent Z.of_nat]. 
  rewrite Z.sub_0_r. cbn [Z.leb Z.compare]. 
  now rewrite Z.pow_0_r, Z.mul_1_r.
Qed.

Lemma safe_int_of_str_of_int (n : Z) :
  0 <= n < 2 ^ 53 -> _safe_int (VStr (str_of_int n)) = Ok n.
Proof.
  intros Hn.
  assert (Hf : float_of_str (str_of_int n) = Ok (round_binary64 false n 1)).
  { destruct n as [|p|p]; [reflexivity | | lia].
    rewrite str_of_int_pos.
    pose proof (read_digits_uint (Pos.to_uint p) 0) as Hr.
    rewrite DecimalPos.Unsigned.of_to in Hr. cbn [Z.of_N Nat.add] in Hr.
    destruct (Decimal.nb_digits (Pos.to_uint p)) as [|k] eqn:Hk.
    - exfalso. destruct (Pos.to_uint p) eqn:E; try discriminate Hk.
      eapply DecimalPos.Unsigned.to_uint_nonnil; eauto.
    - eapply float_of_digits; [apply all_digits_uint | exact Hr]. }
  destruct (round_binary64_exact n Hn) as (m & e & Hround & Hint).
  unfold _safe_int, float_of. rewrite Hf, Hround, Hint. reflexivity.
Qed.

Lemma str_of_int_truthy (n : Z) : truthy (str_of_int n) = true.
Proof.
  unfold str_of_int. destruct (Z.to_int n) as [d|d]; simpl.
  - unfold NilZero.string_of_uint. destruct d; reflexivity.
  - reflexivity.
Qed.

(** A dimension whose stored text is missing, empty or not a number is
    shown with the value 0. *)
Lemma segment_value_absent (bd : list (string * string)) (label : string) (mx : Z) :
  dict_get BREAKDOWN_MAX label = Some mx ->
  dict_get bd label = None ->
  segment_value bd label = Ok (0, mx).
Proof.
  intros Hmx Hget. unfold segment_value, get_or_zero.
  rewrite Hget, Hmx. reflexivity.
Qed.

(** C1, as the code has it.  Whatever whole number [n] (from 0 to below
    2^53) the stored breakdown holds for a dimension, the card shows that
    dimension as "label n/max" with the same [n] beside the declared
    maximum, whether or not [n] is above the maximum: the value is neither
    clamped nor rejected.  A dimension missing from the stored breakdown is
    shown as 0. *)
Theorem breakdown_value_shown_as_stored
    (text : option string) (label : string) (mx n : Z) :
  dict_get BREAKDOWN_MAX label = Some mx ->
  0 <= n < 2 ^ 53 ->
  (dict_get (parse_breakdown text) label = Some (str_of_int n) ->
   segment_value (parse_breakdown text) label = Ok (n, mx) /\
   format_segment label (n, mx)
   = (label ++ " " ++ str_of_int n ++ "/" ++ str_of_int mx)%string) /\
  (dict_get (parse_breakdown text) label = None ->
   segment_value (parse_breakdown text) label = Ok (0, mx)).
Proof.
  intros Hmx Hn. split.
  - intros Hget. split.
    + unfold segment_value, get_or_zero.
      rewrite Hget, str_of_int_truthy, safe_int_of_str_of_int by exact Hn.
      now rewrite Hmx.
    + unfold format_segment.
      assert (Hz : (mx =? 0) = false).
      { unfold BREAKDOWN_MAX in Hmx. simpl in Hmx.
        repeat match type of Hmx with
               | (if ?b then _ else _) = _ => destruct b
               end; inversion Hmx; reflexivity. }
      now rewrite Hz.
  - intros Hget. now apply segment_value_absent.
Qed.

Lemma breakdown_value_shown_as_stored_witness :
  segment_value (parse_breakdown (Some Samples.breakdown_over_cap)) "Novelty"
  = Ok (7, 3)
  /\ segment_value (parse_breakdown (Some "Impact:4")) "Novelty" = Ok (0, 3).
Proof.
  split.
  - apply (breakdown_value_shown_as_stored
             (Some Samples.breakdown_over_cap) "Novelty" 3 7).
    + reflexivity.
    + vm_compute; split; [discriminate | reflexivity].
    + vm_compute; reflexivity.
  - apply (breakdown_value_shown_as_stored (Some "Impact:4") "Novelty" 3 0).
    + reflexivity.
    + vm_compute; split; [discriminate | reflexivity].
    + vm_compute; reflexivity.
Defined.

(** C1 as stated fails: with a nonzero score and the stored breakdown
    "Novelty:7,Impact:3,Results:1,Access:1" the card shows Novelty 7/3. *)
Lemma breakdown_shown_above_cap :
  ~ (forall score text segs,
       score <> 0 ->
       breakdown_values score text = Ok segs ->
       forall label val mx, In (label, (val, mx)) segs -> val <= mx).
Proof.
  intros H.
  specialize (H 7 (Some Samples.breakdown_over_cap)
                [("Novelty", (7, 3)); ("Impact", (3, 4));
                 ("Results", (1, 2)); ("Access", (1, 1))]).
  assert (Hscore : 7 <> 0) by discriminate.
  assert (E : breakdown_values 7 (Some Samples.breakdown_over_cap)
              = Ok [("Novelty", (7, 3)); ("Impact", (3, 4));
                    ("Results", (1, 2)); ("Access", (1, 1))])
    by (vm_compute; reflexivity).
  specialize (H Hscore E "Novelty"%string 7 3 (or_introl eq_refl)).
  lia.
Qed.

(** A stored "inf" is not caught by [_safe_int]: [int] raises
    [OverflowError], which is neither [TypeError] nor [ValueError]. *)
Example breakdown_line_inf :
  breakdown_line 7 (Some "Novelty:inf"%string) = Raise OverflowError.
Proof. vm_compute; reflexivity. Qed.

Example breakdown_line_above_cap :
  breakdown_line 7 (Some Samples.breakdown_over_cap)
  = Ok (Some "Novelty 7/3 | Impact 3/4 | Results 1/2 | Access 1/1"%string).
Proof. vm_compute; reflexivity. Qed.

End BreakdownFacts.

(* ================================================================= *)
(** ** The provider adapter: retries *)

Section RetryFacts.
Import Provider.
Open Scope Z_scope.

Lemma wait_exponential_bounds (k : nat) : 5 <= wait_exponential k <= 90.
Proof. unfold wait_exponential. lia. Qed.

Lemma wait_schedule :
  map wait_exponential (seq 1 7) = BACKOFF_SCHEDULE.
Proof. reflexivity. Qed.

Context {A : Type} (should_retry : exn -> bool) (body : nat -> result A).

(** The decorator's loop, described by the attempt it stops at. *)
Lemma retrying_spec (left attempt : nat) (slept : list Z) :
  let tr := retrying should_retry body left attempt slept in
  (attempt <= attempts tr <= attempt + left)%nat /\
  sleeps tr
  = (slept ++ map wait_exponential (seq attempt (attempts tr - attempt)))%list /\
  (forall k, (attempt <= k < attempts tr)%nat ->
             exists e, body k = Raise e /\ should_retry e = true) /\
  match body (attempts tr) with
  | Ok a => outcome tr = Ok a
  | Raise e =>
      if should_retry e
      then attempts tr = (attempt + left)%nat /\ outcome tr = Raise (RetryError e)
      else outcome tr = Raise e
  end.
Proof.
  revert attempt slept; induction left as [|left IH]; intros attempt slept;
    cbn [retrying].
  - destruct (body attempt) as [a|e] eqn:Hb.
    + cbn [attempts sleeps outcome]. rewrite Nat.sub_diag, Hb. cbn.
      rewrite app_nil_r. repeat split; try lia; intros; lia.
    + destruct (should_retry e) eqn:Hr; cbn [negb attempts sleeps outcome];
        rewrite Nat.sub_diag, Hb, Hr; cbn; rewrite app_nil_r;
        repeat split; try lia; intros; lia.
  - destruct (body attempt) as [a|e] eqn:Hb.
    + cbn [attempts sleeps outcome]. rewrite Nat.sub_diag, Hb. cbn.
      rewrite app_nil_r. repeat split; try lia; intros; lia.
    + destruct (should_retry e) eqn:Hr; cbn [negb].
      * specialize (IH (S attempt) (slept ++ [wait_exponential attempt])%list).
        cbv zeta in IH. destruct IH as (Hrange & Hsl & Hprev & Hlast).
        set (tr := retrying should_retry body left (S attempt)
                     (slept ++ [wait_exponential attempt])%list) in *.
        split; [lia|]. split; [|split].
        -- rewrite Hsl, <- app_assoc. f_equal.
           replace (attempts tr - attempt)%nat
             with (S (attempts tr - S attempt)) by lia.
           reflexivity.
        -- intros k Hk. destruct (Nat.eq_dec k attempt) as [->|Hne].
           ++ exists e; auto.
           ++ apply Hprev; lia.
        -- destruct (body (attempts tr)) as [a|e'].
           ++ exact Hlast.
           ++ destruct (should_retry e'); [|exact Hlast].
              destruct Hlast as [Ha Ho]. split; [lia | exact Ho].
      * cbn [attempts sleeps outcome]. rewrite Nat.sub_diag, Hb, Hr. cbn.
        rewrite app_nil_r. repeat split; try lia; intros; lia.
Qed.

End RetryFacts.

Section RetryClaims.
Import Provider.
Open Scope Z_scope.

Lemma retry_predicate_with_sdk (env : provider_env) (e : exn) :
  openai_sdk env = true -> retry_predicate env e = is_openai_APIError e.
Proof.
  intros H. unfold retry_predicate. rewrite H. destruct e; reflexivity.
Qed.

Lemma schedule_prefix (n : nat) :
  (n <= 7)%nat ->
  map wait_exponential (seq 1 n) = firstn n BACKOFF_SCHEDULE.
Proof.
  intros H. do 8 (destruct n as [|n]; [reflexivity|]). lia.
Qed.

(** C5, as the code has it.  With the openai SDK importable, [call_llm]
    runs its body at most 8 times and sleeps 5, 5, 8, 16, 32, 64, 90
    seconds (each between 5 and 90) after the failed attempts.  An attempt
    is repeated exactly when it raised an exception of the openai SDK's
    [APIError] family; the first attempt that returns gives the result, and
    after 8 such failures [RetryError] is raised.  Any other exception
    propagates from the attempt that raised it; raised by the first
    attempt, it propagates at once, with no retry and no sleep. *)
Theorem call_llm_retry_policy
    (env : provider_env) (be : backend) (prompt : string) :
  openai_sdk env = true ->
  let tr := call_llm_traced env be prompt in
  (1 <= attempts tr <= 8)%nat /\
  sleeps tr = firstn (attempts tr - 1) BACKOFF_SCHEDULE /\
  Forall (fun w => 5 <= w <= 90) (sleeps tr) /\
  (forall k, (1 <= k < attempts tr)%nat ->
             exists e, call_llm_body env be k prompt = Raise e /\
                       is_openai_APIError e = true) /\
  match call_llm_body env be (attempts tr) prompt with
  | Ok r => outcome tr = Ok r
  | Raise e =>
      if is_openai_APIError e
      then attempts tr = 8%nat /\ outcome tr = Raise (RetryError e)
      else outcome tr = Raise e
  end /\
  (forall e, call_llm_body env be 1 prompt = Raise e ->
             is_openai_APIError e = false ->
             attempts tr = 1%nat /\ sleeps tr = [] /\ outcome tr = Raise e).
Proof.
  intros Hsdk tr.
  pose proof (retrying_spec (retry_predicate env)
                (fun k => call_llm_body env be k prompt)
                (STOP_AFTER - 1) 1 []) as H.
  cbv zeta in H. fold (call_llm_traced env be prompt) in H. fold tr in H.
  change (STOP_AFTER - 1)%nat with 7%nat in H.
  destruct H as (Hrange & Hsl & Hprev & Hlast).
  cbn [app] in Hsl.
  assert (Hsched : sleeps tr = firstn (attempts tr - 1) BACKOFF_SCHEDULE).
  { rewrite Hsl. apply schedule_prefix. lia. }
  assert (Hprev' : forall k, (1 <= k < attempts tr)%nat ->
             exists e, call_llm_body env be k prompt = Raise e /\
                       is_openai_APIError e = true).
  { intros k Hk. destruct (Hprev k Hk) as (e & Hb & Hr).
    exists e. split; [exact Hb|]. now rewrite <- (retry_predicate_with_sdk env). }
  assert (Hlast' : match call_llm_body env be (attempts tr) prompt with
                   | Ok r => outcome tr = Ok r
                   | Raise e =>
                       if is_openai_APIError e
                       then attempts tr = 8%nat /\ outcome tr = Raise (RetryError e)
                       else outcome tr = Raise e
                   end).
  { destruct (call_llm_body env be (attempts tr) prompt) as [r|e]; [exact Hlast|].
    rewrite (retry_predicate_with_sdk env e Hsdk) in Hlast.
    destruct (is_openai_APIError e); [|exact Hlast].
    destruct Hlast as [Ha Ho]. split; [lia | exact Ho]. }
  split; [lia|]. split; [exact Hsched|]. split.
  { rewrite Hsl. apply Forall_forall. intros w Hw.
    apply in_map_iff in Hw as (k & <- & _). apply wait_exponential_bounds. }
  split; [exact Hprev'|]. split; [exact Hlast'|].
  intros e Hb Hnot.
  assert (Hone : attempts tr = 1%nat).
  { destruct (Nat.eq_dec (attempts tr) 1) as [E|NE]; [exact E|].
    destruct (Hprev' 1%nat) as (e' & Hb' & He'); [lia|].
    rewrite Hb in Hb'. inversion Hb'; subst e'. congruence. }
  split; [exact Hone|]. split.
  - rewrite Hsched, Hone. reflexivity.
  - rewrite Hone, Hb, Hnot in Hlast'. exact Hlast'.
Qed.

Lemma call_llm_retry_policy_witness :
  let tr := call_llm_traced Samples.env_openai Samples.backend_flaky "Summarise." in
  attempts tr = 3%nat /\ sleeps tr = [5; 5] /\ is_ok (outcome tr) = true.
Proof.
  pose proof (call_llm_retry_policy Samples.env_openai Samples.backend_flaky
                "Summarise." eq_refl) as H.
  cbv zeta in H. destruct H as (_ & Hs & _).
  cbv zeta. split; [vm_compute; reflexivity|]. split.
  - rewrite Hs. vm_compute; reflexivity.
  - vm_compute; reflexivity.
Defined.

(** C5 as stated fails: with the ollama provider a 503 answer of the
    server, a transient failure in the spec's terms, is raised by the
    first attempt and not retried. *)
Lemma call_llm_ollama_not_retried :
  ~ (forall env be prompt e,
       call_llm_body env be 1 prompt = Raise e ->
       spec_transient e = true ->
       (1 < attempts (call_llm_traced env be prompt))%nat).
Proof.
  intros H.
  specialize (H Samples.env_ollama Samples.backend_flaky "Summarise."%string
                (HTTPError 503) eq_refl eq_refl).
  vm_compute in H. lia.
Qed.

(** The other half of the claim fails too: a rejected API key is an
    [APIError] of the SDK and is tried 8 times. *)
Example call_llm_auth_error_retried :
  let tr := call_llm_traced Samples.env_openai Samples.backend_bad_key "Summarise." in
  attempts tr = 8%nat /\ sleeps tr = BACKOFF_SCHEDULE /\
  outcome tr = Raise (RetryError AuthenticationError).
Proof. vm_compute. repeat split. Qed.

(** Rate limiting that does not end: 8 attempts, then [RetryError]. *)
Example call_llm_gives_up :
  let tr := call_llm_traced Samples.env_openai Samples.backend_limited "Summarise." in
  attempts tr = 8%nat /\ sleeps tr = BACKOFF_SCHEDULE /\
  outcome tr = Raise (RetryError RateLimitError).
Proof. vm_compute. repeat split. Qed.

(** Without the openai SDK every exception is retried, the complaint
    about the missing SDK included. *)
Example call_llm_missing_sdk_retried :
  let tr := call_llm_traced Samples.env_no_sdk Samples.backend_flaky "Summarise." in
  attempts tr = 8%nat /\
  outcome tr = Raise (RetryError
    (RuntimeError "openai SDK not available - install openai package")).
Proof. vm_compute. repeat split. Qed.

End RetryClaims.

(* ================================================================= *)
(** ** Relevance triage: the fallback classifier *)

Section TriageClaims.
Import Provider Triage.

Lemma triage_paper_traced_on_failure
    (env : provider_env) (be : backend) (title abstract : string) (e : exn) :
  triage_with_gemini env be title abstract = Raise e ->
  triage_paper_traced env be title abstract
  = (triage_with_openai env be title abstract, [PrimaryTried; FallbackCalled]).
Proof.
  intros H. unfold triage_paper_traced. rewrite H. destruct e; reflexivity.
Qed.

Lemma triage_with_gemini_unavailable
    (env : provider_env) (be : backend) (title abstract : string) :
  genai_sdk env = false \/ GOOGLE_API_KEY env = None ->
  exists e, triage_with_gemini env be title abstract = Raise e.
Proof.
  intros [H|H]; unfold triage_with_gemini; rewrite H.
  - eexists; reflexivity.
  - destruct (genai_sdk env); eexists; reflexivity.
Qed.

(** C8, as the code has it.  If the Gemini path raises (any exception of
    the model; a failed import and a missing GOOGLE_API_KEY are two ways
    it does), [triage_with_openai] is invoked exactly once, and what the
    orchestrator receives from [triage_paper] is what that one invocation
    produced: its result when it returns, and its own exception (not the
    Gemini path's) when it raises. *)
Theorem triage_fallback_outcome
    (env : provider_env) (be : backend) (title abstract : string) :
  (forall e, triage_with_gemini env be title abstract = Raise e ->
     count_fallback (snd (triage_paper_traced env be title abstract)) = 1 /\
     triage_paper env be title abstract
     = triage_with_openai env be title abstract) /\
  (genai_sdk env = false \/ GOOGLE_API_KEY env = None ->
     count_fallback (snd (triage_paper_traced env be title abstract)) = 1 /\
     triage_paper env be title abstract
     = triage_with_openai env be title abstract).
Proof.
  assert (H : forall e, triage_with_gemini env be title abstract = Raise e ->
     count_fallback (snd (triage_paper_traced env be title abstract)) = 1 /\
     triage_paper env be title abstract
     = triage_with_openai env be title abstract).
  { intros e He. unfold triage_paper.
    rewrite (triage_paper_traced_on_failure env be title abstract e He).
    split; reflexivity. }
  split; [exact H|].
  intros Hun.
  destruct (triage_with_gemini_unavailable env be title abstract Hun) as (e & He).
  exact (H e He).
Qed.

Lemma triage_fallback_outcome_witness :
  triage_paper Samples.env_openai Samples.backend_flaky "Chain-of-Thought" "..."
  = Ok {| relevant := true;
          reason := "It studies multi-step reasoning.";
          triage_model := "gpt-4o-mini (fallback)";
          triage_tokens := 42%Z |}.
Proof.
  destruct (triage_fallback_outcome Samples.env_openai Samples.backend_flaky
              "Chain-of-Thought" "...") as [_ H].
  destruct (H (or_intror eq_refl)) as [_ ->].
  vm_compute; reflexivity.
Defined.

(** C8 as stated fails: with neither GOOGLE_API_KEY nor OPENAI_API_KEY set
    the Gemini path raises, the fallback raises as well, and the
    orchestrator receives an exception. *)
Lemma triage_fallback_may_raise :
  ~ (forall env be title abstract e,
       triage_with_gemini env be title abstract = Raise e ->
       count_fallback (snd (triage_paper_traced env be title abstract)) = 1 /\
       exists r, triage_paper env be title abstract = Ok r).
Proof.
  intros H.
  destruct (H Samples.env_openai Samples.backend_no_key
              "Chain-of-Thought"%string "..."%string
              (ValueError "GOOGLE_API_KEY not set") eq_refl) as [_ [r Hr]].
  vm_compute in Hr. discriminate Hr.
Qed.

End TriageClaims.

(* ================================================================= *)
(** ** Ingestion and de-duplication *)

Section CollectFacts.
Import PyStr Store Collect.

Lemma like_percent (p t : string) :
  like (String "%" p) t
  = like p t || match t with
                | EmptyString => false
                | String _ t' => like (String "%" p) t'
                end.
Proof. destruct t; reflexivity. Qed.

Lemma like_percent_suffix (p pre t : string) :
  like p t = true -> like (String "%" p) (pre ++ t) = true.
Proof.
  intros H. induction pre as [|c pre IH].
  - simpl append. rewrite like_percent, H. reflexivity.
  - change ((String c pre) ++ t) with (String c (pre ++ t)).
    rewrite like_percent, IH. apply orb_true_r.
Qed.

Lemma like_char (p : ascii) (pattern : string) (c : ascii) (text : string) :
  Ascii.eqb p "%" = false ->
  like (String p pattern) (String c text)
  = (Ascii.eqb p "_" || (fold_case p =? fold_case c)) && like pattern text.
Proof. intros H. cbn [like]. rewrite H. reflexivity. Qed.

Lemma like_self (a pattern text : string) :
  like pattern text = true -> like (a ++ pattern) (a ++ text) = true.
Proof.
  intros H. induction a as [|c a IH]; [exact H|].
  change (String c a ++ pattern) with (String c (a ++ pattern)).
  change (String c a ++ text) with (String c (a ++ text)).
  destruct (Ascii.eqb c "%") eqn:Hc.
  - apply Ascii.eqb_eq in Hc; subst c.
    apply (like_percent_suffix (a ++ pattern) (String "%" EmptyString) (a ++ text)).
    exact IH.
  - rewrite like_char by exact Hc. rewrite Nat.eqb_refl, orb_true_r, IH. reflexivity.
Qed.

Lemma like_percent_any (t : string) : like "%" t = true.
Proof.
  induction t as [|c t IH].
  - reflexivity.
  - rewrite like_percent, IH. apply orb_true_r.
Qed.

Lemma like_embedded (aid pre post : string) :
  like ("%" ++ aid ++ "%") (pre ++ aid ++ post) = true.
Proof.
  change ("%" ++ aid ++ "%") with (String "%" (aid ++ "%")).
  apply like_percent_suffix. apply like_self. apply like_percent_any.
Qed.

Lemma paper_exists_iff (t : table) (aid : string) :
  paper_exists t aid = true <->
  exists p, In p t /\ like ("%" ++ aid ++ "%") (arxiv_link p) = true.
Proof.
  unfold paper_exists. rewrite Nat.ltb_lt. split.
  - intros H.
    destruct (filter (fun p => like ("%" ++ aid ++ "%") (arxiv_link p)) t)
      as [|p l] eqn:E; [simpl in H; lia|].
    assert (Hin : In p (filter (fun p => like ("%" ++ aid ++ "%") (arxiv_link p)) t))
      by (rewrite E; left; reflexivity).
    apply filter_In in Hin. exists p. exact Hin.
  - intros (p & Hin & Hl).
    assert (Hf : In p (filter (fun p => like ("%" ++ aid ++ "%") (arxiv_link p)) t))
      by (apply filter_In; auto).
    destruct (filter (fun p => like ("%" ++ aid ++ "%") (arxiv_link p)) t);
      [contradiction | simpl; lia].
Qed.

Lemma paper_exists_app (t l : table) (aid : string) :
  paper_exists t aid = true -> paper_exists (t ++ l)%list aid = true.
Proof.
  rewrite !paper_exists_iff. intros (p & Hin & Hl).
  exists p; split; [apply in_or_app; left; exact Hin | exact Hl].
Qed.

Lemma violates_unique_app (t l : table) (aid : string) :
  violates_unique t aid = true -> violates_unique (t ++ l)%list aid = true.
Proof.
  unfold violates_unique. rewrite existsb_app. intros ->. reflexivity.
Qed.

Lemma candidate_of_item_well_formed (item : option hf_paper) (c : candidate) :
  candidate_of_item item = Some c -> well_formed c.
Proof.
  unfold candidate_of_item. destruct item as [paper|]; [|discriminate].
  destruct (is_empty (coalesce (hf_id paper))); [discriminate|].
  intros H; inversion H; subst c. reflexivity.
Qed.

Lemma collect_candidates_well_formed (items : list (option hf_paper)) :
  Forall well_formed (collect_candidates items).
Proof.
  induction items as [|item items IH]; simpl; [constructor|].
  destruct (candidate_of_item item) as [c|] eqn:E; [|exact IH].
  constructor; [|exact IH]. eapply candidate_of_item_well_formed; eauto.
Qed.

(** A successful insertion appends one row, whose link is the candidate's. *)
Lemma insert_paper_ok (today now : string) (t t' : table) (c : candidate) :
  insert_paper today now t c = Ok t' ->
  exists p, t' = (t ++ [p])%list /\ arxiv_link p = c_url c /\
            arxiv_id p = Some (c_arxiv_id c).
Proof.
  unfold insert_paper. destruct (violates_unique t (c_arxiv_id c)); [discriminate|].
  intros H; inversion H. eexists; split; [reflexivity|]. split; reflexivity.
Qed.

Lemma insert_paper_raise (today now : string) (t : table) (c : candidate) (e : exn) :
  insert_paper today now t c = Raise e -> violates_unique t (c_arxiv_id c) = true.
Proof.
  unfold insert_paper. destruct (violates_unique t (c_arxiv_id c)); [reflexivity|].
  discriminate.
Qed.

Lemma append_empty_r (s : string) : s ++ EmptyString = s.
Proof. induction s as [|c s IH]; simpl; [reflexivity | now rewrite IH]. Qed.

Lemma paper_exists_inserted (t : table) (p : paper) (c : candidate) :
  well_formed c -> arxiv_link p = c_url c ->
  paper_exists (t ++ [p])%list (c_arxiv_id c) = true.
Proof.
  intros Hwf Hl. apply paper_exists_iff. exists p. split.
  - apply in_or_app; right; left; reflexivity.
  - rewrite Hl, Hwf.
    rewrite <- (append_empty_r (c_arxiv_id c)) at 2.
    apply like_embedded.
Qed.

End CollectFacts.

Section CollectClaims.
Import PyStr Store Collect.

(** One round of the loop, by the three ways it can go. *)
Lemma ingest_step (today now : string) (c : candidate) (rest : list candidate)
    (t : table) (k : counters) :
  (paper_exists t (c_arxiv_id c) = true /\
   ingest today now (c :: rest) t k
   = ingest today now rest t
       {| new_count := new_count k; skipped_count := S (skipped_count k) |})
  \/
  (paper_exists t (c_arxiv_id c) = false /\
   exists p, insert_paper today now t c = Ok (t ++ [p])%list /\
             arxiv_link p = c_url c /\
             ingest today now (c :: rest) t k
             = ingest today now rest (t ++ [p])%list
                 {| new_count := S (new_count k); skipped_count := skipped_count k |})
  \/
  (paper_exists t (c_arxiv_id c) = false /\
   violates_unique t (c_arxiv_id c) = true /\
   (exists e, insert_paper today now t c = Raise e) /\
   ingest today now (c :: rest) t k = ingest today now rest t k).
Proof.
  cbn [ingest]. destruct (paper_exists t (c_arxiv_id c)) eqn:Hex.
  - left; split; reflexivity.
  - right. unfold add_paper_to_db.
    destruct (insert_paper today now t c) as [t'|e] eqn:Hins.
    + left. split; [reflexivity|].
      destruct (insert_paper_ok _ _ _ _ _ Hins) as (p & -> & Hl & _).
      exists p. repeat split; auto.
    + right. split; [reflexivity|]. split.
      * eapply insert_paper_raise; eauto.
      * split; [exists e; reflexivity | reflexivity].
Qed.

Lemma failed_inserts_step (today now : string) (c : candidate)
    (rest : list candidate) (t : table) :
  failed_inserts today now (c :: rest) t
  = if paper_exists t (c_arxiv_id c) then failed_inserts today now rest t
    else match insert_paper today now t c with
         | Ok t' => failed_inserts today now rest t'
         | Raise _ => S (failed_inserts today now rest t)
         end.
Proof.
  cbn [failed_inserts]. destruct (paper_exists t (c_arxiv_id c)); [reflexivity|].
  unfold add_paper_to_db. destruct (insert_paper today now t c); reflexivity.
Qed.

(** Added, skipped and failed candidates add up to the batch. *)
Lemma ingest_counts (today now : string) (papers : list candidate) :
  forall t k,
    new_count (snd (ingest today now papers t k))
    + skipped_count (snd (ingest today now papers t k))
    + failed_inserts today now papers t
    = new_count k + skipped_count k + List.length papers.
Proof.
  induction papers as [|c rest IH]; intros t k.
  - simpl. lia.
  - rewrite failed_inserts_step.
    destruct (ingest_step today now c rest t k)
      as [[Hex ->] | [(Hex & p & Hins & _ & ->) | (Hex & _ & [e Hins] & ->)]];
      rewrite Hex; try rewrite Hins.
    + specialize (IH t {| new_count := new_count k;
                          skipped_count := S (skipped_count k) |}).
      simpl in *. lia.
    + specialize (IH (t ++ [p])%list
                     {| new_count := S (new_count k);
                        skipped_count := skipped_count k |}).
      simpl in *. lia.
    + specialize (IH t k). simpl in *. lia.
Qed.

(** After a run every well-formed candidate of the batch is either found
    by [paper_exists] or blocked by the uniqueness constraint. *)
Lemma ingest_settles (today now : string) (papers : list candidate) :
  Forall well_formed papers ->
  forall t k,
    let t' := fst (ingest today now papers t k) in
    (exists added, t' = (t ++ added)%list) /\
    forall c, In c papers ->
              paper_exists t' (c_arxiv_id c) = true
              \/ violates_unique t' (c_arxiv_id c) = true.
Proof.
  induction 1 as [|c rest Hwf _ IH]; intros t k; cbv zeta.
  - simpl. split; [exists []; now rewrite app_nil_r | intros c []].
  - destruct (ingest_step today now c rest t k)
      as [[Hex ->] | [(Hex & p & Hins & Hl & ->) | (Hex & Hv & _ & ->)]].
    + destruct (IH t {| new_count := new_count k;
                        skipped_count := S (skipped_count k) |})
        as [[added Hadd] Hall].
      split; [exists added; exact Hadd|].
      intros c' [<-|Hin]; [|apply Hall; exact Hin].
      left. rewrite Hadd. apply paper_exists_app. exact Hex.
    + destruct (IH (t ++ [p])%list
                   {| new_count := S (new_count k);
                      skipped_count := skipped_count k |})
        as [[added Hadd] Hall].
      split; [exists ([p] ++ added)%list; now rewrite Hadd, app_assoc|].
      intros c' [<-|Hin]; [|apply Hall; exact Hin].
      left. rewrite Hadd. apply paper_exists_app.
      apply paper_exists_inserted; assumption.
    + destruct (IH t k) as [[added Hadd] Hall].
      split; [exists added; exact Hadd|].
      intros c' [<-|Hin]; [|apply Hall; exact Hin].
      right. rewrite Hadd. apply violates_unique_app. exact Hv.
Qed.

(** On a store where every candidate is found or blocked, a run adds no
    row and leaves the added count alone. *)
Lemma ingest_settled (today now : string) (papers : list candidate) (t : table) :
  (forall c, In c papers ->
             paper_exists t (c_arxiv_id c) = true
             \/ violates_unique t (c_arxiv_id c) = true) ->
  forall k, fst (ingest today now papers t k) = t /\
            new_count (snd (ingest today now papers t k)) = new_count k.
Proof.
  induction papers as [|c rest IH]; intros Hall k.
  - split; reflexivity.
  - assert (Hrest : forall c', In c' rest ->
              paper_exists t (c_arxiv_id c') = true
              \/ violates_unique t (c_arxiv_id c') = true)
      by (intros c' Hin; apply Hall; right; exact Hin).
    destruct (ingest_step today now c rest t k)
      as [[Hex ->] | [(Hex & p & Hins & _ & _) | (Hex & _ & _ & ->)]].
    + destruct (IH Hrest {| new_count := new_count k;
                            skipped_count := S (skipped_count k) |}) as [-> ->].
      split; reflexivity.
    + exfalso. destruct (Hall c (or_introl eq_refl)) as [Hp|Hv]; [congruence|].
      unfold insert_paper in Hins. rewrite Hv in Hins. discriminate.
    + apply IH; exact Hrest.
Qed.

(** C4, as the code has it.  A failing insertion is caught for its own
    candidate: the loop goes on with the remaining candidates, the store
    and both counters as they were.  Added, skipped and failed candidates
    add up to the batch, and of these three numbers the report of a run
    holds two, the added and the skipped count; no report is made when the
    feed gave no candidate. *)
Theorem ingest_failure_caught_tally_of_two (today now : string) :
  (forall c rest t k e,
     paper_exists t (c_arxiv_id c) = false ->
     insert_paper today now t c = Raise e ->
     ingest today now (c :: rest) t k = ingest today now rest t k) /\
  (forall papers t,
     let k := snd (ingest today now papers t zero_counters) in
     new_count k + skipped_count k + failed_inserts today now papers t
     = List.length papers) /\
  (forall feed t,
     match get_huggingface_papers feed with
     | [] => main today now feed t = (t, None)
     | papers =>
         let '(t', k) := ingest today now papers t zero_counters in
         main today now feed t
         = (t', Some [("New papers added", new_count k);
                      ("Duplicates skipped", skipped_count k)])
     end).
Proof.
  split; [|split].
  - intros c rest t k e Hex Hins.
    destruct (ingest_step today now c rest t k)
      as [[Hex' _] | [(_ & p & Hins' & _) | (_ & _ & _ & ->)]];
      [congruence | congruence | reflexivity].
  - intros papers t. cbv zeta. rewrite ingest_counts. reflexivity.
  - intros feed t. unfold main.
    destruct (get_huggingface_papers feed) as [|c rest]; [reflexivity|].
    destruct (ingest today now (c :: rest) t zero_counters) as [t' k].
    reflexivity.
Qed.

Lemma ingest_failure_caught_tally_of_two_witness :
  main "2024-03-01" "2024-03-01T08:00:00" Samples.feed_two Samples.table_by_hand
  = (Samples.table_by_hand,
     Some [("New papers added", 0); ("Duplicates skipped", 0)]).
Proof.
  destruct (ingest_failure_caught_tally_of_two "2024-03-01" "2024-03-01T08:00:00")
    as (Hstep & _ & Hmain).
  specialize (Hmain Samples.feed_two Samples.table_by_hand).
  change (get_huggingface_papers Samples.feed_two)
    with (collect_candidates [Samples.hf_item "2401.00001" "First";
                              Samples.hf_item "2401.00002" "Second"]) in Hmain.
  cbn [collect_candidates candidate_of_item Samples.hf_item coalesce hf_id
       is_empty] in Hmain.
  rewrite (Hstep _ _ _ _ IntegrityError) in Hmain
    by (vm_compute; reflexivity).
  rewrite (Hstep _ _ _ _ IntegrityError) in Hmain
    by (vm_compute; reflexivity).
  exact Hmain.
Defined.

(** C4 as stated fails: in a run where both insertions fail the report is
    (added 0, skipped 0); the number of failures, 2, is not in it. *)
Lemma ingest_report_lacks_failed :
  ~ (forall today now feed t t' r,
       main today now feed t = (t', Some r) ->
       exists label,
         In (label, failed_inserts today now (get_huggingface_papers feed) t) r).
Proof.
  intros H.
  destruct (H "2024-03-01"%string "2024-03-01T08:00:00"%string
              Samples.feed_two Samples.table_by_hand Samples.table_by_hand
              [("New papers added"%string, 0); ("Duplicates skipped"%string, 0)])
    as [label Hin].
  - vm_compute; reflexivity.
  - assert (E : failed_inserts "2024-03-01" "2024-03-01T08:00:00"
                  (get_huggingface_papers Samples.feed_two) Samples.table_by_hand
                = 2) by (vm_compute; reflexivity).
    rewrite E in Hin. destruct Hin as [Hin | [Hin | []]]; inversion Hin.
Qed.

(** C10.  Once an ingestion has stored a candidate, a second ingestion of
    that identifier finds it by its link, skips it and adds nothing: the
    store is unchanged, the added count stays as it was and the skipped
    count goes up by one.  For a whole feed: a second run over the same
    feed leaves the store as the first run left it and adds 0 papers. *)
Theorem second_ingestion_adds_nothing
    (today now today' now' : string) :
  (forall item c c' t t1 k1 k,
     candidate_of_item item = Some c ->
     ingest today now [c] t zero_counters = (t1, k1) ->
     new_count k1 = 1 ->
     c_arxiv_id c' = c_arxiv_id c ->
     paper_exists t1 (c_arxiv_id c') = true /\
     ingest today' now' [c'] t1 k
     = (t1, {| new_count := new_count k;
               skipped_count := S (skipped_count k) |})) /\
  (forall items t,
     let papers := collect_candidates items in
     let t1 := fst (ingest today now papers t zero_counters) in
     fst (ingest today' now' papers t1 zero_counters) = t1 /\
     new_count (snd (ingest today' now' papers t1 zero_counters)) = 0).
Proof.
  split.
  - intros item c c' t t1 k1 k Hc Hrun Hnew Hid.
    pose proof (candidate_of_item_well_formed item c Hc) as Hwf.
    assert (Hex : paper_exists t1 (c_arxiv_id c) = true).
    { destruct (ingest_step today now c [] t zero_counters)
        as [[_ E] | [(_ & p & _ & Hl & E) | (_ & _ & _ & E)]];
        rewrite E in Hrun; cbn [ingest] in Hrun; inversion Hrun; subst t1 k1;
        cbn in Hnew; try discriminate Hnew.
      apply paper_exists_inserted; assumption. }
    rewrite Hid. split; [exact Hex|].
    cbn [ingest]. rewrite Hid, Hex. reflexivity.
  - intros items t papers t1.
    pose proof (ingest_settles today now papers
                  (collect_candidates_well_formed items) t zero_counters)
      as [_ Hall].
    fold t1 in Hall.
    destruct (ingest_settled today' now' papers t1 Hall zero_counters) as [E1 E2].
    split; [exact E1 | exact E2].
Qed.

Lemma second_ingestion_adds_nothing_witness :
  let t1 := fst (ingest "2024-03-01" "2024-03-01T08:00:00"
                   (collect_candidates Samples.feed_new) Samples.table_by_hand
                   zero_counters) in
  List.length t1 = 3 /\
  ingest "2024-03-02" "2024-03-02T08:00:00"
    (collect_candidates Samples.feed_new) t1 zero_counters
  = (t1, {| new_count := 0; skipped_count := 1 |}).
Proof.
  cbv zeta. split; [vm_compute; reflexivity|].
  destruct (second_ingestion_adds_nothing "2024-03-01" "2024-03-01T08:00:00"
              "2024-03-02" "2024-03-02T08:00:00") as [H _].
  destruct (ingest "2024-03-01" "2024-03-01T08:00:00"
              (collect_candidates Samples.feed_new) Samples.table_by_hand
              zero_counters) as [t1 k1] eqn:E.
  cbn [fst].
  refine (proj2 (H (Samples.hf_item "2402.12345" "Chain-of-Thought Improves Planning")
                   _ _ Samples.table_by_hand t1 k1 zero_counters
                   eq_refl E _ eq_refl)).
  vm_compute in E. inversion E. reflexivity.
Defined.

End CollectClaims.

(* ================================================================= *)
(** ** The orchestrator: one paper at a time *)

Section OrchestratorFacts.
Import PyStr Digest Provider Triage Store Summarize.

Variable triage_paper : string -> string -> result triage_result.
Variable call_llm : string -> result llm_response.
Variable now : string.
Variable BATCH_LIMIT : Z.

Local Notation "'triage_step'" := (Summarize.triage_step triage_paper).
Local Notation "'summary_step'" := (Summarize.summary_step call_llm now).
Local Notation "'process_row'" := (Summarize.process_row triage_paper call_llm now).
Local Notation "'process_rows'" := (Summarize.process_rows triage_paper call_llm now).
Local Notation "'main'" := (Summarize.main triage_paper call_llm now BATCH_LIMIT).

Lemma triage_step_raise (r : row) (s : run_state) (e : exn) :
  triage_paper (r_title r) (r_abstract r) = Raise e ->
  triage_step r s
  = (Ok false,
     say (TriageFailed e) (log_call (TriageCall (r_title r) (r_abstract r)) s)).
Proof.
  intros H. unfold Summarize.triage_step, do_triage, try_except, bind, modify, lift, ret.
  cbv beta iota. rewrite H. reflexivity.
Qed.

Lemma triage_step_relevant (r : row) (s : run_state) (v : triage_result) :
  triage_paper (r_title r) (r_abstract r) = Ok v -> relevant v = true ->
  triage_step r s
  = (Ok false,
     say (Relevant (take 80 (reason v)))
       (count_triaged (triage_tokens v)
          (log_call (TriageCall (r_title r) (r_abstract r)) s))).
Proof.
  intros H Hrel.
  unfold Summarize.triage_step, do_triage, try_except, bind, modify, lift, ret.
  cbv beta iota. rewrite H. cbv beta iota. rewrite Hrel. reflexivity.
Qed.

Lemma triage_step_not_relevant (r : row) (s : run_state) (v : triage_result) :
  triage_paper (r_title r) (r_abstract r) = Ok v -> relevant v = false ->
  triage_step r s
  = (Ok true,
     with_db (fun t => save_skip t (r_id r) (reason v))
       (count_skipped
          (say (NotRelevant (reason v))
             (count_triaged (triage_tokens v)
                (log_call (TriageCall (r_title r) (r_abstract r)) s))))).
Proof.
  intros H Hrel.
  unfold Summarize.triage_step, do_triage, try_except, bind, modify, lift, ret.
  cbv beta iota. rewrite H. cbv beta iota. rewrite Hrel. reflexivity.
Qed.

Lemma summary_step_raise (r : row) (s : run_state) (e : exn) :
  call_llm (format_prompt r) = Raise e ->
  summary_step r s
  = (Ok tt, say (SummaryFailed e) (log_call (SummaryCall (format_prompt r)) s)).
Proof.
  intros H.
  unfold Summarize.summary_step, do_call_llm, try_except, bind, modify, lift, ret.
  cbv beta iota. rewrite H. reflexivity.
Qed.

Lemma summary_step_ok (r : row) (s : run_state) (resp : llm_response) :
  call_llm (format_prompt r) = Ok resp ->
  exists digest,
    extract_tldr (summary_text resp) = Ok digest /\
    summary_step r s
    = (Ok tt,
       say (Summarized (String.length (summary_text resp)))
         (count_summarized
            (with_db (fun t => save_summary now t (r_id r) (summary_text resp)
                                 digest (model resp) (tokens resp))
               (log_call (SummaryCall (format_prompt r)) s)))).
Proof.
  intros H.
  destruct (extract_tldr_cases (summary_text resp)) as (digest & E & _).
  exists digest. split; [exact E|].
  unfold Summarize.summary_step, do_call_llm, try_except, bind, modify, lift, ret.
  cbv beta iota zeta. rewrite H. cbv beta iota. rewrite E. reflexivity.
Qed.

(** Neither [try] block lets an exception out. *)
Lemma triage_step_returns (r : row) (s : run_state) :
  exists b s', triage_step r s = (Ok b, s').
Proof.
  destruct (triage_paper (r_title r) (r_abstract r)) as [v|e] eqn:H.
  - destruct (relevant v) eqn:Hrel.
    + rewrite (triage_step_relevant r s v H Hrel). eauto.
    + rewrite (triage_step_not_relevant r s v H Hrel). eauto.
  - rewrite (triage_step_raise r s e H). eauto.
Qed.

Lemma summary_step_returns (r : row) (s : run_state) :
  exists s', summary_step r s = (Ok tt, s').
Proof.
  destruct (call_llm (format_prompt r)) as [resp|e] eqn:H.
  - destruct (summary_step_ok r s resp H) as (d & _ & ->). eauto.
  - rewrite (summary_step_raise r s e H). eauto.
Qed.

(** The loop body, with its monadic plumbing worked out. *)
Lemma process_row_unfold (force : bool) (r : row) (s : run_state) :
  process_row force r s
  = if has_real_summary r && negb force
    then (Ok tt, say (AlreadySummarized (r_id r)) s)
    else match triage_step r (say (Triaging (r_id r) (take 60 (r_title r))) s) with
         | (Ok true, s1) => (Ok tt, s1)
         | (Ok false, s1) => summary_step r s1
         | (Raise e, s1) => (Raise e, s1)
         end.
Proof.
  unfold Summarize.process_row.
  destruct (has_real_summary r && negb force); [reflexivity|].
  unfold bind, modify, ret.
  destruct (triage_step r (say (Triaging (r_id r) (take 60 (r_title r))) s))
    as [[[]|e] s1]; reflexivity.
Qed.

Lemma process_row_returns (force : bool) (r : row) (s : run_state) :
  exists s', process_row force r s = (Ok tt, s').
Proof.
  rewrite process_row_unfold.
  destruct (has_real_summary r && negb force); [eauto|].
  destruct (triage_step_returns r
              (say (Triaging (r_id r) (take 60 (r_title r))) s))
    as (b & s1 & ->).
  destruct b; [eauto | apply summary_step_returns].
Qed.

Lemma process_rows_cons (force : bool) (r : row) (rest : list row) (s : run_state) :
  process_rows force (r :: rest) s
  = process_rows force rest (snd (process_row force r s)).
Proof.
  cbn [Summarize.process_rows]. unfold bind.
  destruct (process_row_returns force r s) as (s' & ->). reflexivity.
Qed.

Lemma process_rows_returns (force : bool) (rows : list row) (s : run_state) :
  exists s', process_rows force rows s = (Ok tt, s').
Proof.
  revert s; induction rows as [|r rest IH]; intros s.
  - unfold Summarize.process_rows, ret. eauto.
  - rewrite process_rows_cons. apply IH.
Qed.

Lemma main_as_loop (ids : list Z) (force : bool) (t : table) :
  main ids force t
  = process_rows force (fetch_papers BATCH_LIMIT t ids force) (initial_state t).
Proof.
  unfold Summarize.main.
  destruct (fetch_papers BATCH_LIMIT t ids force); reflexivity.
Qed.

(** The skip marker touches two columns of the rows with the given id. *)
Lemma save_skip_frame (t : table) (pid : Z) (why : string) :
  Forall2 (fun p p' =>
             same_but_summary_and_digest p p' /\
             (id p = pid -> summary_md p' = Some SKIP_SENTINEL /\ tldr p' = Some why) /\
             (id p <> pid -> p' = p))
          t (save_skip t pid why).
Proof.
  unfold save_skip, update_where_id.
  induction t as [|p t IH]; simpl; constructor; [|exact IH].
  destruct (Z.eqb_spec (id p) pid) as [E|NE].
  - split; [|split]; [| auto | intros C; contradiction].
    unfold same_but_summary_and_digest; cbn. repeat split.
  - split; [|split]; [| intros C; contradiction | reflexivity].
    unfold same_but_summary_and_digest. repeat split.
Qed.

Lemma calls_log_call (c : llm_call) (s : run_state) :
  calls (log_call c s) = (calls s ++ [c])%list.
Proof. reflexivity. Qed.

(** C7.  When triage completes and says not relevant, the loop body
    returns after storing the skip marker as [summary_md] and the reason as
    [tldr] in the rows with the paper's id; the only call made is the
    triage call (the summariser is not called); every other column of
    every row, the excitement score among them, is as it was, and rows
    with another id are untouched. *)
Theorem not_relevant_stores_marker_only
    (force : bool) (r : row) (s : run_state) (v : triage_result) :
  has_real_summary r && negb force = false ->
  triage_paper (r_title r) (r_abstract r) = Ok v ->
  relevant v = false ->
  let s' := snd (process_row force r s) in
  fst (process_row force r s) = Ok tt /\
  db s' = save_skip (db s) (r_id r) (reason v) /\
  calls s' = (calls s ++ [TriageCall (r_title r) (r_abstract r)])%list /\
  Forall2 (fun p p' =>
             same_but_summary_and_digest p p' /\
             (id p = r_id r ->
              summary_md p' = Some SKIP_SENTINEL /\ tldr p' = Some (reason v)) /\
             (id p <> r_id r -> p' = p))
          (db s) (db s').
Proof.
  intros Hguard Htri Hrel s'.
  subst s'. rewrite process_row_unfold, Hguard.
  rewrite (triage_step_not_relevant r _ v Htri Hrel). cbn [fst snd].
  split; [reflexivity|]. split; [reflexivity|]. split; [reflexivity|].
  apply save_skip_frame.
Qed.

(** C9.  A provider error never ends the batch: the loop body returns for
    every row, the loop goes on to the rows that remain, and [main]
    returns.  If triage raises, the failure is printed and the body goes
    straight to the summary step, so the triage call is followed by the
    summary call for that paper.  If the summariser raises (after triage
    raised or said relevant), the failure is printed and the store is left
    exactly as it was, so the next selection is the same as before; and
    processing continues with the next row. *)
Theorem provider_errors_do_not_abort (force : bool) :
  (forall rows s, exists s', process_rows force rows s = (Ok tt, s')) /\
  (forall ids t, fst (main ids force t) = Ok tt) /\
  (forall r rest s,
     process_rows force (r :: rest) s
     = process_rows force rest (snd (process_row force r s))) /\
  (forall r s e,
     has_real_summary r && negb force = false ->
     triage_paper (r_title r) (r_abstract r) = Raise e ->
     process_row force r s
     = summary_step r
         (say (TriageFailed e)
            (log_call (TriageCall (r_title r) (r_abstract r))
               (say (Triaging (r_id r) (take 60 (r_title r))) s))) /\
     calls (snd (process_row force r s))
     = (calls s ++ [TriageCall (r_title r) (r_abstract r);
                    SummaryCall (format_prompt r)])%list) /\
  (forall r s e,
     has_real_summary r && negb force = false ->
     match triage_paper (r_title r) (r_abstract r) with
     | Ok v => relevant v = true
     | Raise _ => True
     end ->
     call_llm (format_prompt r) = Raise e ->
     fst (process_row force r s) = Ok tt /\
     db (snd (process_row force r s)) = db s /\
     In (SummaryFailed e) (printed (snd (process_row force r s))) /\
     forall ids f,
       fetch_papers BATCH_LIMIT (db (snd (process_row force r s))) ids f
       = fetch_papers BATCH_LIMIT (db s) ids f).
Proof.
  split; [|split; [|split; [|split]]].
  - intros rows s. apply process_rows_returns.
  - intros ids t. rewrite main_as_loop.
    destruct (process_rows_returns force
                (fetch_papers BATCH_LIMIT t ids force) (initial_state t))
      as (s' & ->). reflexivity.
  - intros r rest s. apply process_rows_cons.
  - intros r s e Hguard Htri.
    assert (E : process_row force r s
                = summary_step r
                    (say (TriageFailed e)
                       (log_call (TriageCall (r_title r) (r_abstract r))
                          (say (Triaging (r_id r) (take 60 (r_title r))) s)))).
    { rewrite process_row_unfold, Hguard.
      rewrite (triage_step_raise r _ e Htri). reflexivity. }
    split; [exact E|]. rewrite E.
    destruct (call_llm (format_prompt r)) as [resp|e'] eqn:Hllm.
    + destruct (summary_step_ok r
                  (say (TriageFailed e)
                     (log_call (TriageCall (r_title r) (r_abstract r))
                        (say (Triaging (r_id r) (take 60 (r_title r))) s)))
                  resp Hllm)
        as (d & _ & ->).
      cbn [snd]. cbn [calls say count_summarized with_db log_call].
      now rewrite <- app_assoc.
    + rewrite (summary_step_raise r _ e' Hllm).
      cbn [snd]. cbn [calls say log_call]. now rewrite <- app_assoc.
  - intros r s e Hguard Htri Hllm.
    assert (Hdb : fst (process_row force r s) = Ok tt /\
                  db (snd (process_row force r s)) = db s /\
                  In (SummaryFailed e) (printed (snd (process_row force r s)))).
    { rewrite process_row_unfold, Hguard.
      destruct (triage_paper (r_title r) (r_abstract r)) as [v|e'] eqn:Ht.
      - rewrite (triage_step_relevant r _ v Ht Htri).
        rewrite (summary_step_raise r _ e Hllm).
        split; [reflexivity|]. split; [reflexivity|].
        cbn [snd printed say]. apply in_or_app. right. left. reflexivity.
      - rewrite (triage_step_raise r _ e' Ht).
        rewrite (summary_step_raise r _ e Hllm).
        split; [reflexivity|]. split; [reflexivity|].
        cbn [snd printed say]. apply in_or_app. right. left. reflexivity. }
    destruct Hdb as (Hok & Hdb & Hpr).
    split; [exact Hok|]. split; [exact Hdb|]. split; [exact Hpr|].
    intros ids f. now rewrite Hdb.
Qed.

End OrchestratorFacts.

Lemma not_relevant_stores_marker_only_witness :
  let s' := snd (Summarize.process_row Samples.triage_no Samples.llm_up
                   "2024-03-01T09:00:00" false Samples.row_pending
                   (Summarize.initial_state Samples.table_pending)) in
  Summarize.db s'
  = [Samples.mk_paper 1 (Some "2402.12345")
       "Chain-of-Thought Improves Planning"
       "https://arxiv.org/abs/2402.12345"
       (Some Summarize.SKIP_SENTINEL)
       (Some "Low-level GPU kernel scheduling.")]
  /\ Summarize.calls s'
     = [Summarize.TriageCall "Chain-of-Thought Improves Planning"
          "We study multi-step reasoning."].
Proof.
  cbv zeta.
  destruct (not_relevant_stores_marker_only Samples.triage_no Samples.llm_up
              "2024-03-01T09:00:00" false Samples.row_pending
              (Summarize.initial_state Samples.table_pending)
              (Samples.verdict false "Low-level GPU kernel scheduling.")
              eq_refl eq_refl eq_refl) as (_ & Hdb & Hcalls & _).
  split; [rewrite Hdb | rewrite Hcalls]; reflexivity.
Defined.

Lemma provider_errors_do_not_abort_witness :
  let s' := snd (Summarize.process_row Samples.triage_down Samples.llm_down
                   "2024-03-01T09:00:00" false Samples.row_pending
                   (Summarize.initial_state Samples.table_pending)) in
  Summarize.db s' = Samples.table_pending /\
  List.length (Summarize.calls s') = 2.
Proof.
  cbv zeta.
  destruct (provider_errors_do_not_abort Samples.triage_down Samples.llm_down
              "2024-03-01T09:00:00" 10%Z false)
    as (_ & _ & _ & Htri & Hsum).
  split.
  - apply (Hsum Samples.row_pending
             (Summarize.initial_state Samples.table_pending)
             (RetryError AuthenticationError) eq_refl I eq_refl).
  - destruct (Htri Samples.row_pending
                (Summarize.initial_state Samples.table_pending)
                OpenAIError eq_refl eq_refl) as [_ ->].
    reflexivity.
Defined.

(* ================================================================= *)
(** ** Two runs in a row *)

Section SettleFacts.
Import PyStr Digest Provider Triage Store Summarize.

Lemma space_classes (c : ascii) :
  is_space c = false -> is_linebreak c = false /\ is_blank_char c = false.
Proof.
  destruct c as [[] [] [] [] [] [] [] []]; vm_compute; intros H;
    try discriminate H; split; reflexivity.
Qed.

Lemma lstrip_head (x : string) :
  lstrip x = EmptyString \/ heads_nonspace (lstrip x) = true.
Proof.
  induction x as [|c x IH]; simpl; [left; reflexivity|].
  destruct (is_space c) eqn:Hc; [exact IH|].
  right. simpl. now rewrite Hc.
Qed.

Lemma rstrip_head (x : string) :
  heads_nonspace x = true -> heads_nonspace (rstrip x) = true.
Proof.
  destruct x as [|c x]; simpl; [discriminate|].
  intros H. apply negb_true_iff in H. rewrite H. simpl. now rewrite H.
Qed.

Lemma strip_head (x : string) :
  strip x = EmptyString \/ heads_nonspace (strip x) = true.
Proof.
  unfold strip. destruct (lstrip_head x) as [->|H].
  - left; reflexivity.
  - right. now apply rstrip_head.
Qed.

Lemma strip_of_headed (x : string) :
  heads_nonspace x = true -> heads_nonspace (strip x) = true.
Proof.
  intros H. unfold strip.
  destruct x as [|c x]; [discriminate|].
  simpl in H. apply negb_true_iff in H.
  simpl lstrip. rewrite H. apply rstrip_head. simpl. now rewrite H.
Qed.

Lemma take_head (n : nat) (x : string) :
  heads_nonspace x = true -> heads_nonspace (take (S n) x) = true.
Proof. destruct x; simpl; auto. Qed.

Lemma headed_not_blank (x : string) :
  heads_nonspace x = true -> null_or_blank (Some x) = false.
Proof.
  destruct x as [|c x]; simpl; [discriminate|].
  intros H. apply negb_true_iff in H.
  destruct (space_classes c H) as [_ Hb].
  unfold sql_trim. simpl sql_ltrim. rewrite Hb.
  simpl. rewrite Hb. reflexivity.
Qed.

Lemma headed_truthy (x : string) : heads_nonspace x = true -> truthy x = true.
Proof. destruct x; simpl; [discriminate | reflexivity]. Qed.

(** The first line of a text begins as the text does. *)
Lemma splitlines_from_head (s : string) :
  forall c0 cur, exists l rest,
    splitlines_from (String c0 cur) s = String c0 l :: rest.
Proof.
  induction s as [|c s IH]; intros c0 cur.
  - simpl. eauto.
  - cbn [splitlines_from]. destruct (is_linebreak c).
    + eauto.
    + change (String c0 cur ++ String c EmptyString)
        with (String c0 (cur ++ String c EmptyString)).
      apply IH.
Qed.

Lemma splitlines_headed (md : string) :
  heads_nonspace md = true ->
  exists l rest, splitlines md = l :: rest /\ heads_nonspace l = true.
Proof.
  destruct md as [|c s]; simpl; [discriminate|].
  intros H. pose proof H as Hn. apply negb_true_iff in Hn.
  destruct (space_classes c Hn) as [Hlb _].
  unfold splitlines. cbn [splitlines_from]. rewrite Hlb. cbn [append].
  destruct (splitlines_from_head s c EmptyString) as (l & rest & ->).
  exists (String c l), rest. split; [reflexivity|]. simpl. exact H.
Qed.

(** The digest of a text that is not blank is not blank. *)
Lemma digest_headed (md : string) :
  heads_nonspace md = true ->
  exists d, extract_tldr md = Ok d /\ heads_nonspace d = true.
Proof.
  intros H.
  destruct (extract_tldr_cases md) as (d & E & [[_ Hd] | Hu]);
    exists d; (split; [exact E|]).
  - subst d. unfold fallback, stripped_lines.
    destruct (splitlines_headed md H) as (l & rest & -> & Hl).
    cbn [map first_nonblank].
    rewrite (headed_truthy _ (strip_of_headed l Hl)).
    apply take_head. now apply strip_of_headed.
  - destruct Hu as (i & j & h & _ & _ & _ & Hj & Hne & _).
    unfold stripped_lines in Hj. apply nth_error_In in Hj.
    apply in_map_iff in Hj as (raw & <- & _).
    destruct (strip_head raw) as [E0|Hh]; [congruence | exact Hh].
Qed.

Lemma In_insert_desc (x p : paper) (l : list paper) :
  In x (insert_desc p l) <-> x = p \/ In x l.
Proof.
  induction l as [|q l IH]; simpl.
  - intuition.
  - destruct (id q <? id p)%Z; simpl; rewrite ?IH; intuition.
Qed.

Lemma In_order_by_id_desc (x : paper) (t : list paper) :
  In x (order_by_id_desc t) <-> In x t.
Proof.
  unfold order_by_id_desc. induction t as [|p t IH]; simpl; [tauto|].
  rewrite In_insert_desc, IH. intuition.
Qed.

Lemma length_insert_desc (p : paper) (l : list paper) :
  List.length (insert_desc p l) = S (List.length l).
Proof.
  induction l as [|q l IH]; simpl; [reflexivity|].
  destruct (id q <? id p)%Z; simpl; [reflexivity | now rewrite IH].
Qed.

Lemma length_order_by_id_desc (t : list paper) :
  List.length (order_by_id_desc t) = List.length t.
Proof.
  unfold order_by_id_desc. induction t as [|p t IH]; simpl; [reflexivity|].
  now rewrite length_insert_desc, IH.
Qed.

Lemma limit_In {A} (n : Z) (l : list A) (x : A) : In x (limit n l) -> In x l.
Proof.
  unfold limit. destruct (n <? 0)%Z; [auto|].
  generalize (Z.to_nat n) as k. intros k; revert l.
  induction k as [|k IH]; intros l; simpl.
  - intros [].
  - destruct l as [|a l]; simpl; [auto|].
    intros [->|H]; [left; reflexivity | right; apply IH; exact H].
Qed.

Lemma limit_all {A} (n : Z) (l : list A) :
  (n < 0 \/ Z.of_nat (List.length l) <= n)%Z -> limit n l = l.
Proof.
  intros H. unfold limit. destruct (Z.ltb_spec n 0) as [|Hn]; [reflexivity|].
  apply firstn_all2. lia.
Qed.

End SettleFacts.

Section SecondRun.
Import PyStr Digest Provider Triage Store Summarize.

Variable triage_paper : string -> string -> result triage_result.
Variable call_llm : string -> result llm_response.
Variable now : string.
Variable BATCH_LIMIT : Z.

Local Notation "'process_row'" := (Summarize.process_row triage_paper call_llm now).
Local Notation "'process_rows'" := (Summarize.process_rows triage_paper call_llm now).
Local Notation "'main'" := (Summarize.main triage_paper call_llm now BATCH_LIMIT).
Local Notation "'settles'" := (Summarize.settles triage_paper call_llm).
Local Notation "'summary_ok'" := (Summarize.summary_ok call_llm).

Lemma process_row_real (r : row) (s : run_state) :
  has_real_summary r = true ->
  process_row false r s = (Ok tt, say (AlreadySummarized (r_id r)) s).
Proof.
  intros H. unfold Summarize.process_row. rewrite H. reflexivity.
Qed.

Lemma summary_step_settles (r : row) (s : run_state) :
  summary_ok r ->
  exists f, db (snd (Summarize.summary_step call_llm now r s))
            = update_where_id (r_id r) f (db s)
            /\ forall p, needs_summary (f p) = false.
Proof.
  intros (resp & Hllm & Htext).
  assert (Hmd : heads_nonspace (summary_text resp) = true).
  { unfold summary_text in *.
    match goal with
    | |- heads_nonspace (strip ?x) = true =>
        destruct (strip_head x) as [E|E]; [congruence | exact E]
    end. }
  destruct (summary_step_ok call_llm now r s resp Hllm) as (d & Hd & ->).
  destruct (digest_headed _ Hmd) as (d' & Hd' & Hhead).
  rewrite Hd in Hd'. inversion Hd'; subst d'.
  eexists. split; [reflexivity|].
  intros p. unfold needs_summary. cbn [summary_md tldr].
  now rewrite (headed_not_blank _ Hmd), (headed_not_blank _ Hhead).
Qed.

Lemma process_row_settles (r : row) (s : run_state) :
  settles r -> has_real_summary r = false ->
  exists f, db (snd (process_row false r s)) = update_where_id (r_id r) f (db s)
            /\ forall p, needs_summary (f p) = false.
Proof.
  intros Hset Hreal.
  rewrite (process_row_unfold triage_paper call_llm now), Hreal.
  cbn [andb]. unfold Summarize.settles in Hset.
  destruct (triage_paper (r_title r) (r_abstract r)) as [v|e] eqn:Htri.
  - destruct (relevant v) eqn:Hrel.
    + rewrite (triage_step_relevant triage_paper r _ v Htri Hrel).
      match goal with
      | |- context [Summarize.summary_step _ _ _ ?s0] =>
          destruct (summary_step_settles r s0 Hset) as (f & E & Hf)
      end.
      exists f. split; [rewrite E; reflexivity | exact Hf].
    + rewrite (triage_step_not_relevant triage_paper r _ v Htri Hrel).
      cbn [snd]. eexists. split; [reflexivity|].
      intros p. unfold needs_summary. cbn [summary_md tldr null_or_blank].
      rewrite Hset. reflexivity.
  - rewrite (triage_step_raise triage_paper r _ e Htri).
    match goal with
    | |- context [Summarize.summary_step _ _ _ ?s0] =>
        destruct (summary_step_settles r s0 Hset) as (f & E & Hf)
    end.
    exists f. split; [rewrite E; reflexivity | exact Hf].
Qed.

Lemma process_rows_cover (rows : list row) :
  (forall r, In r rows -> has_real_summary r = false -> settles r) ->
  forall s, pending_covered (db s) rows ->
            pending_covered (db (snd (process_rows false rows s))) [].
Proof.
  induction rows as [|r rest IH]; intros Hgood s Hcov.
  - exact Hcov.
  - rewrite (process_rows_cons triage_paper call_llm now).
    apply IH; [intros r' Hin; apply Hgood; right; exact Hin|].
    destruct (has_real_summary r) eqn:Hreal.
    + rewrite (process_row_real r s Hreal). cbn [snd].
      intros p Hin Hneed. destruct (Hcov p Hin Hneed) as [H|(r' & [<-|Hr'] & Hid & Hn)].
      * left; exact H.
      * congruence.
      * right; exists r'; auto.
    + destruct (process_row_settles r s (Hgood r (or_introl eq_refl) Hreal) Hreal)
        as (f & -> & Hf).
      intros p' Hin Hneed. unfold update_where_id in Hin.
      apply in_map_iff in Hin as (p & Hp & Hin).
      destruct (Z.eqb_spec (id p) (r_id r)) as [E|NE].
      * subst p'. rewrite Hf in Hneed. discriminate.
      * subst p'. destruct (Hcov p Hin Hneed) as [H|(r' & [<-|Hr'] & Hid & Hn)].
        -- left; exact H.
        -- congruence.
        -- right; exists r'; auto.
Qed.

Lemma process_rows_all_real (rows : list row) (s : run_state) :
  (forall r, In r rows -> has_real_summary r = true) ->
  exists s', process_rows false rows s = (Ok tt, s') /\
             db s' = db s /\ calls s' = calls s.
Proof.
  revert s; induction rows as [|r rest IH]; intros s H.
  - exists s. repeat split.
  - rewrite (process_rows_cons triage_paper call_llm now).
    rewrite (process_row_real r s (H r (or_introl eq_refl))). cbn [snd].
    destruct (IH (say (AlreadySummarized (r_id r)) s)) as (s' & E & Hdb & Hc).
    { intros r' Hin; apply H; right; exact Hin. }
    exists s'. split; [exact E|]. split; [rewrite Hdb | rewrite Hc]; reflexivity.
Qed.

End SecondRun.

Section SecondRunClaim.
Import PyStr Digest Provider Triage Store Summarize.

Variable triage_paper : string -> string -> result triage_result.
Variable call_llm : string -> result llm_response.
Variable now now' : string.
Variable BATCH_LIMIT : Z.

(** C2, as the code has it.  Two unforced runs without explicit ids over
    the same store, with the same triage and summariser behaviour: the
    second run makes no call to a language model and leaves the store as
    it found it, provided the first run could settle every pending record,
    that is, the pending records fit within the batch limit and each of
    them that had no real summary got a not-relevant verdict with a
    non-blank reason or (after triage raised or said relevant) a summary
    with non-blank text.  Records left in the second selection carry a
    real summary and are skipped. *)
Theorem second_run_makes_no_calls (t : table) :
  (BATCH_LIMIT < 0 \/
   Z.of_nat (List.length (filter needs_summary t)) <= BATCH_LIMIT)%Z ->
  (forall p, In p t -> needs_summary p = true ->
             has_real_summary (row_of_paper p) = false ->
             settles triage_paper call_llm (row_of_paper p)) ->
  let s1 := snd (main triage_paper call_llm now BATCH_LIMIT [] false t) in
  let run2 := main triage_paper call_llm now' BATCH_LIMIT [] false (db s1) in
  fst run2 = Ok tt /\ calls (snd run2) = [] /\ db (snd run2) = db s1.
Proof.
  intros Hfit Hgood s1 run2.
  assert (Hrows1 : fetch_papers BATCH_LIMIT t [] false
                   = map row_of_paper (order_by_id_desc (filter needs_summary t))).
  { unfold fetch_papers. rewrite limit_all; [reflexivity|].
    now rewrite length_order_by_id_desc. }
  assert (Hcov : pending_covered (db s1) []).
  { subst s1. rewrite main_as_loop, Hrows1.
    apply process_rows_cover.
    - intros r Hin Hreal. apply in_map_iff in Hin as (p & <- & Hin).
      apply (proj1 (In_order_by_id_desc _ _)) in Hin.
      apply filter_In in Hin as [Hin Hneed].
      now apply Hgood.
    - intros p Hin Hneed. cbn [initial_state db] in Hin.
      destruct (has_real_summary (row_of_paper p)) eqn:Hreal; [left; reflexivity|].
      right. exists (row_of_paper p). split; [|split; [reflexivity | exact Hreal]].
      apply in_map. apply In_order_by_id_desc. apply filter_In. auto. }
  subst run2. rewrite main_as_loop.
  destruct (process_rows_all_real triage_paper call_llm now'
              (fetch_papers BATCH_LIMIT (db s1) [] false)
              (initial_state (db s1)))
    as (s2 & E & Hdb & Hcalls).
  { intros r Hin. unfold fetch_papers in Hin.
    apply in_map_iff in Hin as (p & <- & Hin).
    apply limit_In in Hin. apply (proj1 (In_order_by_id_desc _ _)) in Hin.
    apply filter_In in Hin as [Hin Hneed].
    destruct (Hcov p Hin Hneed) as [H | (r & [] & _)]. exact H. }
  rewrite E. cbn [fst snd].
  split; [reflexivity|]. split; [rewrite Hcalls | rewrite Hdb]; reflexivity.
Qed.

End SecondRunClaim.


Section SecondRunExamples.
Import Store Summarize.

Lemma second_run_makes_no_calls_witness :
  let s1 := snd (main Samples.triage_yes Samples.llm_up "2024-03-01T09:00:00"
                   10 [] false Samples.table_pending) in
  List.length (calls s1) = 2 /\
  calls (snd (main Samples.triage_yes Samples.llm_up "2024-03-02T09:00:00"
                10 [] false (db s1))) = [].
Proof.
  cbv zeta. split; [vm_compute; reflexivity|].
  refine (proj1 (proj2 (second_run_makes_no_calls Samples.triage_yes Samples.llm_up
           "2024-03-01T09:00:00" "2024-03-02T09:00:00" 10 Samples.table_pending
           _ _))).
  - right. vm_compute. discriminate.
  - intros p [<-|[]] _ _. unfold settles. cbn.
    eexists. split; [reflexivity | vm_compute; discriminate].
Defined.

(** C2 as stated fails: when the summariser's provider rejects the API key
    the paper stays pending, and the second run triages and summarises it
    again. *)
Lemma second_run_calls_again :
  ~ (forall triage_paper call_llm now now' BATCH_LIMIT t,
       calls (snd (main triage_paper call_llm now' BATCH_LIMIT [] false
                     (db (snd (main triage_paper call_llm now BATCH_LIMIT
                                 [] false t))))) = []).
Proof.
  intros H.
  specialize (H Samples.triage_yes Samples.llm_down
                "2024-03-01T09:00:00"%string "2024-03-02T09:00:00"%string
                10%Z Samples.table_pending).
  vm_compute in H. discriminate H.
Qed.

End SecondRunExamples.

(* ================================================================= *)
(** ** More on digest extraction *)

Section DigestMore.
Import PyStr Digest Notions.

Lemma first_nonblank_some (lines : list string) (l : string) :
  first_nonblank lines = Some l -> In l lines /\ l <> EmptyString.
Proof.
  induction lines as [|x lines IH]; simpl; [discriminate|].
  destruct (truthy x) eqn:Hx.
  - intros H; inversion H; subst x. split; [left; reflexivity|].
    now apply truthy_true_iff.
  - intros H. destruct (IH H) as [Hin Hne]. split; [right; exact Hin | exact Hne].
Qed.

Lemma first_nonblank_none (lines : list string) :
  first_nonblank lines = None -> Forall (fun x => x = EmptyString) lines.
Proof.
  induction lines as [|x lines IH]; simpl; [constructor|].
  destruct (truthy x) eqn:Hx; [discriminate|].
  intros H. constructor; [now apply truthy_false_iff | exact (IH H)].
Qed.

Lemma take_nonempty (n : nat) (l : string) :
  l <> EmptyString -> take (S n) l <> EmptyString.
Proof. destruct l; simpl; [congruence | discriminate]. Qed.

Lemma blank_lines_no_heading (lines : list string) :
  Forall (fun x => x = EmptyString) lines ->
  Forall (fun l => is_tldr_heading l = false) lines.
Proof.
  intros H. eapply Forall_impl; [|exact H]. intros a ->. reflexivity.
Qed.

(** X1.  The digest is empty exactly when every line of the document is
    blank: a document with any text in it gets a digest that is not
    empty. *)
Theorem digest_empty_iff_blank (s : string) :
  extract_tldr s = Ok EmptyString <->
  Forall (fun l => strip l = EmptyString) (splitlines s).
Proof.
  split.
  - intros H.
    destruct (extract_tldr_cases s) as (d & E & Hcase).
    rewrite H in E. inversion E as [Ed]. clear E.
    destruct Hcase as [[_ Hd] | Hu].
    + rewrite <- Ed in Hd. unfold fallback in Hd.
      destruct (first_nonblank (stripped_lines s)) as [l|] eqn:Hf.
      * exfalso. destruct (first_nonblank_some _ _ Hf) as [_ Hne].
        apply (take_nonempty 279 l Hne). now rewrite <- Hd.
      * apply first_nonblank_none in Hf. unfold stripped_lines in Hf.
        now apply Forall_map in Hf.
    + exfalso. destruct Hu as (i & j & h & _ & _ & _ & _ & Hne & _).
      now apply Hne.
  - intros Hblank.
    assert (Hb : Forall (fun x => x = EmptyString) (stripped_lines s)).
    { unfold stripped_lines. apply Forall_map. exact Hblank. }
    unfold extract_tldr.
    rewrite scan_headings_no_heading by (now apply blank_lines_no_heading).
    unfold fallback. now rewrite first_nonblank_all_blank.
Qed.

Lemma lower_char_idem (c : ascii) : lower_char (lower_char c) = lower_char c.
Proof. destruct c as [[] [] [] [] [] [] [] []]; vm_compute; reflexivity. Qed.

Lemma lower_char_semicolon (c : ascii) :
  Ascii.eqb (lower_char c) ";" = Ascii.eqb c ";".
Proof. destruct c as [[] [] [] [] [] [] [] []]; vm_compute; reflexivity. Qed.

Lemma lower_idem (l : string) : lower (lower l) = lower l.
Proof.
  induction l as [|c l IH]; simpl; [reflexivity|].
  now rewrite lower_char_idem, IH.
Qed.

Lemma lower_remove_char (l : string) :
  lower (remove_char ";" l) = remove_char ";" (lower l).
Proof.
  induction l as [|c l IH]; simpl; [reflexivity|].
  rewrite lower_char_semicolon.
  destruct (Ascii.eqb c ";"); simpl; now rewrite IH.
Qed.

Lemma remove_char_idem (ch : ascii) (l : string) :
  remove_char ch (remove_char ch l) = remove_char ch l.
Proof.
  induction l as [|c l IH]; simpl; [reflexivity|].
  destruct (Ascii.eqb c ch) eqn:E; simpl; [exact IH|].
  now rewrite E, IH.
Qed.

Lemma startswith_append (p rest : string) : startswith (p ++ rest) p = true.
Proof.
  induction p as [|c p IH]; simpl.
  - destruct rest; reflexivity.
  - now rewrite Ascii.eqb_refl, IH.
Qed.

(** X2.  Whether a line counts as a TLDR heading does not depend on
    letter case or on semicolons in it ("# TL;DR" is a heading), and any
    text may follow the word: a line that begins with "# tldr" or
    "## tldr" is a heading whatever comes after. *)
Theorem tldr_heading_tolerance (l rest : string) :
  is_tldr_heading (lower l) = is_tldr_heading l /\
  is_tldr_heading (remove_char ";" l) = is_tldr_heading l /\
  is_tldr_heading ("# tldr" ++ rest) = true /\
  is_tldr_heading ("## tldr" ++ rest) = true.
Proof.
  unfold is_tldr_heading. cbv zeta.
  split; [now rewrite lower_idem|].
  split; [now rewrite lower_remove_char, remove_char_idem|].
  split.
  - assert (E : remove_char ";" (lower ("# tldr" ++ rest))
                = "# tldr" ++ remove_char ";" (lower rest)) by reflexivity.
    rewrite E, startswith_append. reflexivity.
  - assert (E : remove_char ";" (lower ("## tldr" ++ rest))
                = "## tldr" ++ remove_char ";" (lower rest)) by reflexivity.
    rewrite E, startswith_append. apply orb_true_r.
Qed.

Lemma all_chars_append (f : ascii -> bool) (a b : string) :
  all_chars f (a ++ b) = all_chars f a && all_chars f b.
Proof.
  induction a as [|c a IH]; simpl; [reflexivity|].
  now rewrite IH, andb_assoc.
Qed.

Lemma all_chars_lstrip (f : ascii -> bool) (s : string) :
  all_chars f s = true -> all_chars f (lstrip s) = true.
Proof.
  induction s as [|c s IH]; simpl; [reflexivity|].
  intros H. apply andb_true_iff in H as [Hc Hs].
  destruct (is_space c); [exact (IH Hs)|].
  simpl. now rewrite Hc, Hs.
Qed.

Lemma all_chars_rstrip (f : ascii -> bool) (s : string) :
  all_chars f s = true -> all_chars f (rstrip s) = true.
Proof.
  induction s as [|c s IH]; simpl; [reflexivity|].
  intros H. apply andb_true_iff in H as [Hc Hs].
  destruct (is_space c && is_empty (rstrip s)); [reflexivity|].
  simpl. now rewrite Hc, IH.
Qed.

Lemma all_chars_take (f : ascii -> bool) (n : nat) (s : string) :
  all_chars f s = true -> all_chars f (take n s) = true.
Proof.
  revert s; induction n as [|n IH]; intros [|c s]; simpl; try reflexivity.
  intros H. apply andb_true_iff in H as [Hc Hs]. now rewrite Hc, IH.
Qed.

(** Induction for functions that look two characters ahead. *)
Lemma string_ind_two (P : string -> Prop) :
  P EmptyString ->
  (forall c s, P s -> (forall d s', s = String d s' -> P s') -> P (String c s)) ->
  forall s, P s.
Proof.
  intros H0 Hstep s.
  assert (H : P s /\ forall d s', s = String d s' -> P s').
  { induction s as [|c s [IH1 IH2]].
    - split; [exact H0 | intros d s' E; discriminate E].
    - split; [apply Hstep; assumption|].
      intros d s' E; inversion E; subst; exact IH1. }
  exact (proj1 H).
Qed.

(** No line that [splitlines] returns holds a line boundary. *)
Lemma splitlines_from_no_break (s : string) :
  forall cur,
    all_chars (fun c => negb (is_linebreak c)) cur = true ->
    Forall (fun l => all_chars (fun c => negb (is_linebreak c)) l = true)
           (splitlines_from cur s).
Proof.
  induction s as [|c s IH IH2] using string_ind_two; intros cur Hcur.
  - simpl. destruct (is_empty cur); constructor; auto.
  - cbn [splitlines_from]. destruct (is_linebreak c) eqn:Hc.
    + constructor; [exact Hcur|].
      destruct (code c =? 13).
      * destruct s as [|d s'].
        -- apply IH. reflexivity.
        -- destruct (code d =? 10).
           ++ apply (IH2 d s' eq_refl). reflexivity.
           ++ apply IH. reflexivity.
      * apply IH. reflexivity.
    + apply IH. rewrite all_chars_append, Hcur. simpl. now rewrite Hc.
Qed.

(** X3.  A digest is one line: it holds no line boundary, and it is empty
    or begins with a character that is not white space. *)
Theorem digest_is_one_line (s d : string) :
  extract_tldr s = Ok d ->
  all_chars (fun c => negb (is_linebreak c)) d = true /\
  (d = EmptyString \/ heads_nonspace d = true).
Proof.
  intros H.
  assert (Hlines : forall l, In l (stripped_lines s) ->
            all_chars (fun c => negb (is_linebreak c)) l = true /\
            (l = EmptyString \/ heads_nonspace l = true)).
  { intros l Hin. unfold stripped_lines in Hin.
    apply in_map_iff in Hin as (raw & <- & Hin). split.
    - unfold strip. apply all_chars_rstrip, all_chars_lstrip.
      pose proof (splitlines_from_no_break s EmptyString eq_refl) as Hall.
      rewrite Forall_forall in Hall. apply Hall. exact Hin.
    - apply strip_head. }
  destruct (extract_tldr_cases s) as (d' & E & Hcase).
  rewrite H in E. inversion E as [Ed]. subst d'. clear E.
  destruct Hcase as [[_ Hd] | Hu].
  - unfold fallback in Hd.
    destruct (first_nonblank (stripped_lines s)) as [l|] eqn:Hf.
    + destruct (first_nonblank_some _ _ Hf) as [Hin Hne].
      destruct (Hlines l Hin) as [Hnb [Hl|Hl]]; [congruence|].
      subst d. split; [now apply all_chars_take|].
      right. now apply (take_head 279).
    + subst d. split; [reflexivity | left; reflexivity].
  - destruct Hu as (i & j & h & _ & _ & _ & Hj & _).
    apply nth_error_In in Hj. exact (Hlines d Hj).
Qed.

Lemma digest_is_one_line_witness :
  all_chars (fun c => negb (is_linebreak c)) "Foo bar." = true /\
  ("Foo bar." = EmptyString \/ heads_nonspace "Foo bar." = true).
Proof.
  apply (digest_is_one_line Samples.tldr_doc "Foo bar.").
  vm_compute; reflexivity.
Defined.

End DigestMore.

(* ================================================================= *)
(** ** More on the score breakdown *)

Section BreakdownMore.
Import PyStr PyFloat App Notions.

Lemma append_assoc_string (a b c : string) : (a ++ b) ++ c = a ++ (b ++ c).
Proof. induction a as [|x a IH]; simpl; [reflexivity | now rewrite IH]. Qed.

Lemma split_from_no_sep (sep : ascii) (s cur : string) :
  has_char sep s = false -> split_from sep cur s = [cur ++ s].
Proof.
  revert cur; induction s as [|c s IH]; intros cur H; simpl in *.
  - now rewrite append_empty_r.
  - apply orb_false_iff in H as [Hc Hs]. rewrite Hc.
    rewrite IH by exact Hs. now rewrite append_assoc_string.
Qed.

Lemma split_from_at_sep (sep : ascii) (a rest cur : string) :
  has_char sep a = false ->
  split_from sep cur (a ++ String sep rest)
  = (cur ++ a) :: split_from sep EmptyString rest.
Proof.
  revert cur; induction a as [|c a IH]; intros cur H; simpl in *.
  - now rewrite Ascii.eqb_refl, append_empty_r.
  - apply orb_false_iff in H as [Hc Hs]. rewrite Hc.
    rewrite IH by exact Hs. now rewrite append_assoc_string.
Qed.

Lemma split_once_from_at_sep (sep : ascii) (a rest cur : string) :
  has_char sep a = false ->
  split_once_from sep cur (a ++ String sep rest) = Some (cur ++ a, rest).
Proof.
  revert cur; induction a as [|c a IH]; intros cur H; simpl in *.
  - now rewrite Ascii.eqb_refl, append_empty_r.
  - apply orb_false_iff in H as [Hc Hs]. rewrite Hc.
    rewrite IH by exact Hs. now rewrite append_assoc_string.
Qed.

Lemma split_once_from_no_sep (sep : ascii) (s cur : string) :
  has_char sep s = false -> split_once_from sep cur s = None.
Proof.
  revert cur; induction s as [|c s IH]; intros cur H; simpl in *; [reflexivity|].
  apply orb_false_iff in H as [Hc Hs]. rewrite Hc. now apply IH.
Qed.

(** Splitting what [join] glued gives the pieces back. *)
Lemma split_join (sep : ascii) (f : string) (fs : list string) :
  Forall (fun x => has_char sep x = false) (f :: fs) ->
  split sep (join (String sep EmptyString) (f :: fs)) = f :: fs.
Proof.
  revert f; induction fs as [|g fs IH]; intros f H.
  - inversion H; subst. unfold split. cbn [join].
    now rewrite split_from_no_sep.
  - inversion H as [|x l Hf Hrest]; subst. unfold split.
    change (join (String sep EmptyString) (f :: g :: fs))
      with (f ++ String sep (join (String sep EmptyString) (g :: fs))).
    rewrite split_from_at_sep by exact Hf. cbn [append].
    f_equal. apply IH. exact Hrest.
Qed.

Lemma dict_get_app_none {V} (d : list (string * V)) (k : string) (v : V) :
  dict_get d k = None -> dict_set d k v = (d ++ [(k, v)])%list.
Proof.
  induction d as [|[k' v'] d IH]; simpl; [reflexivity|].
  destruct (String.eqb k' k); [discriminate|].
  intros H. now rewrite IH.
Qed.

Lemma dict_get_app_other {V} (d : list (string * V)) (k k' : string) (v : V) :
  k <> k' -> dict_get (d ++ [(k, v)])%list k' = dict_get d k'.
Proof.
  intros Hne. induction d as [|[a b] d IH]; simpl.
  - destruct (String.eqb_spec k k'); [contradiction | reflexivity].
  - destruct (String.eqb a k'); [reflexivity | exact IH].
Qed.

Lemma parse_fields_plain (d acc : list (string * string)) :
  NoDup (map fst d) ->
  Forall plain_field d ->
  (forall kv, In kv d -> dict_get acc (fst kv) = None) ->
  parse_fields acc (map (fun kv => fst kv ++ ":" ++ snd kv) d) = (acc ++ d)%list.
Proof.
  revert acc; induction d as [|[k v] d IH]; intros acc Hnd Hplain Hfresh.
  - simpl. now rewrite app_nil_r.
  - inversion Hnd as [|x l Hk Hnd']; subst.
    inversion Hplain as [|x l (Hc & _ & _ & Hsk & Hsv) Hplain']; subst.
    cbn [map parse_fields fst snd] in *. unfold split_once.
    change (k ++ ":" ++ v) with (k ++ String ":" v).
    rewrite split_once_from_at_sep by exact Hc. cbn [append].
    rewrite Hsk, Hsv.
    rewrite dict_get_app_none by (apply (Hfresh (k, v)); left; reflexivity).
    rewrite IH.
    + now rewrite <- app_assoc.
    + exact Hnd'.
    + exact Hplain'.
    + intros [k' v'] Hin. cbn [fst].
      rewrite dict_get_app_other.
      * apply (Hfresh (k', v')). right; exact Hin.
      * intros ->. apply Hk. apply in_map_iff. exists (k', v'). auto.
Qed.

Lemma has_char_append (c : ascii) (a b : string) :
  has_char c (a ++ b) = has_char c a || has_char c b.
Proof.
  induction a as [|x a IH]; simpl; [reflexivity|].
  now rewrite IH, orb_assoc.
Qed.

(** X4.  Reading back a breakdown written as "key:value" fields joined by
    commas gives the fields in their order, when the keys are distinct and
    keys and values are free of commas, of surrounding white space and
    (the keys) of colons. *)
Theorem parse_breakdown_round_trip (d : list (string * string)) :
  NoDup (map fst d) ->
  Forall plain_field d ->
  parse_breakdown (Some (join "," (map (fun kv => fst kv ++ ":" ++ snd kv) d))) = d.
Proof.
  intros Hnd Hplain. unfold parse_breakdown.
  assert (Htruthy : forall b, (if truthy b then b else EmptyString) = b)
    by (intros []; reflexivity).
  rewrite Htruthy.
  destruct d as [|kv d].
  - reflexivity.
  - cbn [map].
    rewrite split_join.
    + change (parse_fields [] (map (fun kv0 => fst kv0 ++ ":" ++ snd kv0) (kv :: d))
              = kv :: d).
      rewrite parse_fields_plain; auto.
    + change (Forall (fun x => has_char "," x = false)
                (map (fun kv0 => fst kv0 ++ ":" ++ snd kv0) (kv :: d))).
      apply Forall_map. eapply Forall_impl; [|exact Hplain].
      intros [k v] (_ & Hk & Hv & _). cbn [fst snd] in *.
      rewrite !has_char_append, Hk, Hv. reflexivity.
Qed.

Lemma parse_breakdown_round_trip_witness :
  parse_breakdown (Some "Novelty:2,Impact:3,Results:1,Access:1")
  = [("Novelty", "2"); ("Impact", "3"); ("Results", "1"); ("Access", "1")].
Proof.
  apply (parse_breakdown_round_trip
           [("Novelty", "2"); ("Impact", "3"); ("Results", "1"); ("Access", "1")]).
  - repeat constructor; simpl; intuition discriminate.
  - repeat constructor.
Defined.

Lemma float_of_str_raises_value_error (s : string) (e : exn) :
  float_of_str s = Raise e -> exists msg, e = ValueError msg.
Proof.
  unfold float_of_str.
  destruct (drop_underscores false false _) as [u|]; [|intros H; inversion H; eauto].
  destruct (match u with
            | String c b =>
                if Ascii.eqb c "-" then (true, b)
                else if Ascii.eqb c "+" then (false, b) else (false, u)
            | EmptyString => (false, u)
            end) as [neg body].
  destruct (String.eqb (lower body) "inf" || String.eqb (lower body) "infinity");
    [discriminate|].
  destruct (String.eqb (lower body) "nan"); [discriminate|].
  destruct (read_decimal neg body); [discriminate|].
  intros H; inversion H; eauto.
Qed.

Lemma safe_int_raise (v : pyval) (e : exn) :
  _safe_int v = Raise e <->
  e = OverflowError /\ exists neg, float_of v = Ok (FInf neg).
Proof.
  unfold _safe_int. split.
  - destruct (float_of v) as [x|e'] eqn:Hf.
    + destruct x as [|neg|neg m ex]; cbn.
      * discriminate.
      * intros H; inversion H. split; [reflexivity | eauto].
      * discriminate.
    + destruct v as [s|z]; cbn in Hf; [|discriminate].
      destruct (float_of_str_raises_value_error s e' Hf) as [msg ->].
      discriminate.
  - intros [-> [neg ->]]. reflexivity.
Qed.

Lemma segment_values_raise (bd : list (string * string)) (ls : list string) (e : exn) :
  segment_values bd ls = Raise e ->
  e = OverflowError /\
  exists label neg, In label ls /\
                    float_of (get_or_zero bd label) = Ok (FInf neg).
Proof.
  induction ls as [|label ls IH]; cbn [segment_values]; [discriminate|].
  unfold segment_value.
  destruct (_safe_int (get_or_zero bd label)) as [val|e'] eqn:Hs.
  - destruct (segment_values bd ls) as [tl|e''] eqn:Hrest; [discriminate|].
    intros H; inversion H; subst e''.
    destruct (IH eq_refl) as (-> & l & neg & Hin & Hf).
    split; [reflexivity|]. exists l, neg. split; [right; exact Hin | exact Hf].
  - intros H; inversion H; subst e'.
    apply safe_int_raise in Hs as (-> & neg & Hf).
    split; [reflexivity|]. exists label, neg. split; [left; reflexivity | exact Hf].
Qed.

(** X5.  The breakdown line of a card can fail in one way only: with
    [OverflowError], when the text stored for one of the four dimensions
    reads as an infinite float ("inf", "infinity", or a number too large
    for a float).  Text that is not a number never makes it fail. *)
Theorem breakdown_line_fails_only_on_infinity
    (score : Z) (text : option string) (e : exn) :
  breakdown_line score text = Raise e ->
  e = OverflowError /\
  exists label neg,
    In label labels /\
    float_of (get_or_zero (parse_breakdown text) label) = Ok (FInf neg).
Proof.
  unfold breakdown_line. destruct (score =? 0)%Z; [discriminate|].
  destruct (segment_values (parse_breakdown text) labels) as [segs|e'] eqn:H;
    [discriminate|].
  intros E; inversion E; subst e'. exact (segment_values_raise _ _ _ H).
Qed.

Lemma breakdown_line_fails_only_on_infinity_witness :
  exists label neg,
    In label labels /\
    float_of (get_or_zero (parse_breakdown (Some "Impact:1e999")) label)
    = Ok (FInf neg).
Proof.
  apply (breakdown_line_fails_only_on_infinity 7 (Some "Impact:1e999") OverflowError).
  vm_compute; reflexivity.
Defined.

End BreakdownMore.

(* ================================================================= *)
(** ** The slider and the pages of cards *)

Section CardsFacts.
Import PyStr PyFloat App Cards Notions.
Open Scope Z_scope.

Lemma score_color_not_grey (s : Z) : _score_color s <> "#cbd5e1"%string.
Proof.
  unfold _score_color.
  repeat match goal with
         | |- (if ?b then _ else _) <> _ => destruct b
         end; discriminate.
Qed.

(** X6.  The slider is drawn for a score between 0 and 10 whatever score
    it is given: larger scores are drawn as 10, negative and missing ones
    as 0; the fill is a tenth of the width per point; and the grey colour
    and the dash in the label mark exactly the score 0. *)
Theorem slider_score_clamped (score : option Z) :
  let sl := render_quant_slider score in
  0 <= s_score sl <= 10 /\
  s_pct sl = (str_of_int (10 * s_score sl) ++ "%")%string /\
  (forall z, score = Some z -> 10 <= z -> s_score sl = 10) /\
  (forall z, score = Some z -> 0 <= z <= 10 -> s_score sl = z) /\
  (forall z, score = Some z -> z <= 0 -> s_score sl = 0) /\
  (score = None -> s_score sl = 0) /\
  (s_color sl = "#cbd5e1"%string <-> s_score sl = 0) /\
  (s_label sl = None <-> s_score sl = 0).
Proof.
  cbv zeta. unfold render_quant_slider. cbn [s_score s_pct s_color s_label].
  set (c := Z.max 0 (Z.min 10 match score with Some z => z | None => 0 end)).
  split; [subst c; lia|].
  split; [now rewrite Z.mul_comm|].
  split; [intros z -> Hz; subst c; lia|].
  split; [intros z -> Hz; subst c; lia|].
  split; [intros z -> Hz; subst c; lia|].
  split; [intros ->; reflexivity|].
  split.
  - destruct (Z.eqb_spec c 0) as [E|NE].
    + split; auto.
    + split; [intros H; exfalso; exact (score_color_not_grey c H) | contradiction].
  - destruct (Z.eqb_spec c 0) as [E|NE].
    + split; auto.
    + split; [discriminate | contradiction].
Qed.

Lemma slider_score_clamped_witness :
  s_score (render_quant_slider (Some 42)) = 10
  /\ s_score (render_quant_slider (Some (-3))) = 0.
Proof.
  split.
  - apply (slider_score_clamped (Some 42)) with (z := 42); [reflexivity | lia].
  - destruct (slider_score_clamped (Some (-3))) as (_ & _ & _ & _ & H & _).
    apply (H (-3)); [reflexivity | lia].
Defined.

Lemma total_pages_length {A} (rows : list A) :
  total_pages rows = pages_of_length (List.length rows).
Proof. destruct rows; reflexivity. Qed.

Lemma pages_checked : forallb pages_as_expected (seq 0 501) = true.
Proof. vm_compute. reflexivity. Qed.

Lemma pages_of_length_small (n : nat) :
  (n <= 500)%nat ->
  pages_of_length n = Ok (Z.max 1 ((Z.of_nat n + 14) / 15)).
Proof.
  intros Hn. pose proof pages_checked as H.
  rewrite forallb_forall in H. specialize (H n).
  assert (Hin : In n (seq 0 501)) by (apply in_seq; lia).
  specialize (H Hin). unfold pages_as_expected in H.
  destruct (pages_of_length n) as [p|e]; [|discriminate].
  apply Z.eqb_eq in H. now rewrite H.
Qed.

Lemma page_rows_chunk {A} (rows : list A) (i : nat) :
  page_rows rows (Z.of_nat i) = firstn 15 (skipn (15 * i) rows).
Proof.
  unfold page_rows, CARDS_PER_PAGE. cbv zeta.
  replace (Z.to_nat (Z.of_nat i * 15 + 15 - Z.of_nat i * 15)) with 15%nat by lia.
  replace (Z.to_nat (Z.of_nat i * 15)) with (15 * i)%nat by lia.
  reflexivity.
Qed.

(** X7.  With at most 500 rows (the sidebar's largest limit) the page
    shown is always a page that exists, whatever page number the session
    holds: it lies between 0 and the last page, it is the stored page when
    that is in range, it holds at most 15 rows and, when there are rows at
    all, at least one.  From a page in range, an enabled Prev or Next
    button leads to a page in range. *)
Theorem shown_page_in_range {A} (rows : list A) (page : Z) :
  (List.length rows <= 500)%nat ->
  exists pages p shown,
    total_pages rows = Ok pages /\
    shown_page rows page = Ok (p, shown) /\
    1 <= pages /\ 0 <= p <= pages - 1 /\
    (0 <= page <= pages - 1 -> p = page) /\
    (List.length shown <= 15)%nat /\
    (rows <> [] -> (1 <= List.length shown)%nat) /\
    (prev_disabled p = false -> clamp_page (p - 1) pages = p - 1) /\
    (next_disabled p pages = false -> clamp_page (p + 1) pages = p + 1).
Proof.
  intros Hn.
  set (n := List.length rows) in *.
  set (pages := Z.max 1 ((Z.of_nat n + 14) / 15)).
  assert (Htp : total_pages rows = Ok pages).
  { rewrite total_pages_length. now apply pages_of_length_small. }
  assert (Hdiv : 15 * ((Z.of_nat n + 14) / 15) <= Z.of_nat n + 14).
  { apply Z.mul_div_le. lia. }
  assert (Hdiv2 : Z.of_nat n + 14 < 15 * ((Z.of_nat n + 14) / 15) + 15).
  { pose proof (Z.mod_pos_bound (Z.of_nat n + 14) 15 ltac:(lia)).
    pose proof (Z.div_mod (Z.of_nat n + 14) 15 ltac:(lia)). lia. }
  exists pages, (clamp_page page pages), (page_rows rows (clamp_page page pages)).
  split; [exact Htp|].
  split; [unfold shown_page; now rewrite Htp|].
  assert (Hp1 : 1 <= pages) by (subst pages; lia).
  assert (Hc : 0 <= clamp_page page pages <= pages - 1)
    by (unfold clamp_page; lia).
  split; [exact Hp1|]. split; [exact Hc|].
  split; [intros Hr; unfold clamp_page; lia|].
  set (p := clamp_page page pages) in *.
  assert (Hpi : p = Z.of_nat (Z.to_nat p)) by lia.
  rewrite Hpi at 1 2. rewrite page_rows_chunk.
  split; [rewrite length_firstn; lia|].
  split.
  - intros Hne. assert (0 < n)%nat.
    { subst n. destruct rows; [contradiction | simpl; lia]. }
    rewrite length_firstn, length_skipn. fold n.
    assert (15 * Z.of_nat (Z.to_nat p) < Z.of_nat n).
    { rewrite <- Hpi. subst pages. lia. }
    lia.
  - split.
    + unfold prev_disabled. intros H. apply Z.leb_gt in H.
      unfold clamp_page. lia.
    + unfold next_disabled. intros H. apply Z.leb_gt in H.
      unfold clamp_page. lia.
Qed.

Lemma shown_page_in_range_witness :
  exists pages p shown,
    total_pages (repeat tt 31) = Ok pages /\
    shown_page (repeat tt 31) 99 = Ok (p, shown) /\
    1 <= pages /\ 0 <= p <= pages - 1 /\
    (0 <= 99 <= pages - 1 -> p = 99) /\
    (List.length shown <= 15)%nat /\
    (repeat tt 31 <> [] -> (1 <= List.length shown)%nat) /\
    (prev_disabled p = false -> clamp_page (p - 1) pages = p - 1) /\
    (next_disabled p pages = false -> clamp_page (p + 1) pages = p + 1).
Proof.
  apply (shown_page_in_range (repeat tt 31) 99).
  rewrite repeat_length. lia.
Defined.

Lemma chunks_concat {A} (k : nat) :
  forall (a : nat) (rows : list A),
    (List.length rows <= 15 * (a + k))%nat ->
    concat (map (fun i => firstn 15 (skipn (15 * i) rows)) (seq a k))
    = skipn (15 * a) rows.
Proof.
  induction k as [|k IH]; intros a rows Hlen.
  - simpl. symmetry. apply skipn_all2. lia.
  - cbn [seq map concat]. rewrite IH by lia.
    replace (15 * S a)%nat with (15 + 15 * a)%nat by lia.
    rewrite <- skipn_skipn. apply firstn_skipn.
Qed.

(** X8.  With at most 500 rows the pages cut the list of rows into
    consecutive pieces: laid end to end, the pages 0 to the last give the
    list back, each row on one page and none left out. *)
Theorem pages_cover_rows {A} (rows : list A) :
  (List.length rows <= 500)%nat ->
  exists pages,
    total_pages rows = Ok pages /\
    concat (map (fun i => page_rows rows (Z.of_nat i)) (seq 0 (Z.to_nat pages)))
    = rows.
Proof.
  intros Hn.
  set (n := List.length rows) in *.
  exists (Z.max 1 ((Z.of_nat n + 14) / 15)).
  split; [rewrite total_pages_length; now apply pages_of_length_small|].
  assert (Hdiv2 : Z.of_nat n + 14 < 15 * ((Z.of_nat n + 14) / 15) + 15).
  { pose proof (Z.mod_pos_bound (Z.of_nat n + 14) 15 ltac:(lia)).
    pose proof (Z.div_mod (Z.of_nat n + 14) 15 ltac:(lia)). lia. }
  rewrite (map_ext _ (fun i => firstn 15 (skipn (15 * i) rows)))
    by (intros i; apply page_rows_chunk).
  rewrite chunks_concat; [reflexivity|].
  fold n. lia.
Qed.

Lemma pages_cover_rows_witness :
  exists pages,
    total_pages (seq 0 40) = Ok pages /\
    concat (map (fun i => page_rows (seq 0 40) (Z.of_nat i))
                (seq 0 (Z.to_nat pages)))
    = seq 0 40.
Proof.
  apply (pages_cover_rows (seq 0 40)). rewrite length_seq. lia.
Defined.

End CardsFacts.

(* ================================================================= *)
(** ** More on the provider adapter *)

Section ProviderMore.
Import PyStr Provider Notions.
Open Scope Z_scope.

Lemma total_sleep_prefix (n : nat) :
  0 <= total_sleep (firstn n BACKOFF_SCHEDULE) <= 220.
Proof.
  do 8 (destruct n as [|n]; [vm_compute; split; discriminate|]).
  vm_compute; split; discriminate.
Qed.

Lemma call_llm_trace_facts (env : provider_env) (be : backend) (prompt : string) :
  let tr := call_llm_traced env be prompt in
  (1 <= attempts tr <= 8)%nat /\
  sleeps tr = firstn (attempts tr - 1) BACKOFF_SCHEDULE /\
  0 <= total_sleep (sleeps tr) <= 220 /\
  (forall r, call_llm_body env be 1 prompt = Ok r ->
             attempts tr = 1%nat /\ sleeps tr = [] /\ outcome tr = Ok r) /\
  (forall r, outcome tr = Ok r ->
             call_llm_body env be (attempts tr) prompt = Ok r).
Proof.
  intros tr.
  pose proof (retrying_spec (retry_predicate env)
                (fun k => call_llm_body env be k prompt)
                (STOP_AFTER - 1) 1 []) as H.
  cbv zeta in H. fold (call_llm_traced env be prompt) in H. fold tr in H.
  change (STOP_AFTER - 1)%nat with 7%nat in H.
  destruct H as (Hrange & Hsl & Hprev & Hlast). cbn [app] in Hsl.
  assert (Hsched : sleeps tr = firstn (attempts tr - 1) BACKOFF_SCHEDULE).
  { rewrite Hsl. apply schedule_prefix. lia. }
  split; [lia|]. split; [exact Hsched|].
  split; [rewrite Hsched; apply total_sleep_prefix|].
  split.
  - intros r Hr.
    assert (Hone : attempts tr = 1%nat).
    { destruct (Nat.eq_dec (attempts tr) 1) as [E|NE]; [exact E|].
      destruct (Hprev 1%nat) as (e & Hb & _); [lia|]. congruence. }
    split; [exact Hone|]. split; [rewrite Hsched, Hone; reflexivity|].
    rewrite Hone, Hr in Hlast. exact Hlast.
  - intros r Hr.
    destruct (call_llm_body env be (attempts tr) prompt) as [a|e].
    + congruence.
    + destruct (retry_predicate env e).
      * destruct Hlast as [_ Ho]. congruence.
      * congruence.
Qed.


(** X9.  In every configuration one call of [call_llm] runs its body at
    least once and at most 8 times and sleeps, in all, at most 220
    seconds, the sleeps being the first ones of 5, 5, 8, 16, 32, 64, 90.
    A first attempt that returns is the result, with no sleep; and a
    result, when there is one, is what the last attempt returned. *)
Theorem call_llm_bounded (env : provider_env) (be : backend) (prompt : string) :
  let tr := call_llm_traced env be prompt in
  (1 <= attempts tr <= 8)%nat /\
  sleeps tr = firstn (attempts tr - 1) BACKOFF_SCHEDULE /\
  0 <= total_sleep (sleeps tr) <= 220 /\
  (forall r, call_llm_body env be 1 prompt = Ok r ->
             attempts tr = 1%nat /\ sleeps tr = [] /\ outcome tr = Ok r) /\
  (forall r, outcome tr = Ok r ->
             call_llm_body env be (attempts tr) prompt = Ok r).
Proof. exact (call_llm_trace_facts env be prompt). Qed.

Lemma call_llm_bounded_witness :
  let tr := call_llm_traced Samples.env_openai Samples.backend_flaky "Summarise." in
  call_llm_body Samples.env_openai Samples.backend_flaky (attempts tr) "Summarise."
  = outcome tr.
Proof.
  cbv zeta.
  destruct (call_llm_bounded Samples.env_openai Samples.backend_flaky "Summarise.")
    as (_ & _ & _ & _ & H).
  destruct (outcome (call_llm_traced Samples.env_openai Samples.backend_flaky
                       "Summarise.")) as [r|e] eqn:E.
  - apply H. reflexivity.
  - vm_compute in E. discriminate E.
Defined.

(** A body that fails the same way at every attempt. *)
Lemma retrying_always_failing {A} (should_retry : exn -> bool)
    (body : nat -> result A) (e : exn) :
  (forall k, body k = Raise e) ->
  forall left attempt slept,
    retrying should_retry body left attempt slept
    = if should_retry e
      then {| outcome := Raise (RetryError e);
              attempts := attempt + left;
              sleeps := (slept ++ map wait_exponential (seq attempt left))%list |}
      else {| outcome := Raise e; attempts := attempt; sleeps := slept |}.
Proof.
  intros Hb left. induction left as [|left IH]; intros attempt slept;
    cbn [retrying]; rewrite Hb; destruct (should_retry e) eqn:Hr; cbn [negb].
  - now rewrite Nat.add_0_r, app_nil_r.
  - reflexivity.
  - rewrite IH. cbn [seq map]. rewrite <- app_assoc. cbn [app].
    f_equal. lia.
  - reflexivity.
Qed.

Lemma call_llm_body_unknown (env : provider_env) (be : backend)
    (k : nat) (prompt : string) :
  unknown_provider env ->
  call_llm_body env be k prompt
  = Raise (RuntimeError ("Unknown SUMMARY_PROVIDER: " ++ PROVIDER env)).
Proof.
  intros (H1 & H2 & H3). unfold call_llm_body.
  destruct (String.eqb_spec (PROVIDER env) "openai"); [contradiction|].
  destruct (String.eqb_spec (PROVIDER env) "anthropic"); [contradiction|].
  destruct (String.eqb_spec (PROVIDER env) "ollama"); [contradiction|].
  reflexivity.
Qed.

(** X10.  A provider mode other than openai, anthropic and ollama makes
    [call_llm] fail with a [RuntimeError] that names the mode, whatever
    the backends would answer.  With the openai SDK importable the error
    is raised by the first attempt, without a sleep; without the SDK it is
    retried like any other exception: 8 attempts and 220 seconds of
    sleep, and the error comes wrapped in [RetryError]. *)
Theorem unknown_provider_fails
    (env : provider_env) (be : backend) (prompt : string) :
  unknown_provider env ->
  let tr := call_llm_traced env be prompt in
  let err := RuntimeError ("Unknown SUMMARY_PROVIDER: " ++ PROVIDER env) in
  (openai_sdk env = true ->
   outcome tr = Raise err /\ attempts tr = 1%nat /\ sleeps tr = []) /\
  (openai_sdk env = false ->
   outcome tr = Raise (RetryError err) /\ attempts tr = 8%nat /\
   total_sleep (sleeps tr) = 220).
Proof.
  intros Hun tr err. subst tr. unfold call_llm_traced.
  rewrite (retrying_always_failing (retry_predicate env) _ err)
    by (intros k; now apply call_llm_body_unknown).
  unfold retry_predicate. split; intros Hsdk; rewrite Hsdk.
  - cbn. repeat split.
  - cbn [outcome attempts sleeps]. repeat split.
Qed.

Lemma unknown_provider_fails_witness :
  outcome (call_llm_traced (Samples.env_for "mistral" None true)
             Samples.backend_flaky "Summarise.")
  = Raise (RuntimeError "Unknown SUMMARY_PROVIDER: mistral").
Proof.
  refine (proj1 (proj1 (unknown_provider_fails
                          (Samples.env_for "mistral" None true)
                          Samples.backend_flaky "Summarise." _) eq_refl)).
  repeat split; vm_compute; discriminate.
Defined.

Lemma call_llm_body_no_sdk (env : provider_env) (be : backend)
    (k : nat) (prompt : string) :
  PROVIDER env = "openai"%string -> openai_sdk env = false ->
  call_llm_body env be k prompt
  = Raise (RuntimeError "openai SDK not available - install openai package").
Proof.
  intros Hp Hsdk. unfold call_llm_body. rewrite Hp, Hsdk. reflexivity.
Qed.

(** X11.  With the openai provider selected and the openai SDK missing,
    [call_llm] never reaches a backend, and yet it does not fail at once:
    the complaint about the missing SDK is retried, so the call makes 8
    attempts, sleeps 220 seconds and ends in a [RetryError] around the
    [RuntimeError], whatever the prompt. *)
Theorem missing_sdk_is_retried
    (env : provider_env) (be : backend) (prompt : string) :
  PROVIDER env = "openai"%string -> openai_sdk env = false ->
  let tr := call_llm_traced env be prompt in
  outcome tr
  = Raise (RetryError
             (RuntimeError "openai SDK not available - install openai package")) /\
  attempts tr = 8%nat /\ sleeps tr = BACKOFF_SCHEDULE /\
  total_sleep (sleeps tr) = 220.
Proof.
  intros Hp Hsdk tr. subst tr. unfold call_llm_traced.
  rewrite (retrying_always_failing (retry_predicate env) _
             (RuntimeError "openai SDK not available - install openai package"))
    by (intros k; now apply call_llm_body_no_sdk).
  unfold retry_predicate. rewrite Hsdk.
  cbn [outcome attempts sleeps]. repeat split.
Qed.

Lemma missing_sdk_is_retried_witness :
  attempts (call_llm_traced Samples.env_no_sdk Samples.backend_flaky "Summarise.")
  = 8%nat.
Proof.
  exact (proj1 (proj2 (missing_sdk_is_retried Samples.env_no_sdk
                         Samples.backend_flaky "Summarise." eq_refl eq_refl))).
Defined.



End ProviderMore.

(* ================================================================= *)
(** ** More on relevance triage *)

Section TriageMore.
Import PyStr Provider Triage Notions.

Lemma upper_char_colon (c : ascii) :
  existsb (Nat.eqb 58) (upper_char c) = Ascii.eqb c ":".
Proof. destruct c as [[] [] [] [] [] [] [] []]; vm_compute; reflexivity. Qed.

Lemma upper_has_colon (s : string) :
  In 58 (upper s) -> has_char ":" s = true.
Proof.
  induction s as [|c s IH]; simpl; [intros []|].
  intros H. apply in_app_or in H as [H|H].
  - assert (E : existsb (Nat.eqb 58) (upper_char c) = true).
    { apply existsb_exists. exists 58. split; [exact H | reflexivity]. }
    rewrite upper_char_colon in E. now rewrite E.
  - rewrite (IH H). apply orb_true_r.
Qed.

Lemma starts_with_codes_incl (hay needle : list nat) :
  starts_with_codes hay needle = true -> incl needle hay.
Proof.
  revert hay; induction needle as [|a needle IH]; intros hay H x Hx.
  - destruct Hx.
  - destruct hay as [|b hay]; [discriminate|].
    simpl in H. apply andb_true_iff in H as [Hab Hrest].
    apply Nat.eqb_eq in Hab. subst b.
    destruct Hx as [<-|Hx]; [left; reflexivity | right; exact (IH hay Hrest x Hx)].
Qed.

Lemma contains_codes_incl (hay needle : list nat) :
  contains_codes hay needle = true -> incl needle hay.
Proof.
  induction hay as [|b hay IH]; cbn [contains_codes].
  - rewrite orb_false_r. apply starts_with_codes_incl.
  - intros H. apply orb_true_iff in H as [H|H].
    + now apply starts_with_codes_incl.
    + intros x Hx. right. exact (IH H x Hx).
Qed.

Lemma split_once_from_some (sep : ascii) (s cur : string) :
  has_char sep s = true -> exists a b, split_once_from sep cur s = Some (a, b).
Proof.
  revert cur; induction s as [|c s IH]; intros cur H; simpl in *; [discriminate|].
  destruct (Ascii.eqb c sep); [eauto|]. apply IH. exact H.
Qed.

(** Reading the reason out of a reply never raises. *)
Lemma parse_reason_returns (txt default : string) :
  exists why, parse_reason txt default = Ok why.
Proof.
  unfold parse_reason.
  destruct (reason_lines txt) as [|line rest] eqn:E; [eauto|].
  assert (Hin : In line (reason_lines txt)) by (rewrite E; left; reflexivity).
  unfold reason_lines in Hin. apply filter_In in Hin as [_ Hup].
  unfold upper_contains in Hup. apply contains_codes_incl in Hup.
  assert (Hcolon : has_char ":" line = true).
  { apply upper_has_colon. apply Hup. vm_compute. tauto. }
  destruct (split_once_from_some ":" line EmptyString Hcolon) as (a & b & Hs).
  unfold split_once. rewrite Hs. eauto.
Qed.

(** X13.  Reading a classifier's reply never fails.  An exception of the
    Gemini path is the import error, the missing key or what the request
    raised; an exception of the fallback is the import error, what building
    the client or the request raised, or the [AttributeError] of a reply
    without content. *)
Theorem triage_exceptions_come_from_outside
    (env : provider_env) (be : backend) (title abstract : string) (e : exn) :
  (triage_with_gemini env be title abstract = Raise e ->
     (genai_sdk env = false /\ e = ImportError "google.generativeai") \/
     ((GOOGLE_API_KEY env = None \/ GOOGLE_API_KEY env = Some EmptyString) /\
      e = ValueError "GOOGLE_API_KEY not set") \/
     gemini_generate be (GEMINI_MODEL env) title abstract = Raise e) /\
  (triage_with_openai env be title abstract = Raise e ->
     (openai_sdk env = false /\ e = ImportError "openai") \/
     openai_client be = Raise e \/
     openai_triage be title abstract = Raise e \/
     (exists resp, openai_triage be title abstract = Ok resp /\
                   content resp = None /\ e = AttributeError)).
Proof.
  split.
  - unfold triage_with_gemini.
    destruct (genai_sdk env); cbn [negb].
    2:{ intros H; inversion H. left; split; reflexivity. }
    destruct (GOOGLE_API_KEY env) as [key|].
    2:{ intros H; inversion H. right; left. split; [left|]; reflexivity. }
    destruct key as [|c key]; cbn [is_empty].
    { intros H; inversion H. right; left. split; [right|]; reflexivity. }
    destruct (gemini_generate be (GEMINI_MODEL env) title abstract) as [raw|e'].
    + destruct (parse_reason_returns (strip raw) "No reason provided") as [why ->].
      discriminate.
    + intros H; inversion H. right; right. reflexivity.
  - unfold triage_with_openai.
    destruct (openai_sdk env); cbn [negb].
    2:{ intros H; inversion H. left; split; reflexivity. }
    destruct (openai_client be) as [u|e'].
    2:{ intros H; inversion H. right; left. reflexivity. }
    destruct (openai_triage be title abstract) as [resp|e'].
    2:{ intros H; inversion H. right; right; left. reflexivity. }
    destruct (content resp) as [txt|] eqn:Hc.
    + destruct (parse_reason_returns txt txt) as [why ->]. discriminate.
    + intros H; inversion H. right; right; right.
      exists resp. repeat split. exact Hc.
Qed.

Lemma triage_exceptions_come_from_outside_witness :
  (Provider.genai_sdk Samples.env_openai = false /\
   ValueError "GOOGLE_API_KEY not set" = ImportError "google.generativeai") \/
  ((Provider.GOOGLE_API_KEY Samples.env_openai = None \/
    Provider.GOOGLE_API_KEY Samples.env_openai = Some EmptyString) /\
   ValueError "GOOGLE_API_KEY not set" = ValueError "GOOGLE_API_KEY not set") \/
  Provider.gemini_generate Samples.backend_flaky
    (Provider.GEMINI_MODEL Samples.env_openai) "T" "A"
  = Raise (ValueError "GOOGLE_API_KEY not set").
Proof.
  apply (proj1 (triage_exceptions_come_from_outside Samples.env_openai
                  Samples.backend_flaky "T" "A"
                  (ValueError "GOOGLE_API_KEY not set"))).
  reflexivity.
Defined.

(** X14.  One triage enters the fallback classifier at most once, and not
    at all when the Gemini path returns; a verdict of the Gemini path
    carries the configured Gemini model and 0 tokens, a verdict of the
    fallback carries the fallback's model name. *)
Theorem triage_paper_paths
    (env : provider_env) (be : backend) (title abstract : string) :
  count_fallback (snd (triage_paper_traced env be title abstract)) <= 1 /\
  (forall r, triage_with_gemini env be title abstract = Ok r ->
     triage_paper env be title abstract = Ok r /\
     count_fallback (snd (triage_paper_traced env be title abstract)) = 0 /\
     triage_model r = GEMINI_MODEL env /\ triage_tokens r = 0%Z) /\
  (forall r, triage_paper env be title abstract = Ok r ->
     triage_model r = GEMINI_MODEL env \/
     triage_model r = "gpt-4o-mini (fallback)").
Proof.
  assert (Hg : forall r, triage_with_gemini env be title abstract = Ok r ->
                triage_model r = GEMINI_MODEL env /\ triage_tokens r = 0%Z).
  { intros r. unfold triage_with_gemini.
    destruct (negb (genai_sdk env)); [discriminate|].
    destruct (GOOGLE_API_KEY env) as [key|]; [|discriminate].
    destruct (is_empty key); [discriminate|].
    destruct (gemini_generate be (GEMINI_MODEL env) title abstract); [|discriminate].
    destruct (parse_reason _ _); [|discriminate].
    intros H; inversion H. split; reflexivity. }
  assert (Ho : forall r, triage_with_openai env be title abstract = Ok r ->
                triage_model r = "gpt-4o-mini (fallback)").
  { intros r. unfold triage_with_openai.
    destruct (negb (openai_sdk env)); [discriminate|].
    destruct (openai_client be); [|discriminate].
    destruct (openai_triage be title abstract) as [resp|]; [|discriminate].
    destruct (content resp); [|discriminate].
    destruct (parse_reason _ _); [|discriminate].
    intros H; inversion H. reflexivity. }
  unfold triage_paper, triage_paper_traced.
  destruct (triage_with_gemini env be title abstract) as [r0|e] eqn:E.
  - split; [cbn; lia|]. split.
    + intros r H; inversion H; subst r0. destruct (Hg r eq_refl) as [H1 H2].
      repeat split; auto.
    + intros r H; cbn in H; inversion H; subst r0. left. apply (Hg r eq_refl).
  - split; [destruct e; cbn; lia|]. split; [discriminate|].
    intros r H. right. apply Ho. destruct e; exact H.
Qed.

Lemma triage_paper_paths_witness :
  triage_model
    {| relevant := true; reason := "It studies multi-step reasoning.";
       triage_model := "gpt-4o-mini (fallback)"; triage_tokens := 42%Z |}
  = Provider.GEMINI_MODEL Samples.env_openai \/
  triage_model
    {| relevant := true; reason := "It studies multi-step reasoning.";
       triage_model := "gpt-4o-mini (fallback)"; triage_tokens := 42%Z |}
  = "gpt-4o-mini (fallback)".
Proof.
  apply (proj2 (proj2 (triage_paper_paths Samples.env_openai Samples.backend_flaky
                         "Chain-of-Thought" "..."))).
  vm_compute; reflexivity.
Defined.

Lemma upper_append (a b : string) : upper (a ++ b) = (upper a ++ upper b)%list.
Proof.
  induction a as [|c a IH]; simpl; [reflexivity|].
  now rewrite IH, app_assoc.
Qed.

Lemma starts_with_codes_app (needle rest : list nat) :
  starts_with_codes (needle ++ rest) needle = true.
Proof.
  induction needle as [|a needle IH]; simpl.
  - destruct rest; reflexivity.
  - now rewrite Nat.eqb_refl, IH.
Qed.

Lemma contains_codes_unfold (hay needle : list nat) :
  contains_codes hay needle
  = starts_with_codes hay needle
    || match hay with
       | [] => false
       | _ :: hay' => contains_codes hay' needle
       end.
Proof. destruct hay; reflexivity. Qed.

Lemma contains_codes_middle (pre needle post : list nat) :
  contains_codes (pre ++ needle ++ post)%list needle = true.
Proof.
  induction pre as [|a pre IH].
  - cbn [app]. rewrite contains_codes_unfold, starts_with_codes_app. reflexivity.
  - cbn [app contains_codes]. rewrite IH. apply orb_true_r.
Qed.

(** X15.  The fallback classifier is permissive: a reply that holds
    "RELEVANT: YES" in any letter case, anywhere in its text (also inside
    the reason of a reply whose verdict line says NO), gives a verdict of
    relevant. *)
Theorem relevant_yes_anywhere
    (env : provider_env) (be : backend) (title abstract : string)
    (resp : chat_completion) (pre mid post : string) :
  openai_sdk env = true ->
  openai_client be = Ok tt ->
  openai_triage be title abstract = Ok resp ->
  content resp = Some (pre ++ mid ++ post) ->
  upper mid = codes "RELEVANT: YES" ->
  exists r, triage_with_openai env be title abstract = Ok r /\
            relevant r = true.
Proof.
  intros Hsdk Hcl Hreq Hcontent Hmid.
  unfold triage_with_openai. rewrite Hsdk, Hcl, Hreq, Hcontent. cbn [negb].
  destruct (parse_reason_returns (pre ++ mid ++ post) (pre ++ mid ++ post))
    as [why ->].
  eexists. split; [reflexivity|]. cbn [relevant].
  unfold upper_contains. rewrite !upper_append, Hmid.
  apply contains_codes_middle.
Qed.

Lemma relevant_yes_anywhere_witness :
  exists r,
    triage_with_openai Samples.env_openai
      {| openai_client := Ok tt;
         openai_create := fun _ _ _ _ => Raise RateLimitError;
         anthropic_client := Ok tt;
         anthropic_create := fun _ _ _ => Raise RateLimitError;
         ollama_post := fun _ _ _ => Raise RequestsConnectionError;
         gemini_generate := fun _ _ _ => Raise (GoogleAPIError "quota");
         openai_triage := fun _ _ =>
           Ok {| content := Some ("RELEVANT: NO" ++ Samples.LF ++
                                  "REASON: not " ++ "relevant: yes" ++ " at all");
                 usage := None |} |}
      "T" "A" = Ok r
    /\ relevant r = true.
Proof.
  eapply (relevant_yes_anywhere Samples.env_openai _ "T" "A" _
            ("RELEVANT: NO" ++ Samples.LF ++ "REASON: not ")
            "relevant: yes" " at all");
    reflexivity.
Defined.

(** X16.  A reply in the format asked for is read back: from a first line
    without line feed that does not mention "REASON:", followed by a line
    "reason:" (in any letter case admitted by the test) and the reason,
    the reason returned is the text after the colon, stripped. *)
Theorem parse_reason_round_trip
    (verdict letters why default : string) :
  has_char line_feed verdict = false ->
  has_char line_feed letters = false ->
  has_char line_feed why = false ->
  has_char ":" letters = false ->
  upper_contains verdict "REASON:" = false ->
  upper_contains (letters ++ ":" ++ why) "REASON:" = true ->
  parse_reason
    (verdict ++ String line_feed (letters ++ ":" ++ why)) default
  = Ok (strip why).
Proof.
  intros Hv Hl Hw Hc Hno Hyes.
  change (letters ++ ":" ++ why) with (letters ++ String ":" why) in *.
  unfold parse_reason, reason_lines, split.
  rewrite split_from_at_sep by exact Hv.
  rewrite split_from_no_sep.
  2:{ rewrite has_char_append, Hl. cbn [has_char]. now rewrite Hw. }
  cbn [append filter]. rewrite Hno, Hyes.
  unfold split_once.
  rewrite split_once_from_at_sep by exact Hc. reflexivity.
Qed.

Lemma parse_reason_round_trip_witness :
  parse_reason ("RELEVANT: YES" ++ String line_feed ("Reason" ++ ":" ++ " It plans. "))
               "No reason provided"
  = Ok "It plans.".
Proof.
  apply (parse_reason_round_trip "RELEVANT: YES" "Reason" " It plans. "
           "No reason provided"); reflexivity.
Defined.

End TriageMore.

(* ================================================================= *)
(** ** More on ingestion *)

Section CollectMore.
Import PyStr Store Collect Notions.

(** X17.  The duplicate test is a substring test: a candidate counts as
    already stored as soon as its identifier occurs anywhere inside the
    link of some stored row (so also inside a longer identifier); it is
    then skipped, the store left as it is. *)
Theorem substring_counts_as_duplicate
    (today now : string) (t : table) (p : paper) (c : candidate)
    (pre post : string) (rest : list candidate) (k : counters) :
  In p t ->
  arxiv_link p = pre ++ c_arxiv_id c ++ post ->
  paper_exists t (c_arxiv_id c) = true /\
  ingest today now (c :: rest) t k
  = ingest today now rest t
      {| new_count := new_count k; skipped_count := S (skipped_count k) |}.
Proof.
  intros Hin Hlink.
  assert (Hex : paper_exists t (c_arxiv_id c) = true).
  { apply paper_exists_iff. exists p. split; [exact Hin|].
    rewrite Hlink. apply like_embedded. }
  split; [exact Hex|]. cbn [ingest]. now rewrite Hex.
Qed.

Lemma substring_counts_as_duplicate_witness :
  ingest "2024-03-01" "2024-03-01T08:00:00"
    [ {| c_arxiv_id := "2401.0001"; c_title := "Another paper";
         c_authors := "B. Author"; c_abstract := "";
         c_url := "https://arxiv.org/abs/2401.0001";
         c_published := "2024-01-02" |} ]
    [ Samples.mk_paper 1 (Some "2401.00012") "First"
        "https://arxiv.org/abs/2401.00012" None None ]
    zero_counters
  = ([ Samples.mk_paper 1 (Some "2401.00012") "First"
         "https://arxiv.org/abs/2401.00012" None None ],
     {| new_count := 0; skipped_count := 1 |}).
Proof.
  refine (proj2 (substring_counts_as_duplicate _ _ _
                   (Samples.mk_paper 1 (Some "2401.00012") "First"
                      "https://arxiv.org/abs/2401.00012" None None)
                   _ "https://arxiv.org/abs/" "2" [] zero_counters _ _)).
  - left; reflexivity.
  - reflexivity.
Defined.

Lemma insert_paper_row (today now : string) (t t' : table) (c : candidate) :
  insert_paper today now t c = Ok t' ->
  exists p, t' = (t ++ [p])%list /\ ingested_from now c p.
Proof.
  unfold insert_paper. destruct (violates_unique t (c_arxiv_id c)); [discriminate|].
  intros H; inversion H. eexists; split; [reflexivity|].
  unfold ingested_from; cbn. repeat split.
Qed.

Lemma ingest_appends_gen (today now : string) (papers : list candidate) :
  forall t k,
  exists added,
    fst (ingest today now papers t k) = (t ++ added)%list /\
    new_count (snd (ingest today now papers t k))
    = new_count k + List.length added /\
    Forall (fun p => exists c, In c papers /\ ingested_from now c p) added.
Proof.
  induction papers as [|c rest IH]; intros t k.
  - exists []. cbn. rewrite app_nil_r. repeat split; [lia | constructor].
  - destruct (ingest_step today now c rest t k)
      as [[Hex ->] | [(Hex & p & Hins & _ & ->) | (Hex & _ & _ & ->)]].
    + destruct (IH t {| new_count := new_count k;
                        skipped_count := S (skipped_count k) |})
        as (added & E1 & E2 & Hall).
      exists added. split; [exact E1|]. split; [exact E2|].
      eapply Forall_impl; [|exact Hall].
      intros q (c' & Hin & Hq). exists c'. split; [right; exact Hin | exact Hq].
    + destruct (insert_paper_row _ _ _ _ _ Hins) as (p' & Hp' & Hrow).
      apply app_inv_head in Hp'. inversion Hp'; subst p'.
      destruct (IH (t ++ [p])%list
                   {| new_count := S (new_count k);
                      skipped_count := skipped_count k |})
        as (added & E1 & E2 & Hall).
      exists (p :: added). split; [rewrite E1, <- app_assoc; reflexivity|].
      split; [rewrite E2; cbn; lia|].
      constructor.
      * exists c. split; [left; reflexivity | exact Hrow].
      * eapply Forall_impl; [|exact Hall].
        intros q (c' & Hin & Hq). exists c'. split; [right; exact Hin | exact Hq].
    + destruct (IH t k) as (added & E1 & E2 & Hall).
      exists added. split; [exact E1|]. split; [exact E2|].
      eapply Forall_impl; [|exact Hall].
      intros q (c' & Hin & Hq). exists c'. split; [right; exact Hin | exact Hq].
Qed.

(** X18.  Ingestion only appends: the rows that were stored stay as they
    are and in place, the rows added come after them, one per counted
    addition, each written from a candidate of the batch with its summary,
    digest, model and score columns empty, so that the unforced selection
    of the summary run picks it up. *)
Theorem ingest_only_appends
    (today now : string) (papers : list candidate) (t : table) (k : counters) :
  exists added,
    fst (ingest today now papers t k) = (t ++ added)%list /\
    new_count (snd (ingest today now papers t k))
    = new_count k + List.length added /\
    Forall (fun p => (exists c, In c papers /\ ingested_from now c p) /\
                     Summarize.needs_summary p = true) added.
Proof.
  destruct (ingest_appends_gen today now papers t k) as (added & E1 & E2 & Hall).
  exists added. split; [exact E1|]. split; [exact E2|].
  eapply Forall_impl; [|exact Hall].
  intros p (c & Hin & Hrow). split; [exists c; auto|].
  destruct Hrow as (_ & _ & _ & _ & _ & _ & _ & _ & Hs & _).
  unfold Summarize.needs_summary. now rewrite Hs.
Qed.

(** X19.  A feed that could not be fetched gives no candidate, and then
    nothing is stored or reported.  Of a fetched feed the candidates are
    the items that carry a non-empty id, in the feed's order; each has
    that id and the link "https://arxiv.org/abs/" followed by it. *)
Theorem feed_candidates (today now : string) :
  (forall e t, get_huggingface_papers (Raise e) = [] /\
               main today now (Raise e) t = (t, None)) /\
  (forall items,
     let cs := get_huggingface_papers (Ok items) in
     List.length cs <= List.length items /\
     Forall (fun c => c_arxiv_id c <> EmptyString /\ well_formed c) cs /\
     map c_arxiv_id cs
     = filter truthy
         (map (fun item => match item with
                           | Some paper => coalesce (hf_id paper)
                           | None => EmptyString
                           end) items)).
Proof.
  split; [intros e t; split; reflexivity|].
  intros items. cbv zeta. cbn [get_huggingface_papers].
  induction items as [|item items (IH1 & IH2 & IH3)].
  - repeat split; constructor.
  - cbn [collect_candidates map filter].
    unfold candidate_of_item.
    destruct item as [paper|].
    + unfold truthy. destruct (is_empty (coalesce (hf_id paper))) eqn:He; cbn [negb].
      * split; [cbn; lia|]. split; [exact IH2|exact IH3].
      * split; [cbn; lia|]. split.
        -- constructor; [|exact IH2]. cbn [c_arxiv_id]. split; [|reflexivity].
           intros E. rewrite E in He. discriminate He.
        -- cbn [map c_arxiv_id]. now rewrite IH3.
    + cbn [truthy is_empty negb]. split; [cbn; lia|]. split; [exact IH2|exact IH3].
Qed.

Lemma length_nodup_cons (a : string) (l : list string) :
  List.length (nodup string_dec l) <= List.length (nodup string_dec (a :: l)).
Proof. cbn [nodup]. destruct (in_dec string_dec a l); cbn; lia. Qed.

Lemma ingest_adds_at_most (today now : string) (papers : list candidate) :
  Forall well_formed papers ->
  forall t k,
    new_count (snd (ingest today now papers t k))
    <= new_count k + List.length (ids_to_add t papers).
Proof.
  induction 1 as [|c rest Hwf _ IH]; intros t k.
  - cbn. lia.
  - destruct (ingest_step today now c rest t k)
      as [[Hex ->] | [(Hex & p & Hins & Hl & ->) | (Hex & _ & _ & ->)]].
    + specialize (IH t {| new_count := new_count k;
                          skipped_count := S (skipped_count k) |}).
      unfold ids_to_add in *. cbn [map filter]. rewrite Hex. cbn [negb].
      cbn [new_count] in IH. exact IH.
    + specialize (IH (t ++ [p])%list
                     {| new_count := S (new_count k);
                        skipped_count := skipped_count k |}).
      cbn [new_count] in IH.
      assert (Hnow : paper_exists (t ++ [p])%list (c_arxiv_id c) = true)
        by (apply paper_exists_inserted; assumption).
      assert (Hlen : S (List.length (ids_to_add (t ++ [p])%list rest))
                     <= List.length (ids_to_add t (c :: rest))).
      { change (S (List.length (ids_to_add (t ++ [p])%list rest)))
          with (List.length (c_arxiv_id c :: ids_to_add (t ++ [p])%list rest)).
        apply NoDup_incl_length.
        - constructor; [|apply NoDup_nodup].
          unfold ids_to_add. intros Hin. apply nodup_In in Hin.
          apply filter_In in Hin as [_ Hf]. rewrite Hnow in Hf. discriminate.
        - intros x [<-|Hx]; unfold ids_to_add in *; apply nodup_In.
          + cbn [map filter]. rewrite Hex. left; reflexivity.
          + apply nodup_In in Hx. apply filter_In in Hx as [Hx Hf].
            apply filter_In. split; [right; exact Hx|].
            destruct (paper_exists t x) eqn:Hpx; [|reflexivity].
            rewrite (paper_exists_app t [p] x Hpx) in Hf. discriminate. }
      lia.
    + specialize (IH t k).
      pose proof (length_nodup_cons (c_arxiv_id c)
                    (filter (fun a => negb (paper_exists t a))
                            (map c_arxiv_id rest))) as Hle.
      unfold ids_to_add in *. cbn [map filter]. rewrite Hex. cbn [negb]. lia.
Qed.

(** X20.  A run adds at most one row per identifier: the added count
    never exceeds the number of distinct identifiers in the feed that the
    store did not yet hold, however often the feed repeats a paper. *)
Theorem ingest_adds_once_per_identifier
    (today now : string) (items : list (option hf_paper)) (t : table) :
  let papers := collect_candidates items in
  new_count (snd (ingest today now papers t zero_counters))
  <= List.length (ids_to_add t papers) /\
  List.length (ids_to_add t papers)
  <= List.length (nodup string_dec (map c_arxiv_id papers)).
Proof.
  cbv zeta. split.
  - apply (ingest_adds_at_most today now _
             (collect_candidates_well_formed items) t zero_counters).
  - apply NoDup_incl_length; [apply NoDup_nodup|].
    intros x Hx. unfold ids_to_add in Hx. apply nodup_In in Hx.
    apply filter_In in Hx as [Hx _]. apply nodup_In. exact Hx.
Qed.

End CollectMore.

(* ================================================================= *)
(** ** More on the selection of papers *)

Section SelectionMore.
Import PyStr Store Summarize Notions.

Lemma insert_desc_descending (p : paper) (l : list paper) :
  descending (map id l) -> descending (map id (insert_desc p l)).
Proof.
  induction l as [|q l IH]; intros Hs.
  - cbn. split; constructor.
  - cbn [insert_desc]. destruct (Z.ltb_spec (id q) (id p)) as [Hlt|Hge].
    + cbn [map descending] in *. destruct Hs as [Hall Hs].
      split; [|split; assumption].
      constructor; [lia|]. eapply Forall_impl; [|exact Hall].
      intros a Ha; cbn in Ha; lia.
    + cbn [map descending] in *. destruct Hs as [Hall Hs].
      split; [|exact (IH Hs)].
      apply Forall_forall. intros j Hj.
      apply in_map_iff in Hj as (x & <- & Hx).
      apply In_insert_desc in Hx as [->|Hx]; [exact Hge|].
      rewrite Forall_forall in Hall. apply Hall. now apply in_map.
Qed.

Lemma order_by_id_desc_descending (t : list paper) :
  descending (map id (order_by_id_desc t)).
Proof.
  unfold order_by_id_desc. induction t as [|p t IH]; cbn [fold_right].
  - exact I.
  - now apply insert_desc_descending.
Qed.

Lemma descending_firstn (n : nat) (l : list Z) :
  descending l -> descending (firstn n l).
Proof.
  revert l; induction n as [|n IH]; intros [|a l] Hs; cbn; auto.
  destruct Hs as [Hall Hs]. split; [|exact (IH l Hs)].
  apply Forall_forall. intros j Hj. rewrite Forall_forall in Hall.
  apply Hall. rewrite <- (firstn_skipn n l). apply in_or_app. left; exact Hj.
Qed.

Lemma descending_split (n : nat) (l : list Z) :
  descending l ->
  forall x y, In x (firstn n l) -> In y (skipn n l) -> (y <= x)%Z.
Proof.
  revert l; induction n as [|n IH]; intros [|a l] Hs x y Hx Hy; cbn in *;
    try contradiction.
  destruct Hs as [Hall Hs]. destruct Hx as [<-|Hx].
  - rewrite Forall_forall in Hall. apply Hall.
    rewrite <- (firstn_skipn n l). apply in_or_app. right; exact Hy.
  - exact (IH l Hs x y Hx Hy).
Qed.

Lemma map_r_id (l : list paper) : map r_id (map row_of_paper l) = map id l.
Proof. rewrite map_map. reflexivity. Qed.

Lemma limit_split {A} (B : Z) (l : list A) :
  exists n, limit B l = firstn n l /\ ((0 <= B)%Z -> n = Z.to_nat B).
Proof.
  unfold limit. destruct (Z.ltb_spec B 0) as [Hneg|Hpos].
  - exists (List.length l). split; [now rewrite firstn_all | lia].
  - exists (Z.to_nat B). split; [reflexivity | reflexivity].
Qed.

(** X21.  Without explicit ids the selection holds at most the batch limit
    of rows, in descending order of id; every row in it is a row of the
    store, and in an unforced run one whose summary or digest is blank;
    and the rows it leaves out are not newer than those it takes: a
    qualifying row of the store is in the selection or has an id no larger
    than every selected one. *)
Theorem batch_selection (BATCH_LIMIT : Z) (t : table) (force : bool) :
  let rows := fetch_papers BATCH_LIMIT t [] force in
  ((0 <= BATCH_LIMIT)%Z -> List.length rows <= Z.to_nat BATCH_LIMIT) /\
  descending (map r_id rows) /\
  (forall r, In r rows ->
     exists p, In p t /\ r = row_of_paper p /\
               (force = false -> needs_summary p = true)) /\
  (forall p, In p t -> (force = true \/ needs_summary p = true) ->
     In (row_of_paper p) rows \/
     forall r, In r rows -> (id p <= r_id r)%Z).
Proof.
  cbv zeta.
  set (l := order_by_id_desc (if force then t else filter needs_summary t)).
  assert (Hrows : fetch_papers BATCH_LIMIT t [] force
                  = map row_of_paper (limit BATCH_LIMIT l)).
  { unfold fetch_papers, l. destruct force; reflexivity. }
  rewrite Hrows.
  destruct (limit_split BATCH_LIMIT l) as (n & -> & Hn).
  assert (Hsorted : descending (map id l)).
  { apply order_by_id_desc_descending. }
  assert (Hl : forall p, In p l <->
                 In p t /\ (force = true \/ needs_summary p = true)).
  { intros p. unfold l. rewrite In_order_by_id_desc. destruct force.
    - split; [intros H; split; auto | intros [H _]; exact H].
    - rewrite filter_In. split.
      + intros [H1 H2]; split; auto.
      + intros [H1 [H2|H2]]; [discriminate | split; assumption]. }
  split.
  { intros HB. rewrite length_map, length_firstn, (Hn HB). lia. }
  split.
  { rewrite map_r_id, <- firstn_map. now apply descending_firstn. }
  split.
  { intros r Hr. apply in_map_iff in Hr as (p & <- & Hp).
    assert (Hp' : In p l).
    { rewrite <- (firstn_skipn n l). apply in_or_app. left; exact Hp. }
    apply Hl in Hp' as [Hin Hq]. exists p. split; [exact Hin|].
    split; [reflexivity|]. intros ->. destruct Hq as [Hq|Hq]; [discriminate | exact Hq]. }
  intros p Hin Hq.
  assert (Hp : In p l) by (apply Hl; split; assumption).
  rewrite <- (firstn_skipn n l) in Hp. apply in_app_or in Hp as [Hp|Hp].
  - left. now apply in_map.
  - right. intros r Hr. apply in_map_iff in Hr as (q & <- & Hq').
    cbn [row_of_paper r_id].
    apply (descending_split n (map id l) Hsorted).
    + rewrite firstn_map. now apply in_map.
    + rewrite skipn_map. now apply in_map.
Qed.

Lemma batch_selection_witness :
  exists p, In p Samples.table_pending /\
            Summarize.row_of_paper Samples.paper_pending = row_of_paper p /\
            (false = false -> needs_summary p = true).
Proof.
  destruct (batch_selection 10 Samples.table_pending false) as (_ & _ & H & _).
  apply H. left; reflexivity.
Defined.

Lemma lookup_last_some (rows : list row) (i : Z) (r : row) :
  lookup_last rows i = Some r -> In r rows /\ r_id r = i.
Proof.
  induction rows as [|x rows IH]; cbn [lookup_last]; [discriminate|].
  destruct (lookup_last rows i) as [r'|] eqn:E.
  - intros H; inversion H; subst r'. destruct (IH eq_refl) as [Hin Hid].
    split; [right; exact Hin | exact Hid].
  - destruct (Z.eqb_spec (r_id x) i) as [Hx|Hx]; [|discriminate].
    intros H; inversion H; subst x. split; [left; reflexivity | exact Hx].
Qed.

Lemma lookup_last_none (rows : list row) (i : Z) :
  lookup_last rows i = None <-> forall r, In r rows -> r_id r <> i.
Proof.
  induction rows as [|x rows IH]; cbn [lookup_last].
  - split; [intros _ r [] | reflexivity].
  - destruct (lookup_last rows i) as [r'|] eqn:E.
    + split; [discriminate|]. intros H. exfalso.
      destruct (lookup_last_some rows i r' E) as [Hin Hid].
      exact (H r' (or_intror Hin) Hid).
    + destruct (Z.eqb_spec (r_id x) i) as [Hx|Hx].
      * split; [discriminate|]. intros H. exfalso. exact (H x (or_introl eq_refl) Hx).
      * split; [|reflexivity]. intros _ r [<-|Hin]; [exact Hx|].
        apply (proj1 IH eq_refl r Hin).
Qed.

Lemma mem_id_In (ids : list Z) (i : Z) : mem_id ids i = true <-> In i ids.
Proof.
  unfold mem_id. rewrite existsb_exists. split.
  - intros (j & Hj & E). apply Z.eqb_eq in E. now subst j.
  - intros H. exists i. split; [exact H | apply Z.eqb_refl].
Qed.

(** The rows fetched for explicit ids, seen from the store. *)
Lemma lookup_in_store (t : table) (ids : list Z) (i : Z) :
  In i ids ->
  match lookup_last (map row_of_paper (filter (fun p => mem_id ids (id p)) t)) i with
  | Some r => (exists p, In p t /\ r = row_of_paper p /\ id p = i) /\
              existsb (fun p => (id p =? i)%Z) t = true
  | None => existsb (fun p => (id p =? i)%Z) t = false
  end.
Proof.
  intros Hi.
  destruct (lookup_last _ i) as [r|] eqn:E.
  - destruct (lookup_last_some _ _ _ E) as [Hin Hid].
    apply in_map_iff in Hin as (p & <- & Hp). apply filter_In in Hp as [Hp _].
    split; [exists p; repeat split; auto|].
    apply existsb_exists. exists p. split; [exact Hp|].
    apply Z.eqb_eq. exact Hid.
  - destruct (existsb (fun p => (id p =? i)%Z) t) eqn:Hex; [|reflexivity].
    exfalso. apply existsb_exists in Hex as (p & Hp & Hid).
    apply Z.eqb_eq in Hid.
    apply (proj1 (lookup_last_none _ i) E (row_of_paper p)).
    + apply in_map. apply filter_In. split; [exact Hp|].
      apply mem_id_In. now rewrite Hid.
    + exact Hid.
Qed.

Lemma rows_for_ids_facts (t : table) (ids0 ids : list Z) :
  incl ids ids0 ->
  let rows := rows_for_ids
                (map row_of_paper (filter (fun p => mem_id ids0 (id p)) t)) ids in
  map r_id rows = filter (fun i => existsb (fun p => (id p =? i)%Z) t) ids /\
  List.length rows + List.length (missing_ids t ids) = List.length ids /\
  forall r, In r rows -> exists p, In p t /\ r = row_of_paper p.
Proof.
  cbv zeta. induction ids as [|i ids IH]; intros Hincl.
  - cbn. repeat split. intros r [].
  - assert (Hi : In i ids0) by (apply Hincl; left; reflexivity).
    assert (Hrest : incl ids ids0)
      by (intros x Hx; apply Hincl; right; exact Hx).
    destruct (IH Hrest) as (IH1 & IH2 & IH3).
    pose proof (lookup_in_store t ids0 i Hi) as Hl.
    cbn [rows_for_ids filter]. unfold missing_ids in *. cbn [filter].
    destruct (lookup_last _ i) as [r|].
    + destruct Hl as [(p & Hp & -> & Hid) Hex]. rewrite Hex. cbn [negb map length].
      split; [now rewrite IH1, <- Hid|]. split; [lia|].
      intros r [<-|Hr]; [exists p; auto | exact (IH3 r Hr)].
    + rewrite Hl. cbn [negb length]. split; [exact IH1|]. split; [lia | exact IH3].
Qed.



End SelectionMore.

(* ================================================================= *)
(** ** More on the orchestrator *)

Section WritesMore.
Import PyStr Store Summarize Notions.

Lemma same_but_summary_columns_refl (p : paper) : same_but_summary_columns p p.
Proof. unfold same_but_summary_columns. repeat split. Qed.

Lemma same_but_summary_columns_trans (p q r : paper) :
  same_but_summary_columns p q -> same_but_summary_columns q r ->
  same_but_summary_columns p r.
Proof.
  unfold same_but_summary_columns.
  intros (a1 & a2 & a3 & a4 & a5 & a6 & a7 & a8 & a9 & a10 & a11 & a12 & a13 & a14 & a15)
         (b1 & b2 & b3 & b4 & b5 & b6 & b7 & b8 & b9 & b10 & b11 & b12 & b13 & b14 & b15).
  repeat split; congruence.
Qed.

Lemma Forall2_same_refl (t : table) : Forall2 same_but_summary_columns t t.
Proof.
  induction t; constructor; [apply same_but_summary_columns_refl | assumption].
Qed.

Lemma Forall2_same_trans (a b c : table) :
  Forall2 same_but_summary_columns a b ->
  Forall2 same_but_summary_columns b c ->
  Forall2 same_but_summary_columns a c.
Proof.
  intros Hab; revert c; induction Hab as [|x y a b Hxy Hab IH]; intros c Hbc;
    inversion Hbc; subst; constructor.
  - eapply same_but_summary_columns_trans; eauto.
  - now apply IH.
Qed.

Lemma update_where_id_frame (pid : Z) (f : paper -> paper) (t : table) :
  (forall p, same_but_summary_columns p (f p)) ->
  Forall2 same_but_summary_columns t (update_where_id pid f t).
Proof.
  intros Hf. unfold update_where_id.
  induction t as [|p t IH]; cbn [map]; constructor; [|exact IH].
  destruct (id p =? pid)%Z; [apply Hf | apply same_but_summary_columns_refl].
Qed.

Lemma save_summary_same (now : string) (t : table) (pid : Z)
    (md digest mdl : string) (toks : option Z) :
  Forall2 same_but_summary_columns t (save_summary now t pid md digest mdl toks).
Proof.
  apply update_where_id_frame. intros p.
  unfold same_but_summary_columns; cbn. repeat split.
Qed.

Lemma save_skip_same (t : table) (pid : Z) (why : string) :
  Forall2 same_but_summary_columns t (save_skip t pid why).
Proof.
  apply update_where_id_frame. intros p.
  unfold same_but_summary_columns; cbn. repeat split.
Qed.




Variable triage_paper : string -> string -> result Triage.triage_result.
Variable call_llm : string -> result Provider.llm_response.
Variable now : string.
Variable BATCH_LIMIT : Z.

Local Notation "'process_row'" := (Summarize.process_row triage_paper call_llm now).
Local Notation "'process_rows'" := (Summarize.process_rows triage_paper call_llm now).
Local Notation "'main'" := (Summarize.main triage_paper call_llm now BATCH_LIMIT).

(** The five ways one round of the loop can end. *)
Lemma process_row_cases (force : bool) (r : row) (s : run_state) :
  let s0 := say (Triaging (r_id r) (take 60 (r_title r))) s in
  let st := log_call (TriageCall (r_title r) (r_abstract r)) s0 in
  (has_real_summary r && negb force = true /\
   snd (process_row force r s) = say (AlreadySummarized (r_id r)) s)
  \/
  (has_real_summary r && negb force = false /\
   ((exists v,
       triage_paper (r_title r) (r_abstract r) = Ok v /\ Triage.relevant v = false /\
       snd (process_row force r s)
       = with_db (fun t => save_skip t (r_id r) (Triage.reason v))
           (count_skipped
              (say (NotRelevant (Triage.reason v))
                 (count_triaged (Triage.triage_tokens v) st))))
    \/
    (exists s1,
       ((exists v, triage_paper (r_title r) (r_abstract r) = Ok v /\
                   Triage.relevant v = true /\
                   s1 = say (Relevant (take 80 (Triage.reason v)))
                          (count_triaged (Triage.triage_tokens v) st))
        \/ (exists e, triage_paper (r_title r) (r_abstract r) = Raise e /\
                      s1 = say (TriageFailed e) st)) /\
       ((exists e, call_llm (format_prompt r) = Raise e /\
                   snd (process_row force r s)
                   = say (SummaryFailed e)
                       (log_call (SummaryCall (format_prompt r)) s1))
        \/ (exists resp digest,
              call_llm (format_prompt r) = Ok resp /\
              snd (process_row force r s)
              = say (Summarized (String.length (summary_text resp)))
                  (count_summarized
                     (with_db (fun t => save_summary now t (r_id r)
                                          (summary_text resp) digest
                                          (Provider.model resp)
                                          (Provider.tokens resp))
                        (log_call (SummaryCall (format_prompt r)) s1)))))))).
Proof.
  cbv zeta. rewrite (process_row_unfold triage_paper call_llm now).
  destruct (has_real_summary r && negb force) eqn:Hg.
  - left. split; reflexivity.
  - right. split; [reflexivity|].
    assert (Hsum : forall s1,
      (exists e, call_llm (format_prompt r) = Raise e /\
                 snd (Summarize.summary_step call_llm now r s1)
                 = say (SummaryFailed e)
                     (log_call (SummaryCall (format_prompt r)) s1))
      \/ (exists resp digest,
            call_llm (format_prompt r) = Ok resp /\
            snd (Summarize.summary_step call_llm now r s1)
            = say (Summarized (String.length (summary_text resp)))
                (count_summarized
                   (with_db (fun t => save_summary now t (r_id r)
                                        (summary_text resp) digest
                                        (Provider.model resp)
                                        (Provider.tokens resp))
                      (log_call (SummaryCall (format_prompt r)) s1))))).
    { intros s1. destruct (call_llm (format_prompt r)) as [resp|e] eqn:Hllm.
      - right. destruct (summary_step_ok call_llm now r s1 resp Hllm)
          as (d & _ & ->). exists resp, d. split; reflexivity.
      - left. rewrite (summary_step_raise call_llm now r s1 e Hllm).
        exists e. split; reflexivity. }
    destruct (triage_paper (r_title r) (r_abstract r)) as [v|e] eqn:Htri.
    + destruct (Triage.relevant v) eqn:Hrel.
      * rewrite (triage_step_relevant triage_paper r _ v Htri Hrel).
        right. eexists. split; [left; exists v; repeat split; auto|].
        apply Hsum.
      * rewrite (triage_step_not_relevant triage_paper r _ v Htri Hrel).
        left. exists v. repeat split; auto.
    + rewrite (triage_step_raise triage_paper r _ e Htri).
      right. eexists. split; [right; exists e; split; reflexivity|].
      apply Hsum.
Qed.

Lemma process_row_frame (force : bool) (r : row) (s : run_state) :
  Forall2 same_but_summary_columns (db s) (db (snd (process_row force r s))).
Proof.
  destruct (process_row_cases force r s)
    as [[_ ->] | [_ [(v & _ & _ & ->) |
                     (s1 & Hs1 & [(e & _ & ->) | (resp & d & _ & ->)])]]].
  - apply Forall2_same_refl.
  - cbn [db with_db count_skipped say count_triaged log_call]. apply save_skip_same.
  - destruct Hs1 as [(v & _ & _ & ->) | (e' & _ & ->)]; apply Forall2_same_refl.
  - destruct Hs1 as [(v & _ & _ & ->) | (e' & _ & ->)];
      cbn [db with_db count_summarized say count_triaged log_call];
      apply save_summary_same.
Qed.

Lemma process_rows_frame (force : bool) (rows : list row) :
  forall s, Forall2 same_but_summary_columns (db s)
                    (db (snd (process_rows force rows s))).
Proof.
  induction rows as [|r rest IH]; intros s.
  - apply Forall2_same_refl.
  - rewrite (process_rows_cons triage_paper call_llm now).
    eapply Forall2_same_trans; [apply process_row_frame | apply IH].
Qed.

(** X24.  Whatever the arguments and whatever the models answer, a run of
    the summary pipeline leaves the table's rows in place and changes in
    them at most the summary, digest, model, token and time columns: no
    row is added or removed, and ids, titles, links, notes and the score
    columns are as before. *)
Theorem run_touches_summary_columns_only
    (ids : list Z) (force : bool) (t : table) :
  let t' := db (snd (main ids force t)) in
  Forall2 same_but_summary_columns t t' /\
  List.length t' = List.length t /\
  map id t' = map id t /\
  map excitement_score t' = map excitement_score t.
Proof.
  cbv zeta. rewrite (main_as_loop triage_paper call_llm now BATCH_LIMIT).
  pose proof (process_rows_frame force (fetch_papers BATCH_LIMIT t ids force)
                (initial_state t)) as H.
  cbn [db initial_state] in H.
  split; [exact H|].
  induction H as [|p p' a b Hp Hab IH]; [repeat split|].
  destruct IH as (IH1 & IH2 & IH3).
  destruct Hp as (Hid & _ & _ & _ & _ & _ & _ & _ & _ & _ & _ & Hsc & _).
  cbn [length map]. rewrite IH1, IH2, IH3, Hid, Hsc. repeat split.
Qed.

Lemma counters_step (force : bool) (r : row) (s : run_state) (n : nat) :
  counters_within s n -> counters_within (snd (process_row force r s)) (S n).
Proof.
  unfold counters_within. intros (H1 & H2 & H3 & H4 & H5).
  destruct (process_row_cases force r s)
    as [[_ ->] | [_ [(v & _ & _ & ->) |
                     (s1 & Hs1 & [(e & _ & ->) | (resp & d & _ & ->)])]]].
  - cbn. lia.
  - cbn. rewrite !length_app. cbn. lia.
  - destruct Hs1 as [(v & _ & _ & ->) | (e' & _ & ->)];
      cbn; rewrite !length_app; cbn; lia.
  - destruct Hs1 as [(v & _ & _ & ->) | (e' & _ & ->)];
      cbn; rewrite !length_app; cbn; lia.
Qed.

Lemma counters_rows (force : bool) (rows : list row) :
  forall s n, counters_within s n ->
              counters_within (snd (process_rows force rows s))
                              (n + List.length rows).
Proof.
  induction rows as [|r rest IH]; intros s n H.
  - cbn. now rewrite Nat.add_0_r.
  - rewrite (process_rows_cons triage_paper call_llm now).
    cbn [length]. replace (n + S (List.length rest)) with (S n + List.length rest) by lia.
    apply IH. now apply counters_step.
Qed.

(** X25.  The counters of the run summary stay within what happened: with
    n rows selected, at most n were triaged, no more were skipped than
    triaged, skipped and summarized together are at most n, at most 2n
    calls went to a model, and triaged plus summarized never exceeds the
    calls made. *)
Theorem run_counters_within
    (ids : list Z) (force : bool) (t : table) :
  counters_within (snd (main ids force t))
                  (List.length (fetch_papers BATCH_LIMIT t ids force)).
Proof.
  rewrite (main_as_loop triage_paper call_llm now BATCH_LIMIT).
  apply (counters_rows force _ (initial_state t) 0).
  unfold counters_within. cbn. lia.
Qed.

Lemma In_update_other (pid : Z) (f : paper -> paper) (t : table) (p : paper) :
  id p <> pid -> In p t -> In p (update_where_id pid f t).
Proof.
  intros Hne Hin. unfold update_where_id. apply in_map_iff. exists p.
  split; [|exact Hin].
  destruct (Z.eqb_spec (id p) pid); [contradiction | reflexivity].
Qed.

Lemma process_row_keeps (r : row) (s : run_state) (p : paper) :
  (r_id r = id p -> has_real_summary r = true) ->
  In p (db s) -> In p (db (snd (process_row false r s))).
Proof.
  intros Hr Hin.
  destruct (process_row_cases false r s)
    as [[_ ->] | [Hg [(v & _ & _ & ->) |
                      (s1 & Hs1 & [(e & _ & ->) | (resp & d & _ & ->)])]]].
  - exact Hin.
  - rewrite andb_true_r in Hg.
    cbn [db with_db count_skipped say count_triaged log_call].
    apply In_update_other; [|exact Hin].
    intros E. rewrite (Hr (eq_sym E)) in Hg. discriminate.
  - destruct Hs1 as [(v & _ & _ & ->) | (e' & _ & ->)]; exact Hin.
  - rewrite andb_true_r in Hg.
    destruct Hs1 as [(v & _ & _ & ->) | (e' & _ & ->)];
      cbn [db with_db count_summarized say count_triaged log_call];
      (apply In_update_other; [|exact Hin]);
      intros E; rewrite (Hr (eq_sym E)) in Hg; discriminate.
Qed.

Lemma process_rows_keep (rows : list row) (p : paper) :
  (forall r, In r rows -> r_id r = id p -> has_real_summary r = true) ->
  forall s, In p (db s) -> In p (db (snd (process_rows false rows s))).
Proof.
  induction rows as [|r rest IH]; intros Hr s Hin.
  - exact Hin.
  - rewrite (process_rows_cons triage_paper call_llm now).
    apply IH; [intros r' Hr'; apply Hr; right; exact Hr'|].
    apply process_row_keeps; [apply Hr; left; reflexivity | exact Hin].
Qed.

Lemma same_id_same_row (t : table) (p q : paper) :
  NoDup (map id t) -> In p t -> In q t -> id q = id p -> q = p.
Proof.
  induction t as [|x t IH]; intros Hnd Hp Hq Hid; [destruct Hp|].
  inversion Hnd as [|y l Hx Hnd']; subst.
  destruct Hp as [->|Hp], Hq as [->|Hq].
  - reflexivity.
  - exfalso. apply Hx. rewrite <- Hid. now apply in_map.
  - exfalso. apply Hx. rewrite Hid. now apply in_map.
  - now apply IH.
Qed.

Lemma fetched_rows_from_store (t : table) (ids : list Z) (force : bool) (r : row) :
  In r (fetch_papers BATCH_LIMIT t ids force) ->
  exists q, In q t /\ r = row_of_paper q.
Proof.
  destruct ids as [|i ids].
  - intros H. unfold fetch_papers in H.
    destruct force; apply in_map_iff in H as (q & <- & Hq);
      apply limit_In in Hq; apply (proj1 (In_order_by_id_desc _ _)) in Hq.
    + eauto.
    + apply filter_In in Hq as [Hq _]. eauto.
  - intros H.
    destruct (rows_for_ids_facts t (i :: ids) (i :: ids) (incl_refl _))
      as (_ & _ & H3).
    exact (H3 r H).
Qed.

(** X26.  An unforced run never overwrites a genuine summary, where
    genuine is what the loop's own test accepts: when the ids of the table
    are distinct, a row whose stored summary is not empty and does not
    contain the text "[Skipped" anywhere is found unchanged in the store
    after the run, whichever ids were asked for and whatever the models
    answer. *)
Theorem genuine_summary_survives_unforced_run
    (ids : list Z) (t : table) (p : paper) (md : string) :
  NoDup (map id t) ->
  In p t ->
  summary_md p = Some md ->
  md <> EmptyString ->
  contains md "[Skipped" = false ->
  In p (db (snd (main ids false t))).
Proof.
  intros Hnd Hin Hmd Hne Hsk.
  assert (Hreal : has_real_summary (row_of_paper p) = true).
  { unfold has_real_summary, row_of_paper; cbn [r_summary_md].
    rewrite Hmd; cbn [Store.coalesce].
    rewrite Hsk, (proj2 (truthy_true_iff md) Hne). reflexivity. }
  rewrite (main_as_loop triage_paper call_llm now BATCH_LIMIT).
  apply process_rows_keep; [|exact Hin].
  intros r Hr Hid.
  destruct (fetched_rows_from_store t ids false r Hr) as (q & Hq & ->).
  cbn [row_of_paper r_id] in Hid.
  now rewrite (same_id_same_row t p q Hnd Hin Hq Hid).
Qed.

End WritesMore.

Lemma genuine_summary_survives_unforced_run_witness :
  let done := Samples.mk_paper 2 (Some "2403.00007") "Search as Reasoning"
                "https://arxiv.org/abs/2403.00007"
                (Some "Search helps on long proofs.") None in
  In done
     (Summarize.db
        (snd (Summarize.main Samples.triage_yes Samples.llm_up
                "2024-03-01T09:00:00" 10%Z [] false
                [Samples.paper_pending; done]))).
Proof.
  cbv zeta.
  apply (genuine_summary_survives_unforced_run
           Samples.triage_yes Samples.llm_up "2024-03-01T09:00:00" 10%Z []
           [Samples.paper_pending;
            Samples.mk_paper 2 (Some "2403.00007") "Search as Reasoning"
              "https://arxiv.org/abs/2403.00007"
              (Some "Search helps on long proofs.") None]
           _ "Search helps on long proofs.").
  - cbn. repeat constructor; cbn; intuition discriminate.
  - right; left; reflexivity.
  - reflexivity.
  - discriminate.
  - vm_compute. reflexivity.
Defined.
